(** * A relay between a prompt form and two LLM providers

    Shallow embedding of [backend/main.py], [llm_utils/openai_utils.py] and
    [llm_utils/google_utils.py], and the properties of the request endpoint
    and of the two provider adapters.

    Layout:
    - [Py]: the part of the Python runtime the three modules rely on
      (text and byte strings, the UTF-8 decoder behind [bytes.decode],
      exceptions, and a writer monad that records the calls made to the
      outside world);
    - [World]: what a request observes outside the three modules (the
      environment, [config.json], the answers of the two SDKs);
    - [Json], [ConfigFile]: [config.json] as the heads of the two adapter
      modules read it when they are imported;
    - [OpenAIUtils], [GoogleUtils]: the two adapters;
    - [Main]: the [/api/generate] endpoint;
    - [Spec], [Mock]: the vocabulary of the properties and concrete worlds
      after the mocks of the repository's tests;
    - facts about the runtime model, then the properties C1 to C10.

    [print] and [logging] calls write to the server console only; they do
    not influence control flow or results and are left out. *)

From Stdlib Require Import NArith ZArith Strings.String Strings.Ascii Strings.Byte.
From Stdlib Require Import DecimalString.
From stdpp Require Import base option list gmap.

Local Open Scope N_scope.

(* ===================================================================== *)
(** * The Python runtime                                                  *)
(* ===================================================================== *)

Module Py.

(** ** Text and byte strings *)

(** A Python [str] is a sequence of Unicode code points, a [bytes] object a
    sequence of octets. *)
Abbreviation codepoint := N (only parsing).
Abbreviation str := (list N) (only parsing).
Abbreviation bytes := (list byte) (only parsing).

(** String literals of the source (all of them ASCII). *)
Definition py (s : string) : str :=
  map N_of_ascii (list_ascii_of_string s).

(** Byte-string literals [b"..."]. *)
Definition pyb (s : string) : bytes :=
  map byte_of_ascii (list_ascii_of_string s).

(** The escape [\n] of the source's string literals. *)
Definition NL : str := [10].

(** Truthiness of an optional string or byte string: [None] and the empty
    sequence are falsy. *)
Definition truthy {A} (o : option (list A)) : bool :=
  match o with
  | Some (_ :: _) => true
  | _ => false
  end.

(** The slice [b[:n]] *)
Definition slice_to {A} (n : N) (b : list A) : list A := take (N.to_nat n) b.

(** [s.startswith(prefix)] *)
Fixpoint startswith (s prefix : str) : bool :=
  match prefix, s with
  | [], _ => true
  | p :: prefix', c :: s' => (c =? p) && startswith s' prefix'
  | _ :: _, [] => false
  end.

(** [sub in s] *)
Fixpoint contains (sub s : str) : bool :=
  startswith s sub ||
  match s with
  | [] => false
  | _ :: s' => contains sub s'
  end.

(** [sep.join(parts)] *)
Fixpoint join (sep : str) (parts : list str) : str :=
  match parts with
  | [] => []
  | [p] => p
  | p :: parts' => p ++ sep ++ join sep parts'
  end.

(** [str.isspace] on one code point: the code points with the Unicode
    White_Space property or bidirectional type WS, B or S. *)
Definition isspace (c : codepoint) : bool :=
  ((0x09 <=? c) && (c <=? 0x0D)) || ((0x1C <=? c) && (c <=? 0x20))
  || (c =? 0x85) || (c =? 0xA0) || (c =? 0x1680)
  || ((0x2000 <=? c) && (c <=? 0x200A))
  || (c =? 0x2028) || (c =? 0x2029) || (c =? 0x202F) || (c =? 0x205F)
  || (c =? 0x3000).

Fixpoint lstrip (s : str) : str :=
  match s with
  | c :: s' => if isspace c then lstrip s' else s
  | [] => []
  end.

Definition rstrip (s : str) : str := rev (lstrip (rev s)).

(** [s.strip()] *)
Definition strip (s : str) : str := rstrip (lstrip s).

(** [str.lower].  On an ASCII string CPython lowers code point by code
    point; otherwise it applies the Unicode case mapping, whose tables are
    not part of this repository: [unicode_lower] stands for it. *)
Definition is_ascii (s : str) : bool := forallb (fun c => c <? 0x80) s.

Definition ascii_lower (c : codepoint) : codepoint :=
  if (0x41 <=? c) && (c <=? 0x5A) then c + 0x20 else c.

Definition lower (unicode_lower : str -> str) (s : str) : str :=
  if is_ascii s then map ascii_lower s else unicode_lower s.

(** ** [bytes.decode]: the UTF-8 decoder

    The decoder reads one sequence at a time.  A malformed sequence is
    reported with the number of bytes it covers (the maximal prefix that
    could still start a well-formed sequence); a sequence cut short by the
    end of the data covers all the bytes that remain. *)

Inductive utf8_step : Type :=
| Utf8Char (ch : codepoint) (len : nat)   (* a well-formed sequence *)
| Utf8Invalid (len : nat)                 (* invalid start or continuation byte *)
| Utf8End.                                (* unexpected end of data *)

Definition is_continuation (b : N) : bool := (0x80 <=? b) && (b <? 0xC0).

Definition utf8_decode_step (s : list N) : utf8_step :=
  match s with
  | [] => Utf8End
  | ch :: s1 =>
    if ch <? 0x80 then Utf8Char ch 1
    else if ch <? 0xC2 then Utf8Invalid 1
    else if ch <? 0xE0 then
      (* C2..DF 80..BF : U+0080..U+07FF *)
      match s1 with
      | [] => Utf8End
      | ch2 :: _ =>
        if negb (is_continuation ch2) then Utf8Invalid 1
        else Utf8Char (N.shiftl ch 6 + ch2 - (N.shiftl 0xC0 6 + 0x80)) 2
      end
    else if ch <? 0xF0 then
      (* E0..EF : U+0800..U+FFFF, without overlong forms and surrogates *)
      match s1 with
      | [] => Utf8End
      | ch2 :: s2 =>
        if negb (is_continuation ch2)
           || (if ch2 <? 0xA0 then ch =? 0xE0 else ch =? 0xED)
        then Utf8Invalid 1
        else match s2 with
             | [] => Utf8End
             | ch3 :: _ =>
               if negb (is_continuation ch3) then Utf8Invalid 2
               else Utf8Char (N.shiftl ch 12 + N.shiftl ch2 6 + ch3
                              - (N.shiftl 0xE0 12 + N.shiftl 0x80 6 + 0x80)) 3
             end
      end
    else if ch <? 0xF5 then
      (* F0..F4 : U+10000..U+10FFFF *)
      match s1 with
      | [] => Utf8End
      | ch2 :: s2 =>
        if negb (is_continuation ch2)
           || (if ch2 <? 0x90 then ch =? 0xF0 else ch =? 0xF4)
        then Utf8Invalid 1
        else match s2 with
             | [] => Utf8End
             | ch3 :: s3 =>
               if negb (is_continuation ch3) then Utf8Invalid 2
               else match s3 with
                    | [] => Utf8End
                    | ch4 :: _ =>
                      if negb (is_continuation ch4) then Utf8Invalid 3
                      else Utf8Char
                             (N.shiftl ch 18 + N.shiftl ch2 12
                              + N.shiftl ch3 6 + ch4
                              - (N.shiftl 0xF0 18 + N.shiftl 0x80 12
                                 + N.shiftl 0x80 6 + 0x80)) 4
                    end
             end
      end
    else Utf8Invalid 1
  end.

(** The two error handlers the adapters use.  Neither raises. *)
Inductive decode_errors : Type :=
| ErrorsIgnore      (* errors='ignore' : the malformed bytes are dropped *)
| ErrorsReplace.    (* errors='replace': they become one U+FFFD *)

Definition on_decode_error (errors : decode_errors) : str :=
  match errors with
  | ErrorsIgnore => []
  | ErrorsReplace => [0xFFFD]
  end.

Fixpoint utf8_decode (fuel : nat) (errors : decode_errors) (s : list N) : str :=
  match fuel, s with
  | O, _ | _, [] => []
  | S fuel', _ :: _ =>
    match utf8_decode_step s with
    | Utf8Char ch len => ch :: utf8_decode fuel' errors (drop len s)
    | Utf8Invalid len => on_decode_error errors ++ utf8_decode fuel' errors (drop len s)
    | Utf8End => on_decode_error errors
    end
  end.

(** [b.decode(errors=...)], with the default encoding, UTF-8.  Every step
    consumes at least one byte, so the length of the input is fuel enough
    (lemma [utf8_decode_fuel] below). *)
Definition decode (errors : decode_errors) (b : bytes) : str :=
  utf8_decode (length b) errors (map Byte.to_N b).

(** ** Exceptions *)

(** The exception classes the three modules tell apart.  [ExceptionCls]
    stands for [Exception] and for every subclass the code does not name. *)
Inductive exc_class : Type :=
| ExceptionCls
| ValueError
| AttributeError
(* openai *)
| APIError
| APIConnectionError
| RateLimitError
| AuthenticationError
(* google.generativeai.errors *)
| GoogleAPIError
| InvalidArgumentError
| PermissionDenied
| ResourceExhausted.

Definition exc_class_eqb (c d : exc_class) : bool :=
  match c, d with
  | ExceptionCls, ExceptionCls | ValueError, ValueError
  | AttributeError, AttributeError | APIError, APIError
  | APIConnectionError, APIConnectionError | RateLimitError, RateLimitError
  | AuthenticationError, AuthenticationError | GoogleAPIError, GoogleAPIError
  | InvalidArgumentError, InvalidArgumentError
  | PermissionDenied, PermissionDenied
  | ResourceExhausted, ResourceExhausted => true
  | _, _ => false
  end.

(** The direct base class, [None] for [Exception]. *)
Definition base_class (c : exc_class) : option exc_class :=
  match c with
  | ExceptionCls => None
  | ValueError | AttributeError | APIError | GoogleAPIError => Some ExceptionCls
  | APIConnectionError | RateLimitError | AuthenticationError => Some APIError
  | InvalidArgumentError | PermissionDenied | ResourceExhausted => Some GoogleAPIError
  end.

(** [issubclass(c, d)]; the hierarchy is two levels deep. *)
Definition issubclass (c d : exc_class) : bool :=
  exc_class_eqb c d ||
  match base_class c with
  | None => false
  | Some b =>
    exc_class_eqb b d ||
    match base_class b with
    | None => false
    | Some b' => exc_class_eqb b' d
    end
  end.

(** An exception raised by an SDK or by file I/O: its class, [str(e)],
    [e.__class__.__name__], and the attributes the handlers format, each
    already rendered as text ([None] when the object has no such
    attribute). *)
Record error : Type := Error {
  exc_class_of : exc_class;
  exc_str : str;
  exc_name : str;
  exc_message : option str;
  exc_status_code : option str;
  exc_type : option str;
}.

(** What the endpoint can raise on top of that: FastAPI's [HTTPException]. *)
Inductive exception : Type :=
| HTTPException (status_code : Z) (detail : str)
| PyError (e : error).

(** The outcome of a call. *)
Inductive outcome (A : Type) : Type :=
| Return (a : A)
| Raise (e : exception).
Arguments Return {A} a.
Arguments Raise {A} e.

(** ** The calls a request makes to the outside world *)

(** One message of a chat-completion request, a dictionary with the keys
    ["role"] and ["content"]. *)
Abbreviation message := (gmap (list N) (list N)) (only parsing).

(** An element of the [contents] of a Gemini request: a string, or the
    part that [Part.from_bytes(data=..., mime_type=...)] builds when it
    does not raise. *)
Inductive content : Type :=
| Text (s : str)
| Part_from_bytes (data : bytes) (mime_type : str).

Inductive event : Type :=
| UploadFile_read                    (* await file.read() *)
| UploadFile_close                   (* await file.close() *)
| OpenAI_client                      (* openai.OpenAI() *)
| ChatCompletions_create (model : str) (messages : list message) (max_tokens : Z)
| GenAI_configure (api_key : str)    (* google_genai_sdk.configure(api_key=...) *)
| GenAI_Part_from_bytes (data : bytes) (mime_type : str)
                                     (* google_genai_types.Part.from_bytes(...) *)
| GenAI_GenerativeModel (model_name : str)
| GenAI_generate_content (model_name : str) (contents : list content).

(** The outbound requests among them, those that reach a provider. *)
Definition is_outbound (e : event) : bool :=
  match e with
  | ChatCompletions_create _ _ _ | GenAI_generate_content _ _ => true
  | _ => false
  end.

(** ** The monad: a computation yields the calls it made and its outcome *)

Definition M (A : Type) : Type := list event * outcome A.

Definition ret {A} (a : A) : M A := ([], Return a).

Definition raise {A} (e : exception) : M A := ([], Raise e).

Definition bind {A B} (m : M A) (k : A -> M B) : M B :=
  match m with
  | (t, Return a) => let '(t', r) := k a in (t ++ t', r)
  | (t, Raise e) => (t, Raise e)
  end.

Notation "x <- m ;; k" := (bind m (fun x => k))
  (at level 100, m at next level, right associativity).
Notation "m ;;; k" := (bind m (fun _ => k))
  (at level 100, right associativity).

(** [try: body  except Exception as e: handler e  else: k], which is also
    how a [try] statement whose handlers all [return] or [raise] continues
    with the statements after it.  A handler that names a class re-raises
    what it does not catch. *)
Definition try_except_else {A B}
    (body : M A) (handler : exception -> M B) (k : A -> M B) : M B :=
  match body with
  | (t, Return a) => let '(t', r) := k a in (t ++ t', r)
  | (t, Raise e) => let '(t', r) := handler e in (t ++ t', r)
  end.

(** [try: body  except Exception as e: handler e] *)
Definition try_except {A} (body : M A) (handler : exception -> M A) : M A :=
  try_except_else body handler ret.

(** [try: body  finally: final]; an exception of [final] replaces the
    outcome of [body]. *)
Definition try_finally {A} (body : M A) (final : M unit) : M A :=
  match body, final with
  | (t, r), (t', Return _) => (t ++ t', r)
  | (t, _), (t', Raise e) => (t ++ t', Raise e)
  end.

(** A call to the outside world: it is recorded, and its result is what
    the world answers. *)
Definition call {A} (ev : event) (answer : error + A) : M A :=
  ([ev], match answer with inl e => Raise (PyError e) | inr a => Return a end).

Definition calls {A} (m : M A) : list event := fst m.
Definition result {A} (m : M A) : outcome A := snd m.

(** [e.__class__] up to the classes told apart, [str(e)] and
    [e.__class__.__name__] of a caught exception.  Starlette prints an
    [HTTPException] as its status code, a colon and its detail. *)
Definition str_of_int (z : Z) : str := py (NilZero.string_of_int (Z.to_int z)).

Definition class_of (e : exception) : exc_class :=
  match e with
  | HTTPException _ _ => ExceptionCls
  | PyError e => exc_class_of e
  end.

Definition str_ (e : exception) : str :=
  match e with
  | HTTPException status_code detail => str_of_int status_code ++ py ": " ++ detail
  | PyError e => exc_str e
  end.

Definition class_name (e : exception) : str :=
  match e with
  | HTTPException _ _ => py "HTTPException"
  | PyError e => exc_name e
  end.

(** [isinstance(e, cls)] *)
Definition isinstance (e : exception) (cls : exc_class) : bool :=
  issubclass (class_of e) cls.

(** [e.attr] inside an f-string: the text of the attribute, or the
    [AttributeError] Python raises when the object has none. *)
Definition attribute (attr : string) (e : exception) : option str :=
  match e with
  | HTTPException status_code detail =>
    if String.eqb attr "status_code" then Some (str_of_int status_code)
    else if String.eqb attr "detail" then Some detail
    else None
  | PyError e =>
    if String.eqb attr "message" then exc_message e
    else if String.eqb attr "status_code" then exc_status_code e
    else if String.eqb attr "type" then exc_type e
    else None
  end.

Definition getattr (e : exception) (attr : string) : M str :=
  match attribute attr e with
  | Some v => ret v
  | None =>
    raise (PyError
      {| exc_class_of := AttributeError;
         exc_str := py "'" ++ class_name e ++ py "' object has no attribute '"
                    ++ py attr ++ py "'";
         exc_name := py "AttributeError";
         exc_message := None; exc_status_code := None; exc_type := None |})
  end.

End Py.

(* ===================================================================== *)
(** * The outside world: environment, configuration file, the two SDKs    *)
(* ===================================================================== *)

Module ChatCompletion.
Import Py.
(** The response of [client.chat.completions.create], as far as the
    adapter reads it: [response.choices[i].message.content]. *)
Record Message : Type := { content : option str }.
Record Choice : Type := { message : option Message }.
Record t : Type := { choices : list Choice }.

(** A completion with one choice, whose message holds [reply]. *)
Definition with_content (reply : str) : t :=
  {| choices := [ {| message := Some {| content := Some reply |} |} ] |}.
End ChatCompletion.

Module GenerateContentResponse.
Import Py.
(** The response of [model.generate_content].  Enumeration members are
    kept by their [.name]; a [block_reason] that is absent or falsy is
    [None]; reading [response.text] may raise. *)
Record SafetyRating : Type := { category : str; probability : str }.
Record PromptFeedback : Type :=
  { block_reason : option str; safety_ratings : list SafetyRating }.
Record Candidate : Type :=
  { finish_reason : str; candidate_safety_ratings : list SafetyRating }.
Record t : Type :=
  { prompt_feedback : option PromptFeedback;
    text : error + str;
    candidates : list Candidate }.
End GenerateContentResponse.

Module World.
Import Py.

(** [config.json] as the adapters see it once their modules are imported
    and their model names are strings: no file, a file that [json.load]
    rejects with [JSONDecodeError], or a JSON object whose entries are
    objects with string fields, or something else.  What the statements at
    the head of the modules do with every file, those included on which the
    import fails or a model name is no string, is [ConfigFile.model_name]
    below; [Spec.config_represents] relates the two. *)
Inductive config_entry : Type :=
| Dict (d : gmap (list N) (list N))
| NotADict.

Inductive config_file : Type :=
| FileNotFoundError
| JSONDecodeError
| Loaded (loaded_config : gmap (list N) config_entry).

(** Everything a request can observe outside the three modules.  The
    SDK entries are deterministic: what a call answers depends on its
    arguments only. *)
Record t : Type := {
  environ : gmap (list N) (list N);                (* os.environ *)
  unicode_lower : str -> str;                      (* case mapping beyond ASCII *)
  config_json : config_file;                       (* config.json at import time *)
  OpenAI : error + unit;                           (* openai.OpenAI() *)
  chat_completions_create :
    str -> list message -> Z -> error + ChatCompletion.t;
  configure : str -> error + unit;                 (* google_genai_sdk.configure *)
  Part_from_bytes : bytes -> str -> error + unit;  (* google_genai_types.Part.from_bytes:
                                                      it raises, or builds the part *)
  GenerativeModel : str -> error + unit;           (* google_genai_sdk.GenerativeModel *)
  generate_content :
    str -> list content -> error + GenerateContentResponse.t;
}.

(** [os.getenv(name)] *)
Definition getenv (w : t) (name : str) : option str := environ w !! name.

(** [d.get(key, default)] on a configuration entry. *)
Definition entry_get (e : config_entry) (key dflt : str) : str :=
  match e with
  | Dict d => default dflt (d !! key)
  | NotADict => dflt
  end.
End World.

(* ===================================================================== *)
(** * The configuration file at import time                               *)
(* ===================================================================== *)

Module Json.
Import Py.

(** A JSON text as [json.load] returns it: [None], a [bool], a number (kept
    by its literal), a [str], a [list] or a [dict], whose members are kept
    in the order of the text. *)
#[warnings="-register-all"]
Inductive value : Type :=
| Null
| Bool (b : bool)
| Number (literal : str)
| String (s : str)
| Array (items : list value)
| Object (members : list (str * value)).

(** [isinstance(v, dict)] *)
Definition is_dict (v : value) : bool :=
  match v with
  | Object _ => true
  | _ => false
  end.

(** What the [dict] built from [members] holds under [key]: of two members
    with one name, the later one stays. *)
Fixpoint lookup (members : list (str * value)) (key : str) : option value :=
  match members with
  | [] => None
  | (k, v) :: rest =>
    match lookup rest key with
    | Some v' => Some v'
    | None => if bool_decide (k = key) then Some v else None
    end
  end.

(** [key == v] for a string [key] *)
Definition is_string (key : str) (v : value) : bool :=
  match v with
  | String s => bool_decide (s = key)
  | _ => false
  end.

End Json.

Module ConfigFile.
Import Py.

(** What [open(CONFIG_FILE_PATH, 'r')] and [json.load(f)] end in: one of
    the two exceptions the modules catch, another exception
    ([PermissionError], [UnicodeDecodeError], ...), kept by the name of its
    class, or the value read. *)
Inductive read_error : Type :=
| FileNotFoundError
| JSONDecodeError
| OtherException (name : str).

Inductive read : Type :=
| Raises (e : read_error)
| Loads (loaded_config : Json.value).

(** What the statements at the head of a module end in: a name is bound,
    or an exception leaves the module and the import fails. *)
Inductive at_import (A : Type) : Type :=
| Bound (a : A)
| ImportFails (exception_name : str).
Arguments Bound {A} a.
Arguments ImportFails {A} exception_name.

Definition and_then {A B} (m : at_import A) (k : A -> at_import B) : at_import B :=
  match m with
  | Bound a => k a
  | ImportFails exception_name => ImportFails exception_name
  end.

(** [key in v] for a string [key]: membership among the keys of a [dict],
    among the items of a [list], as a substring of a [str]; the other
    values are no containers. *)
Definition contains_key (key : str) (v : Json.value) : at_import bool :=
  match v with
  | Json.Object members => Bound (bool_decide (is_Some (Json.lookup members key)))
  | Json.Array items => Bound (existsb (Json.is_string key) items)
  | Json.String s => Bound (contains key s)
  | Json.Null | Json.Bool _ | Json.Number _ => ImportFails (py "TypeError")
  end.

(** [v[key]] for a string [key] *)
Definition getitem (v : Json.value) (key : str) : at_import Json.value :=
  match v with
  | Json.Object members =>
    match Json.lookup members key with
    | Some item => Bound item
    | None => ImportFails (py "KeyError")
    end
  | _ => ImportFails (py "TypeError")
  end.

(** [v.get(key, dflt)] *)
Definition get (v : Json.value) (key : str) (dflt : Json.value) : at_import Json.value :=
  match v with
  | Json.Object members => Bound (default dflt (Json.lookup members key))
  | _ => ImportFails (py "AttributeError")
  end.

(** The [try] statement at the head of [openai_utils.py] and of
    [google_utils.py], which differ in the name of the provider and in the
    default configuration only: it binds [MODEL_CONFIG]. *)
Definition MODEL_CONFIG (provider : str) (DEFAULT_MODEL_CONFIG : Json.value)
    (config_json : read) : at_import Json.value :=
  match config_json with
  | Loads loaded_config =>
    and_then (contains_key provider loaded_config) (fun present =>
    if negb present then Bound DEFAULT_MODEL_CONFIG
    else
      and_then (getitem loaded_config provider) (fun entry =>
      if negb (Json.is_dict entry) then Bound DEFAULT_MODEL_CONFIG
      else Bound loaded_config))
  | Raises FileNotFoundError => Bound DEFAULT_MODEL_CONFIG
  | Raises JSONDecodeError => Bound DEFAULT_MODEL_CONFIG
  | Raises (OtherException name) => ImportFails name
  end.

(** [MODEL_CONFIG.get(provider, {}).get(field,
    DEFAULT_MODEL_CONFIG[provider][field])], after that [try] statement. *)
Definition model_name (provider : str) (DEFAULT_MODEL_CONFIG : Json.value)
    (field : str) (config_json : read) : at_import Json.value :=
  and_then (MODEL_CONFIG provider DEFAULT_MODEL_CONFIG config_json) (fun MODEL_CONFIG =>
  and_then (get MODEL_CONFIG provider (Json.Object [])) (fun entry =>
  and_then (getitem DEFAULT_MODEL_CONFIG provider) (fun default_entry =>
  and_then (getitem default_entry field) (fun fallback =>
  get entry field fallback)))).

End ConfigFile.

(* ===================================================================== *)
(** * llm_utils/openai_utils.py                                           *)
(* ===================================================================== *)

Module OpenAIUtils.
Import Py.

(** The head of the module, for every [config.json]. *)
Module AtImport.

Definition DEFAULT_MODEL_CONFIG : Json.value :=
  Json.Object
    [ (py "openai",
       Json.Object [ (py "default_model", Json.String (py "gpt-3.5-turbo"));
                     (py "vision_model", Json.String (py "gpt-4-turbo")) ]) ].

Definition OPENAI_DEFAULT_MODEL (config_json : ConfigFile.read) :
    ConfigFile.at_import Json.value :=
  ConfigFile.model_name (py "openai") DEFAULT_MODEL_CONFIG (py "default_model")
    config_json.

End AtImport.

Section openai_utils.
Context (w : World.t).

Definition DEFAULT_MODEL_CONFIG : gmap (list N) World.config_entry :=
  {[ py "openai" :=
       World.Dict {[ py "default_model" := py "gpt-3.5-turbo";
                     py "vision_model" := py "gpt-4-turbo" ]} ]}.

Definition MODEL_CONFIG : gmap (list N) World.config_entry :=
  match World.config_json w with
  | World.Loaded loaded_config =>
    match loaded_config !! py "openai" with
    | Some (World.Dict _) => loaded_config
    | _ => DEFAULT_MODEL_CONFIG
    end
  | World.FileNotFoundError | World.JSONDecodeError => DEFAULT_MODEL_CONFIG
  end.

Definition OPENAI_DEFAULT_MODEL : str :=
  World.entry_get (default (World.Dict ∅) (MODEL_CONFIG !! py "openai"))
    (py "default_model") (py "gpt-3.5-turbo").

(** The [except] clauses of the API call, in the order of the source. *)
Definition openai_handlers (e : exception) : M str :=
  if isinstance e APIConnectionError then
    ret (py "Error: OpenAI API Connection Error - " ++ str_ e)
  else if isinstance e RateLimitError then
    ret (py "Error: OpenAI API Rate Limit Exceeded - " ++ str_ e)
  else if isinstance e AuthenticationError then
    ret (py "Error: OpenAI API Authentication Error - " ++ str_ e
         ++ py ". Ensure your OPENAI_API_KEY is correct and active.")
  else if isinstance e APIError then
    (* the logging call reads e.status_code and e.type first *)
    status_code <- getattr e "status_code" ;;
    type <- getattr e "type" ;;
    message <- getattr e "message" ;;
    ret (py "Error: OpenAI API Error - " ++ message ++ py " (Status Code: "
         ++ status_code ++ py ", Type: " ++ type ++ py ")")
  else
    ret (py "Error: An unexpected error occurred while interacting with OpenAI - "
         ++ str_ e).

(** The [try] statement of [get_openai_chat_response]: the request and the
    reading of the response. *)
Definition complete (messages : list message) : M str :=
  try_except
    (client <- call OpenAI_client (World.OpenAI w) ;;
     response <- call (ChatCompletions_create OPENAI_DEFAULT_MODEL messages 1024)
                      (World.chat_completions_create w
                         OPENAI_DEFAULT_MODEL messages 1024) ;;
     match ChatCompletion.choices response with
     | choice :: _ =>
       match ChatCompletion.message choice with
       | Some msg =>
         let bot_response := ChatCompletion.content msg in
         if truthy bot_response then ret (strip (default [] bot_response))
         else ret (py "Error: OpenAI returned an empty response.")
       | None =>
         ret (py "Error: Received an invalid or incomplete response structure from OpenAI.")
       end
     | [] =>
       ret (py "Error: Received an invalid or incomplete response structure from OpenAI.")
     end)
    openai_handlers.

(** [bytes.decode] with [errors='ignore'] cannot raise, so the two
    [except] clauses around it have no counterpart here. *)
Definition get_openai_chat_response
    (prompt : str) (file_content : option bytes) (filename : option str) : M str :=
  if negb (truthy (World.getenv w (py "OPENAI_API_KEY"))) then
    ret (py "Error: OPENAI_API_KEY not found in environment variables. Please set it in your .env file or system environment.")
  else
    let messages : list message := [] in
    let messages :=
      if truthy file_content && truthy filename then
        let file_text_snippet :=
          decode ErrorsIgnore (slice_to 2000 (default [] file_content)) in
        messages ++
        [ {[ py "role" := py "system";
             py "content" :=
               py "The user has uploaded a file named '" ++ default [] filename
               ++ py "'. "
               ++ py "Its content (first 2000 characters) is: "
               ++ file_text_snippet ]} ]
      else if truthy file_content && negb (truthy filename) then
        let file_text_snippet :=
          decode ErrorsIgnore (slice_to 2000 (default [] file_content)) in
        messages ++
        [ {[ py "role" := py "system";
             py "content" :=
               py "The user has uploaded a file (name not provided). Its content (first 2000 characters) is: "
               ++ file_text_snippet ]} ]
      else messages in
    let messages :=
      messages ++ [ {[ py "role" := py "user"; py "content" := prompt ]} ] in
    complete messages.

End openai_utils.
End OpenAIUtils.

(* ===================================================================== *)
(** * llm_utils/google_utils.py                                           *)
(* ===================================================================== *)

Module GoogleUtils.
Import Py.

(** The head of the module, for every [config.json]. *)
Module AtImport.

Definition DEFAULT_MODEL_CONFIG : Json.value :=
  Json.Object
    [ (py "google",
       Json.Object
         [ (py "default_model", Json.String (py "gemini-1.5-flash-latest"));
           (py "vision_model", Json.String (py "gemini-1.5-flash-latest")) ]) ].

Definition GOOGLE_DEFAULT_MODEL (config_json : ConfigFile.read) :
    ConfigFile.at_import Json.value :=
  ConfigFile.model_name (py "google") DEFAULT_MODEL_CONFIG (py "default_model")
    config_json.

Definition GOOGLE_VISION_MODEL (config_json : ConfigFile.read) :
    ConfigFile.at_import Json.value :=
  ConfigFile.model_name (py "google") DEFAULT_MODEL_CONFIG (py "vision_model")
    config_json.

End AtImport.

Section google_utils.
Context (w : World.t).

Definition DEFAULT_MODEL_CONFIG : gmap (list N) World.config_entry :=
  {[ py "google" :=
       World.Dict {[ py "default_model" := py "gemini-1.5-flash-latest";
                     py "vision_model" := py "gemini-1.5-flash-latest" ]} ]}.

Definition MODEL_CONFIG : gmap (list N) World.config_entry :=
  match World.config_json w with
  | World.Loaded loaded_config =>
    match loaded_config !! py "google" with
    | Some (World.Dict _) => loaded_config
    | _ => DEFAULT_MODEL_CONFIG
    end
  | World.FileNotFoundError | World.JSONDecodeError => DEFAULT_MODEL_CONFIG
  end.

Definition GOOGLE_DEFAULT_MODEL : str :=
  World.entry_get (default (World.Dict ∅) (MODEL_CONFIG !! py "google"))
    (py "default_model") (py "gemini-1.5-flash-latest").

Definition GOOGLE_VISION_MODEL : str :=
  World.entry_get (default (World.Dict ∅) (MODEL_CONFIG !! py "google"))
    (py "vision_model") (py "gemini-1.5-flash-latest").

(** [", ".join([f"{sr.category.name}: {sr.probability.name}" for sr in ratings])] *)
Definition safety_ratings_str
    (ratings : list GenerateContentResponse.SafetyRating) : str :=
  join (py ", ")
    (map (fun sr => GenerateContentResponse.category sr ++ py ": "
                    ++ GenerateContentResponse.probability sr) ratings).

(** The [except] clauses of the API call, in the order of the source. *)
Definition google_handlers (model_name_to_use : str) (e : exception) : M str :=
  if isinstance e InvalidArgumentError then
    ret (py "Error: Google API Invalid Argument - " ++ str_ e
         ++ py ". This often means an issue with the request structure (e.g. malformed `contents` or invalid `mime_type`).")
  else if isinstance e GoogleAPIError then
    let error_message :=
      py "Error: Google API Error - " ++ str_ e ++ py " (Type: "
      ++ class_name e ++ py ")." in
    let str_e_lower := lower (World.unicode_lower w) (str_ e) in
    if isinstance e PermissionDenied then
      ret (error_message
           ++ py " This indicates an issue with your GOOGLE_API_KEY (e.g., invalid, disabled, or missing necessary permissions for the Gemini API). Please verify your API key and ensure the 'Generative Language API' or 'Vertex AI API' (if using Vertex) is enabled in your Google Cloud Project.")
    else if isinstance e ResourceExhausted then
      ret (error_message
           ++ py " You may have exceeded your API quota (Rate Limit). Please check your usage and limits in the Google Cloud Console.")
    else if contains (py "model") str_e_lower
            && (contains (py "not found") str_e_lower
                || contains (py "could not find") str_e_lower) then
      ret (error_message ++ py " The requested model ('" ++ model_name_to_use
           ++ py "') might not be found, not available for your project/region, or the name is misspelled.")
    else ret error_message
  else
    ret (py "Error: An unexpected error occurred while interacting with Google Generative AI - "
         ++ str_ e ++ py " (Type: " ++ class_name e ++ py ")").

(** The last [try] statement of [get_google_gemini_response]: the request
    and the reading of the response. *)
Definition generate
    (model_name_to_use : str) (input_contents : list content) : M str :=
  try_except
    (model <- call (GenAI_GenerativeModel model_name_to_use)
                   (World.GenerativeModel w model_name_to_use) ;;
     response <- call (GenAI_generate_content model_name_to_use input_contents)
                      (World.generate_content w model_name_to_use input_contents) ;;
     (* 1. an explicit block reason in prompt_feedback *)
     match GenerateContentResponse.prompt_feedback response
           ≫= (fun pf => GenerateContentResponse.block_reason pf
                          ≫= (fun name => Some (pf, name))) with
     | Some (prompt_feedback, block_reason_name) =>
       let safety_ratings_str :=
         safety_ratings_str (GenerateContentResponse.safety_ratings prompt_feedback) in
       ret (py "Error: Prompt blocked by Google API. Reason: " ++ block_reason_name
            ++ py ". " ++ py "Safety Ratings: [" ++ safety_ratings_str ++ py "]")
     | None =>
       (* 2. the text itself *)
       try_except
         (generated_text <-
            match GenerateContentResponse.text response with
            | inl e => raise (PyError e)
            | inr s => ret s
            end ;;
          if negb (truthy (Some generated_text)) then
            match GenerateContentResponse.candidates response with
            | candidate :: _ =>
              let finish_reason := GenerateContentResponse.finish_reason candidate in
              if negb (bool_decide (finish_reason = py "STOP")) then
                let safety_ratings_str :=
                  safety_ratings_str
                    (GenerateContentResponse.candidate_safety_ratings candidate) in
                ret (py "Error: Google Gemini returned no content. Finish Reason: "
                     ++ finish_reason ++ py ". Safety: [" ++ safety_ratings_str
                     ++ py "]")
              else
                ret (py "Error: Received an empty response from Google Gemini. The prompt may have been too vague or resulted in no actionable output.")
            | [] =>
              ret (py "Error: Received an empty response from Google Gemini. The prompt may have been too vague or resulted in no actionable output.")
            end
          else ret (strip generated_text))
         (fun ve =>
            if isinstance ve ValueError then
              ret (py "Error: Content generation failed. The prompt was likely blocked by Google API due to safety filters or other policy reasons. Please review prompt_feedback for details if available.")
            else raise ve)
     end)
    (google_handlers model_name_to_use).

(** [Part.from_bytes] is called between the [try] statements, so what it
    raises leaves the function.  [bytes.decode] with [errors='replace']
    cannot raise, so the [except] clause around the text excerpt has no
    counterpart here. *)
Definition get_google_gemini_response
    (prompt : str) (file_content : option bytes)
    (filename mime_type : option str) : M str :=
  let api_key := World.getenv w (py "GOOGLE_API_KEY") in
  if negb (truthy api_key) then
    ret (py "Error: GOOGLE_API_KEY not found in environment variables. Please set it in your .env file or system environment.")
  else
    try_except_else
      (call (GenAI_configure (default [] api_key))
            (World.configure w (default [] api_key)))
      (fun e =>
         ret (py "Error: Failed to configure Google GenAI SDK - " ++ str_ e
              ++ py ". Check API key and library installation."))
      (fun _ =>
         let model_name_to_use := GOOGLE_DEFAULT_MODEL in
         if truthy file_content then
           if negb (truthy filename) || negb (truthy mime_type) then
             ret (py "Error: File content provided without filename or MIME type. Both are required for Google Gemini.")
           else
             let file_content := default [] file_content in
             let filename := default [] filename in
             let mime_type := default [] mime_type in
             if contains (py "image") (lower (World.unicode_lower w) mime_type) then
               let model_name_to_use := GOOGLE_VISION_MODEL in
               call (GenAI_Part_from_bytes file_content mime_type)
                    (World.Part_from_bytes w file_content mime_type) ;;;
               let image_part := Part_from_bytes file_content mime_type in
               let input_contents := [Text prompt; image_part] in
               generate model_name_to_use input_contents
             else
               let file_text_snippet :=
                 decode ErrorsReplace (slice_to 50000 file_content) in
               let enhanced_prompt :=
                 prompt ++ NL ++ NL
                 ++ py "--- User Uploaded File: " ++ filename ++ py " (MIME type: "
                 ++ mime_type ++ py ") ---" ++ NL
                 ++ file_text_snippet ++ NL
                 ++ py "--- End of File Content ---" in
               let input_contents := [Text enhanced_prompt] in
               generate model_name_to_use input_contents
         else
           let input_contents := [Text prompt] in
           generate model_name_to_use input_contents).

End google_utils.
End GoogleUtils.

(* ===================================================================== *)
(** * backend/main.py                                                     *)
(* ===================================================================== *)

Module UploadFile.
Import Py.
(** The uploaded file FastAPI hands to the endpoint, with what reading
    and closing it will answer. *)
Record t : Type := {
  filename : option str;
  content_type : option str;
  read : error + bytes;
  close : error + unit;
}.
End UploadFile.

Module Main.
Import Py.

Section main.
Context (w : World.t).

Definition _check_api_key (provider : str) : M unit :=
  let check (key_name : str) : M unit :=
    if negb (truthy (World.getenv w key_name)) then
      let error_msg := key_name ++ py " not configured. Please set it in the .env file." in
      raise (HTTPException 500 error_msg)
    else ret tt in
  if bool_decide (provider = py "openai") then check (py "OPENAI_API_KEY")
  else if bool_decide (provider = py "google") then check (py "GOOGLE_API_KEY")
  else ret tt.

(** The endpoint answers with a JSON object, here a dictionary of strings,
    or raises an [HTTPException].  The adapters are typed to return [str],
    so the test [isinstance(response_text, str)] always holds. *)
Definition generate_text
    (provider text : str) (file : option UploadFile.t) : M (gmap (list N) (list N)) :=
  if negb (bool_decide (provider ∈ [py "openai"; py "google"])) then
    raise (HTTPException 400
             (py "Invalid AI provider specified. Choose 'openai' or 'google'."))
  else
    _check_api_key provider ;;;
    (* file handling *)
    uploaded <-
      match file with
      | Some file =>
        try_finally
          (try_except
             (let filename := UploadFile.filename file in
              let mime_type := UploadFile.content_type file in
              file_content <- call UploadFile_read (UploadFile.read file) ;;
              ret (Some file_content, filename, mime_type))
             (fun e =>
                raise (HTTPException 400
                         (py "Error processing uploaded file: " ++ str_ e))))
          (call UploadFile_close (UploadFile.close file))
      | None => ret (None, None, None)
      end ;;
    let '(file_content, filename, mime_type) := uploaded in
    (* AI model interaction *)
    let response_text := py "" in
    try_except
      (response_text <-
         (if bool_decide (provider = py "openai") then
            OpenAIUtils.get_openai_chat_response w text file_content filename
          else if bool_decide (provider = py "google") then
            GoogleUtils.get_google_gemini_response w text file_content filename mime_type
          else ret response_text) ;;
       if startswith response_text (py "Error:") then
         raise (HTTPException 500 response_text)
       else
         ret {[ py "response" := response_text ]})
      (fun e =>
         match e with
         | HTTPException _ _ => raise e
         | PyError _ =>
           raise (HTTPException 500
                    (py "An unexpected server error occurred while contacting the AI provider: "
                     ++ str_ e))
         end).

End main.
End Main.

(* ===================================================================== *)
(** * Vocabulary of the properties                                        *)
(* ===================================================================== *)

Module Spec.
Import Py.

(** The upload was read and closed without error, and gave the adapter
    these three arguments; without an upload all three are [None]. *)
Inductive file_reads :
  option UploadFile.t -> option bytes -> option str -> option str -> Prop :=
| reads_no_file : file_reads None None None None
| reads_file (file : UploadFile.t) (data : bytes) :
    UploadFile.read file = inr data ->
    UploadFile.close file = inr tt ->
    file_reads (Some file) (Some data)
      (UploadFile.filename file) (UploadFile.content_type file).

(** A request to Gemini takes the image path when its contents hold a
    binary part. *)
Definition has_image_part (contents : list content) : bool :=
  existsb (fun c => match c with Part_from_bytes _ _ => true | Text _ => false end)
    contents.

(** The message list of the OpenAI adapter as the specification words it:
    the excerpt is the first 2000 bytes decoded with the undecodable bytes
    replaced. *)
Definition claimed_openai_messages
    (prompt : str) (file_content : bytes) (filename : str) : list message :=
  [ {[ py "role" := py "system";
       py "content" :=
         py "The user has uploaded a file named '" ++ filename ++ py "'. "
         ++ py "Its content (first 2000 characters) is: "
         ++ decode ErrorsReplace (slice_to 2000 file_content) ]};
    {[ py "role" := py "user"; py "content" := prompt ]} ].

(** The calls of the OpenAI adapter once it has built its message list:
    nothing without the credential; else the client is built and, if that
    did not raise, the request is sent. *)
Definition openai_calls (w : World.t) (messages : list message) : list event :=
  if truthy (World.getenv w (py "OPENAI_API_KEY")) then
    OpenAI_client ::
    match World.OpenAI w with
    | inl _ => []
    | inr _ =>
      [ChatCompletions_create (OpenAIUtils.OPENAI_DEFAULT_MODEL w) messages 1024]
    end
  else [].

(** The calls of the last [try] statement of the Google adapter: the model
    object is built and, if that did not raise, the request is sent. *)
Definition generate_calls (w : World.t)
    (model_name : str) (contents : list content) : list event :=
  GenAI_GenerativeModel model_name ::
  match World.GenerativeModel w model_name with
  | inl _ => []
  | inr _ => [GenAI_generate_content model_name contents]
  end.

(** The calls of the Google adapter once it has settled on a model and on
    the contents of its request: nothing without the credential; else the
    SDK is configured, the image part is built when there is one ([part]
    holds the arguments of [Part.from_bytes]), the model object is built
    and the request is sent, each step only if the one before did not
    raise. *)
Definition gemini_calls (w : World.t) (part : option (bytes * str))
    (model_name : str) (contents : list content) : list event :=
  match World.getenv w (py "GOOGLE_API_KEY") with
  | Some (c :: api_key) =>
    GenAI_configure (c :: api_key) ::
    match World.configure w (c :: api_key) with
    | inl _ => []
    | inr _ =>
      match part with
      | Some (data, mime_type) =>
        GenAI_Part_from_bytes data mime_type ::
        match World.Part_from_bytes w data mime_type with
        | inl _ => []
        | inr _ => generate_calls w model_name contents
        end
      | None => generate_calls w model_name contents
      end
    end
  | _ => []
  end.

(** The request of the Google adapter for an image file as the
    specification words it: the vision model, the prompt and the part built
    from the file. *)
Definition claimed_image_request (w : World.t)
    (prompt : str) (file_content : bytes) (mime_type : str) : event :=
  GenAI_generate_content (GoogleUtils.GOOGLE_VISION_MODEL w)
    [Text prompt; Part_from_bytes file_content mime_type].

(** The text that the Google adapter sends for a file that is not an
    image, after the template of the source and of its test. *)
Definition enhanced_prompt (prompt filename mime_type : str) (excerpt : str) : str :=
  prompt ++ NL ++ NL
  ++ py "--- User Uploaded File: " ++ filename ++ py " (MIME type: "
  ++ mime_type ++ py ") ---" ++ NL
  ++ excerpt ++ NL
  ++ py "--- End of File Content ---".

(** The request of the Google adapter for a file that is not an image as
    the specification words it: the default model and the filled template. *)
Definition claimed_text_file_request (w : World.t)
    (prompt : str) (file_content : bytes) (filename mime_type : str) : event :=
  GenAI_generate_content (GoogleUtils.GOOGLE_DEFAULT_MODEL w)
    [Text (enhanced_prompt prompt filename mime_type
             (decode ErrorsReplace (slice_to 50000 file_content)))].

(** How the endpoint turns the outcome of an adapter into its own. *)
Definition relay (m : M str) : outcome (gmap (list N) (list N)) :=
  match result m with
  | Return response_text =>
    if startswith response_text (py "Error:")
    then Raise (HTTPException 500 response_text)
    else Return {[ py "response" := response_text ]}
  | Raise (HTTPException status_code detail) => Raise (HTTPException status_code detail)
  | Raise (PyError e) =>
    Raise (HTTPException 500
             (py "An unexpected server error occurred while contacting the AI provider: "
              ++ exc_str e))
  end.

(** The calls of reading an upload. *)
Definition upload_calls (file : option UploadFile.t) : list event :=
  match file with
  | Some _ => [UploadFile_read; UploadFile_close]
  | None => []
  end.

(** The message list the OpenAI adapter builds before its request. *)
Definition openai_messages
    (prompt : str) (file_content : option bytes) (filename : option str) :
    list message :=
  (if truthy file_content && truthy filename then
     [ {[ py "role" := py "system";
          py "content" :=
            py "The user has uploaded a file named '" ++ default [] filename
            ++ py "'. "
            ++ py "Its content (first 2000 characters) is: "
            ++ decode ErrorsIgnore (slice_to 2000 (default [] file_content)) ]} ]
   else if truthy file_content && negb (truthy filename) then
     [ {[ py "role" := py "system";
          py "content" :=
            py "The user has uploaded a file (name not provided). Its content (first 2000 characters) is: "
            ++ decode ErrorsIgnore (slice_to 2000 (default [] file_content)) ]} ]
   else [])
  ++ [ {[ py "role" := py "user"; py "content" := prompt ]} ].

(** What the Google adapter settles on before its request: the validation
    error, or the arguments of [Part.from_bytes] on the image path, a model
    and the contents to send. *)
Definition gemini_plan (w : World.t) (prompt : str)
    (file_content : option bytes) (filename mime_type : option str) :
    str + (option (bytes * str) * str * list content) :=
  if truthy file_content then
    if negb (truthy filename) || negb (truthy mime_type) then
      inl (py "Error: File content provided without filename or MIME type. Both are required for Google Gemini.")
    else if contains (py "image")
              (lower (World.unicode_lower w) (default [] mime_type)) then
      inr (Some (default [] file_content, default [] mime_type),
           GoogleUtils.GOOGLE_VISION_MODEL w,
           [Text prompt;
            Part_from_bytes (default [] file_content) (default [] mime_type)])
    else
      inr (None, GoogleUtils.GOOGLE_DEFAULT_MODEL w,
           [Text (enhanced_prompt prompt (default [] filename)
                    (default [] mime_type)
                    (decode ErrorsReplace
                       (slice_to 50000 (default [] file_content))))])
  else inr (None, GoogleUtils.GOOGLE_DEFAULT_MODEL w, [Text prompt]).

(** The calls that belong to a provider's SDK. *)
Definition is_openai_call (e : event) : bool :=
  match e with
  | OpenAI_client | ChatCompletions_create _ _ _ => true
  | _ => false
  end.

Definition is_google_call (e : event) : bool :=
  match e with
  | GenAI_configure _ | GenAI_Part_from_bytes _ _
  | GenAI_GenerativeModel _ | GenAI_generate_content _ _ => true
  | _ => false
  end.

Definition is_upload_call (e : event) : bool :=
  match e with
  | UploadFile_read | UploadFile_close => true
  | _ => false
  end.

(** The world [w] with another [config.json]. *)
Definition with_config (w : World.t) (c : World.config_file) : World.t :=
  {| World.environ := World.environ w;
     World.unicode_lower := World.unicode_lower w;
     World.config_json := c;
     World.OpenAI := World.OpenAI w;
     World.chat_completions_create := World.chat_completions_create w;
     World.configure := World.configure w;
     World.Part_from_bytes := World.Part_from_bytes w;
     World.GenerativeModel := World.GenerativeModel w;
     World.generate_content := World.generate_content w |}.

(** A [config.json] of the adapters' world stands for the outcomes of
    reading the file that it abstracts: no file; a file that is not JSON; a
    JSON object that has the same entries, where [Dict d] is an object with
    the string fields of [d] and [NotADict] any value that is no object. *)
Definition entry_represents (e : World.config_entry) (v : Json.value) : Prop :=
  match e with
  | World.Dict d =>
    exists members,
      v = Json.Object members
      /\ forall field, Json.lookup members field = Json.String <$> d !! field
  | World.NotADict => Json.is_dict v = false
  end.

Definition config_represents (c : World.config_file) (r : ConfigFile.read) : Prop :=
  match c with
  | World.FileNotFoundError => r = ConfigFile.Raises ConfigFile.FileNotFoundError
  | World.JSONDecodeError => r = ConfigFile.Raises ConfigFile.JSONDecodeError
  | World.Loaded loaded_config =>
    exists members,
      r = ConfigFile.Loads (Json.Object members)
      /\ forall provider,
           match loaded_config !! provider, Json.lookup members provider with
           | Some e, Some v => entry_represents e v
           | None, None => True
           | _, _ => False
           end
  end.

(** One such outcome for each configuration of the adapters' world. *)
Definition json_of_entry (e : World.config_entry) : Json.value :=
  match e with
  | World.Dict d => Json.Object (prod_map id Json.String <$> map_to_list d)
  | World.NotADict => Json.Null
  end.

Definition read_of_config (c : World.config_file) : ConfigFile.read :=
  match c with
  | World.FileNotFoundError => ConfigFile.Raises ConfigFile.FileNotFoundError
  | World.JSONDecodeError => ConfigFile.Raises ConfigFile.JSONDecodeError
  | World.Loaded loaded_config =>
    ConfigFile.Loads
      (Json.Object (prod_map id json_of_entry <$> map_to_list loaded_config))
  end.

(** The endpoint for a recognized provider, given the name of its
    credential and its adapter: the key check, the upload, the relay. *)
Definition endpoint_with (w : World.t) (key_name : str)
    (adapter : option bytes -> option str -> option str -> M str)
    (file : option UploadFile.t) : M (gmap (list N) (list N)) :=
  if truthy (World.getenv w key_name) then
    match file with
    | None => let m := adapter None None None in (calls m, relay m)
    | Some f =>
      match UploadFile.read f, UploadFile.close f with
      | inr data, inr _ =>
        let m := adapter (Some data) (UploadFile.filename f)
                   (UploadFile.content_type f) in
        ([UploadFile_read; UploadFile_close] ++ calls m, relay m)
      | inl e, inr _ =>
        ([UploadFile_read; UploadFile_close],
         Raise (HTTPException 400
                  (py "Error processing uploaded file: " ++ exc_str e)))
      | _, inl e' => ([UploadFile_read; UploadFile_close], Raise (PyError e'))
      end
    end
  else
    ([], Raise (HTTPException 500
                  (key_name ++ py " not configured. Please set it in the .env file."))).

End Spec.

(** ** Concrete worlds, after the mocks of the repository's tests *)

Module Mock.
Import Py.

(** A Gemini response that is not blocked and whose text is [reply]. *)
Definition gemini_response (reply : str) : GenerateContentResponse.t :=
  {| GenerateContentResponse.prompt_feedback := None;
     GenerateContentResponse.text := inr reply;
     GenerateContentResponse.candidates := [] |}.

(** Both credentials set, no [config.json], and providers whose SDKs answer
    every request the same way. *)
Definition world_answering
    (completion : error + ChatCompletion.t)
    (generation : error + GenerateContentResponse.t) : World.t :=
  {| World.environ := {[ py "OPENAI_API_KEY" := py "fake_openai_key";
                         py "GOOGLE_API_KEY" := py "fake_google_key" ]};
     World.unicode_lower := fun s => s;
     World.config_json := World.FileNotFoundError;
     World.OpenAI := inr tt;
     World.chat_completions_create := fun _ _ _ => completion;
     World.configure := fun _ => inr tt;
     World.Part_from_bytes := fun _ _ => inr tt;
     World.GenerativeModel := fun _ => inr tt;
     World.generate_content := fun _ _ => generation |}.

(** Providers that answer every request with the text [reply]. *)
Definition world (reply : str) : World.t :=
  world_answering (inr (ChatCompletion.with_content reply))
                  (inr (gemini_response reply)).

(** An SDK exception of class [cls] with message [msg]. *)
Definition sdk_error (cls : exc_class) (name msg : string) : error :=
  {| exc_class_of := cls; exc_str := py msg; exc_name := py name;
     exc_message := Some (py msg); exc_status_code := None; exc_type := None |}.

(** The same world without credentials: one variable is set to the empty
    string, the other is not set. *)
Definition world_without_keys (reply : str) : World.t :=
  {| World.environ := {[ py "OPENAI_API_KEY" := py "" ]};
     World.unicode_lower := World.unicode_lower (world reply);
     World.config_json := World.config_json (world reply);
     World.OpenAI := World.OpenAI (world reply);
     World.chat_completions_create := World.chat_completions_create (world reply);
     World.configure := World.configure (world reply);
     World.Part_from_bytes := World.Part_from_bytes (world reply);
     World.GenerativeModel := World.GenerativeModel (world reply);
     World.generate_content := World.generate_content (world reply) |}.

(** An upload that reads and closes without error. *)
Definition upload (name mime : str) (data : bytes) : UploadFile.t :=
  {| UploadFile.filename := Some name;
     UploadFile.content_type := Some mime;
     UploadFile.read := inr data;
     UploadFile.close := inr tt |}.

(** A response whose prompt was blocked for safety, with two ratings and
    a text all the same. *)
Definition blocked_feedback : GenerateContentResponse.PromptFeedback :=
  {| GenerateContentResponse.block_reason := Some (py "SAFETY");
     GenerateContentResponse.safety_ratings :=
       [ {| GenerateContentResponse.category := py "HARM_CATEGORY_DANGEROUS_CONTENT";
            GenerateContentResponse.probability := py "HIGH" |};
         {| GenerateContentResponse.category := py "HARM_CATEGORY_HARASSMENT";
            GenerateContentResponse.probability := py "LOW" |} ] |}.

Definition blocked_response : GenerateContentResponse.t :=
  {| GenerateContentResponse.prompt_feedback := Some blocked_feedback;
     GenerateContentResponse.text := inr (py "some text");
     GenerateContentResponse.candidates := [] |}.

(** A [config.json] whose ["google"] object names a vision model only. *)
Definition google_vision_only : gmap (list N) (list N) :=
  {[ py "vision_model" := py "custom-vision" ]}.

Definition config_vision_only : gmap (list N) World.config_entry :=
  {[ py "google" := World.Dict google_vision_only ]}.

(** The [config.json] of the Google adapter's tests, whose vision model
    differs from its default model. *)
Definition google_test_models : gmap (list N) (list N) :=
  {[ py "default_model" := py "gemini-test-default";
     py "vision_model" := py "gemini-test-vision" ]}.

Definition DEFAULT_TEST_CONFIG : gmap (list N) World.config_entry :=
  {[ py "google" := World.Dict google_test_models ]}.

(** The world of the tests: that configuration, and a case mapping that is
    the identity beyond ASCII. *)
Definition test_world (reply : str) : World.t :=
  Spec.with_config (world reply) (World.Loaded DEFAULT_TEST_CONFIG).

(** The same world, in which [Part.from_bytes] raises. *)
Definition world_without_parts (reply : str) : World.t :=
  {| World.environ := World.environ (test_world reply);
     World.unicode_lower := World.unicode_lower (test_world reply);
     World.config_json := World.config_json (test_world reply);
     World.OpenAI := World.OpenAI (test_world reply);
     World.chat_completions_create := World.chat_completions_create (test_world reply);
     World.configure := World.configure (test_world reply);
     World.Part_from_bytes :=
       fun _ _ => inl (sdk_error ValueError "ValueError" "unsupported image data");
     World.GenerativeModel := World.GenerativeModel (test_world reply);
     World.generate_content := World.generate_content (test_world reply) |}.

(** [config.json] as the repository ships it could be any of these: the
    object of the Google tests; an object whose model name is [null]; the
    number 5; a list that names the provider. *)
Definition json_test_config : Json.value :=
  Json.Object
    [ (py "google",
       Json.Object [ (py "default_model", Json.String (py "gemini-test-default"));
                     (py "vision_model", Json.String (py "gemini-test-vision")) ]) ].

Definition json_null_model : Json.value :=
  Json.Object
    [ (py "openai", Json.Object [ (py "default_model", Json.Null) ]);
      (py "google", Json.Object [ (py "vision_model", Json.Null) ]) ].

Definition json_provider_list : Json.value :=
  Json.Array [ Json.String (py "openai"); Json.String (py "google") ].

(** A file of 50014 bytes: a byte that is not UTF-8, 49999 letters, and
    a tail beyond the first 50000 bytes. *)
Definition long_file : bytes :=
  x80 :: replicate (N.to_nat 49999) "a"%byte ++ pyb "beyond the cut".

End Mock.

(* ===================================================================== *)
(** * Properties of the runtime model                                     *)
(* ===================================================================== *)

Import Py.

(** ** The decoder *)

Lemma utf8_decode_step_progress s :
  match utf8_decode_step s with
  | Utf8Char _ len | Utf8Invalid len => (1 <= len)%nat
  | Utf8End => True
  end.
Proof.
  unfold utf8_decode_step.
  repeat case_match; simplify_eq; simpl; lia.
Qed.

Lemma utf8_decode_nil fuel errors : utf8_decode fuel errors [] = [].
Proof. by destruct fuel. Qed.

(** Any fuel that covers the input gives the same text: [decode] never
    stops short. *)
Lemma utf8_decode_fuel errors fuel1 :
  forall fuel2 s,
    (length s <= fuel1)%nat -> (length s <= fuel2)%nat ->
    utf8_decode fuel1 errors s = utf8_decode fuel2 errors s.
Proof.
  induction fuel1 as [|fuel1 IH]; intros fuel2 s H1 H2.
  - destruct s; [by rewrite !utf8_decode_nil | simpl in H1; lia].
  - destruct fuel2 as [|fuel2].
    { destruct s; [done | simpl in H2; lia]. }
    destruct s as [|c s]; [done|].
    cbn [utf8_decode].
    pose proof (utf8_decode_step_progress (c :: s)) as Hstep.
    destruct (utf8_decode_step (c :: s)) as [ch len|len|]; [| |done].
    + f_equal. apply IH; rewrite length_drop; simpl in *; lia.
    + f_equal. apply IH; rewrite length_drop; simpl in *; lia.
Qed.

Lemma decode_fuel errors fuel b :
  (length b <= fuel)%nat ->
  utf8_decode fuel errors (map Byte.to_N b) = decode errors b.
Proof.
  intros Hfuel. unfold decode.
  apply utf8_decode_fuel; rewrite length_map; lia.
Qed.

(** The text that ['ignore'] yields is the text that ['replace'] yields
    with the replacement characters of the malformed sequences left out. *)
Lemma utf8_decode_ignore_sublist fuel :
  forall s, utf8_decode fuel ErrorsIgnore s `sublist_of` utf8_decode fuel ErrorsReplace s.
Proof.
  induction fuel as [|fuel IH]; intros s; [done|].
  destruct s as [|c s]; [done|].
  cbn [utf8_decode].
  destruct (utf8_decode_step (c :: s)) as [ch len|len|]; simpl.
  - by apply sublist_skip.
  - by apply sublist_cons.
  - apply sublist_nil_l.
Qed.

Lemma decode_ignore_sublist b :
  decode ErrorsIgnore b `sublist_of` decode ErrorsReplace b.
Proof. apply utf8_decode_ignore_sublist. Qed.

(** On ASCII data both handlers return the data unchanged. *)
Lemma utf8_decode_ascii errors s :
  forall fuel,
    Forall (fun c => c < 0x80) s -> (length s <= fuel)%nat ->
    utf8_decode fuel errors s = s.
Proof.
  induction s as [|c s IH]; intros fuel Hs Hfuel.
  - apply utf8_decode_nil.
  - destruct fuel as [|fuel]; [simpl in Hfuel; lia|].
    inversion Hs as [|? ? Hc Hs']; subst.
    cbn [utf8_decode utf8_decode_step].
    apply N.ltb_lt in Hc. rewrite Hc. cbn [drop].
    f_equal. apply IH; [done | simpl in Hfuel; lia].
Qed.

Lemma decode_ascii errors b :
  Forall (fun c => Byte.to_N c < 0x80) b ->
  decode errors b = map Byte.to_N b.
Proof.
  intros Hb. unfold decode. apply utf8_decode_ascii.
  - by apply Forall_map.
  - by rewrite length_map.
Qed.

(** A byte that cannot start a sequence is handled on its own. *)
Lemma decode_invalid_start errors b :
  decode errors (x80 :: b) = on_decode_error errors ++ decode errors b.
Proof. reflexivity. Qed.

Lemma map_replicate {A B} (f : A -> B) n x :
  map f (replicate n x) = replicate n (f x).
Proof. induction n as [|n IH]; [done|]. cbn [replicate map]. by rewrite IH. Qed.

(** The excerpt of [Mock.long_file]: its first 50000 bytes, the first of
    them replaced. *)
Lemma decode_long_file :
  decode ErrorsReplace (take (N.to_nat 50000) Mock.long_file)
  = 0xFFFD :: replicate (N.to_nat 49999) 97%N.
Proof.
  unfold Mock.long_file.
  change (x80 :: ?r ++ ?t) with ((x80 :: r) ++ t).
  rewrite take_app_length'.
  - rewrite decode_invalid_start, decode_ascii.
    + by rewrite map_replicate.
    + apply Forall_replicate. by vm_compute.
  - cbn [length]. rewrite length_replicate.
    change 50000%N with (N.succ 49999). by rewrite N2Nat.inj_succ.
Qed.

(** ** The monad *)

Section monad_facts.
Context {A B : Type}.

Lemma calls_bind (m : M A) (k : A -> M B) :
  calls (bind m k)
  = calls m ++ match result m with Return a => calls (k a) | Raise _ => [] end.
Proof.
  destruct m as [t [a|e]]; simpl.
  - by destruct (k a).
  - by rewrite app_nil_r.
Qed.

Lemma result_bind (m : M A) (k : A -> M B) :
  result (bind m k)
  = match result m with Return a => result (k a) | Raise e => Raise e end.
Proof. destruct m as [t [a|e]]; simpl; [by destruct (k a) | done]. Qed.

Lemma calls_try_except_else (body : M A) (handler : exception -> M B) (k : A -> M B) :
  calls (try_except_else body handler k)
  = calls body ++ match result body with
                  | Return a => calls (k a)
                  | Raise e => calls (handler e)
                  end.
Proof. destruct body as [t [a|e]]; simpl; [by destruct (k a) | by destruct (handler e)]. Qed.

Lemma result_try_except_else (body : M A) (handler : exception -> M B) (k : A -> M B) :
  result (try_except_else body handler k)
  = match result body with
    | Return a => result (k a)
    | Raise e => result (handler e)
    end.
Proof. destruct body as [t [a|e]]; simpl; [by destruct (k a) | by destruct (handler e)]. Qed.

Lemma calls_try_except (body : M A) (handler : exception -> M A) :
  calls (try_except body handler)
  = calls body ++ match result body with
                  | Return _ => []
                  | Raise e => calls (handler e)
                  end.
Proof.
  destruct body as [t [a|e]]; simpl; [by rewrite app_nil_r | by destruct (handler e)].
Qed.

Lemma result_try_except (body : M A) (handler : exception -> M A) :
  result (try_except body handler)
  = match result body with
    | Return a => Return a
    | Raise e => result (handler e)
    end.
Proof. destruct body as [t [a|e]]; simpl; [done | by destruct (handler e)]. Qed.

Lemma calls_try_finally (body : M A) (final : M unit) :
  calls (try_finally body final) = calls body ++ calls final.
Proof. by destruct body as [t r], final as [t' [[]|e]]. Qed.

Lemma result_try_finally (body : M A) (final : M unit) :
  result (try_finally body final)
  = match result final with Return _ => result body | Raise e => Raise e end.
Proof. by destruct body as [t r], final as [t' [[]|e]]. Qed.

Lemma calls_call (ev : event) (answer : error + A) : calls (call ev answer) = [ev].
Proof. done. Qed.

Lemma result_call (ev : event) (answer : error + A) :
  result (call ev answer)
  = match answer with inl e => Raise (PyError e) | inr a => Return a end.
Proof. done. Qed.

Lemma calls_ret (a : A) : calls (ret a) = [].
Proof. done. Qed.

Lemma result_ret (a : A) : result (ret a) = Return a.
Proof. done. Qed.

Lemma calls_raise (e : exception) : calls (@raise A e) = [].
Proof. done. Qed.

Lemma result_raise (e : exception) : result (@raise A e) = Raise e.
Proof. done. Qed.

Lemma M_eta (m : M A) : m = (calls m, result m).
Proof. by destruct m. Qed.

End monad_facts.

#[global] Arguments calls : simpl never.
#[global] Arguments result : simpl never.
#[global] Arguments bind : simpl never.
#[global] Arguments ret : simpl never.
#[global] Arguments raise : simpl never.
#[global] Arguments call : simpl never.
#[global] Arguments try_except : simpl never.
#[global] Arguments try_except_else : simpl never.
#[global] Arguments try_finally : simpl never.
#[global] Arguments py : simpl never.

Create Rewrite HintDb monad.
#[global] Hint Rewrite
  @calls_ret @result_ret @calls_raise @result_raise @calls_call @result_call
  @calls_bind @result_bind @calls_try_except @result_try_except
  @calls_try_except_else @result_try_except_else
  @calls_try_finally @result_try_finally : monad.

(** Push [calls] and [result] through the monad's combinators. *)
Ltac monad :=
  repeat (autorewrite with monad; cbn beta iota);
  cbn [app]; rewrite ?app_nil_r.

(** ** Text *)

Lemma startswith_app_l (s t p : str) :
  startswith s p = true -> startswith (s ++ t) p = true.
Proof.
  revert s. induction p as [|c p IH]; intros s.
  - by destruct s, t.
  - destruct s as [|d s]; [done|]. simpl.
    intros [-> ?]%andb_true_iff. by rewrite IH.
Qed.

Lemma truthy_nonempty {X} (x : list X) : x <> [] -> truthy (Some x) = true.
Proof. by destruct x. Qed.

(** ** The adapters: which calls they make *)

Lemma openai_handlers_calls e : calls (OpenAIUtils.openai_handlers e) = [].
Proof.
  unfold OpenAIUtils.openai_handlers, getattr.
  repeat case_match; reflexivity.
Qed.

Lemma google_handlers_calls w model e :
  calls (GoogleUtils.google_handlers w model e) = [].
Proof.
  unfold GoogleUtils.google_handlers.
  repeat case_match; reflexivity.
Qed.

(** The OpenAI adapter builds its client and, if that succeeds, sends one
    request; its handlers call nothing. *)
Lemma complete_calls w messages :
  calls (OpenAIUtils.complete w messages)
  = OpenAI_client ::
    match World.OpenAI w with
    | inl _ => []
    | inr _ => [ChatCompletions_create (OpenAIUtils.OPENAI_DEFAULT_MODEL w) messages 1024]
    end.
Proof.
  unfold OpenAIUtils.complete. monad.
  destruct (World.OpenAI w) as [e|[]]; monad.
  { by rewrite openai_handlers_calls. }
  destruct (World.chat_completions_create _ _ _ _) as [e|response]; monad.
  { by rewrite openai_handlers_calls. }
  repeat case_match; by monad.
Qed.

(** Gemini likewise: the model object is built, then one request is sent. *)
Lemma generate_calls w model contents :
  calls (GoogleUtils.generate w model contents)
  = GenAI_GenerativeModel model ::
    match World.GenerativeModel w model with
    | inl _ => []
    | inr _ => [GenAI_generate_content model contents]
    end.
Proof.
  unfold GoogleUtils.generate. monad.
  destruct (World.GenerativeModel w model) as [e|[]]; monad.
  { by rewrite google_handlers_calls. }
  destruct (World.generate_content _ _ _) as [e|response]; monad.
  { by rewrite google_handlers_calls. }
  destruct (_ ≫= _) as [[pf name]|]; monad; [done|].
  destruct (GenerateContentResponse.text response) as [e|s]; monad.
  { case_match; monad; [done|]. by rewrite google_handlers_calls. }
  repeat case_match; by monad.
Qed.

(** The three ways through the OpenAI adapter. *)
Lemma openai_calls_request w messages model messages' max_tokens :
  ChatCompletions_create model messages' max_tokens ∈ Spec.openai_calls w messages ->
  model = OpenAIUtils.OPENAI_DEFAULT_MODEL w /\ messages' = messages
  /\ max_tokens = 1024%Z.
Proof.
  unfold Spec.openai_calls.
  destruct (truthy _); [|by intros ?%elem_of_nil].
  destruct (World.OpenAI w);
    rewrite ?elem_of_cons, ?elem_of_nil; intros H;
    repeat destruct H as [H|H]; by simplify_eq.
Qed.

Lemma openai_calls_complete w messages :
  truthy (World.getenv w (py "OPENAI_API_KEY")) = true ->
  World.OpenAI w = inr tt ->
  Spec.openai_calls w messages
  = [OpenAI_client;
     ChatCompletions_create (OpenAIUtils.OPENAI_DEFAULT_MODEL w) messages 1024].
Proof. intros Hkey Hclient. unfold Spec.openai_calls. by rewrite Hkey, Hclient. Qed.

Lemma openai_calls_prompt_only w prompt :
  calls (OpenAIUtils.get_openai_chat_response w prompt None None)
  = Spec.openai_calls w [ {[ py "role" := py "user"; py "content" := prompt ]} ].
Proof.
  unfold OpenAIUtils.get_openai_chat_response, Spec.openai_calls.
  destruct (truthy (World.getenv _ _)); [|done].
  cbn [negb truthy andb app]. apply complete_calls.
Qed.

Lemma openai_calls_named_file w prompt file_content filename :
  file_content <> [] -> filename <> [] ->
  calls (OpenAIUtils.get_openai_chat_response w prompt
           (Some file_content) (Some filename))
  = Spec.openai_calls w
      [ {[ py "role" := py "system";
           py "content" :=
             py "The user has uploaded a file named '" ++ filename ++ py "'. "
             ++ py "Its content (first 2000 characters) is: "
             ++ decode ErrorsIgnore (slice_to 2000 file_content) ]};
        {[ py "role" := py "user"; py "content" := prompt ]} ].
Proof.
  intros Hfile Hname.
  unfold OpenAIUtils.get_openai_chat_response, Spec.openai_calls.
  destruct (truthy (World.getenv _ _)); [|done].
  destruct file_content, filename; try done. apply complete_calls.
Qed.

Lemma openai_calls_unnamed_file w prompt file_content filename :
  file_content <> [] -> truthy filename = false ->
  calls (OpenAIUtils.get_openai_chat_response w prompt (Some file_content) filename)
  = Spec.openai_calls w
      [ {[ py "role" := py "system";
           py "content" :=
             py "The user has uploaded a file (name not provided). Its content (first 2000 characters) is: "
             ++ decode ErrorsIgnore (slice_to 2000 file_content) ]};
        {[ py "role" := py "user"; py "content" := prompt ]} ].
Proof.
  intros Hfile Hname.
  unfold OpenAIUtils.get_openai_chat_response, Spec.openai_calls.
  destruct (truthy (World.getenv _ _)); [|done].
  rewrite Hname. destruct file_content; [done|]. apply complete_calls.
Qed.

(** ** The endpoint *)

(** Decisions on the two provider names, evaluated once. *)
Lemma provider_tests :
  bool_decide (py "openai" ∈ [py "openai"; py "google"]) = true
  /\ bool_decide (py "google" ∈ [py "openai"; py "google"]) = true
  /\ bool_decide (py "openai" = py "openai") = true
  /\ bool_decide (py "google" = py "openai") = false
  /\ bool_decide (py "google" = py "google") = true.
Proof. by vm_compute. Qed.

Lemma check_api_key_openai w :
  Main._check_api_key w (py "openai")
  = if truthy (World.getenv w (py "OPENAI_API_KEY")) then ret tt
    else raise (HTTPException 500
                  (py "OPENAI_API_KEY"
                   ++ py " not configured. Please set it in the .env file.")).
Proof.
  unfold Main._check_api_key.
  destruct provider_tests as (_ & _ & -> & _).
  by destruct (truthy _).
Qed.

Lemma check_api_key_google w :
  Main._check_api_key w (py "google")
  = if truthy (World.getenv w (py "GOOGLE_API_KEY")) then ret tt
    else raise (HTTPException 500
                  (py "GOOGLE_API_KEY"
                   ++ py " not configured. Please set it in the .env file.")).
Proof.
  unfold Main._check_api_key.
  destruct provider_tests as (_ & _ & _ & -> & ->).
  by destruct (truthy _).
Qed.

(** With the credential set and the upload read, the endpoint calls the
    adapter of the provider and relays its outcome. *)
Lemma generate_text_openai w text file file_content filename mime_type :
  truthy (World.getenv w (py "OPENAI_API_KEY")) = true ->
  Spec.file_reads file file_content filename mime_type ->
  let m := OpenAIUtils.get_openai_chat_response w text file_content filename in
  Main.generate_text w (py "openai") text file
  = (Spec.upload_calls file ++ calls m, Spec.relay m).
Proof.
  intros Hkey Hfile m. unfold Main.generate_text.
  rewrite check_api_key_openai, Hkey.
  destruct provider_tests as (-> & _ & -> & _). cbn [negb].
  rewrite (M_eta (bind _ _)). monad.
  destruct Hfile as [|file data Hread Hclose]; monad.
  - fold m. unfold Spec.relay, Spec.upload_calls.
    destruct (result m) as [s|[c d|e]]; monad; [|done..].
    destruct (startswith s _); by monad.
  - rewrite Hread, Hclose. monad. fold m. unfold Spec.relay, Spec.upload_calls.
    destruct (result m) as [s|[c d|e]]; monad; [|done..].
    destruct (startswith s _); by monad.
Qed.

Lemma generate_text_google w text file file_content filename mime_type :
  truthy (World.getenv w (py "GOOGLE_API_KEY")) = true ->
  Spec.file_reads file file_content filename mime_type ->
  let m := GoogleUtils.get_google_gemini_response w text file_content filename mime_type in
  Main.generate_text w (py "google") text file
  = (Spec.upload_calls file ++ calls m, Spec.relay m).
Proof.
  intros Hkey Hfile m. unfold Main.generate_text.
  rewrite check_api_key_google, Hkey.
  destruct provider_tests as (_ & -> & _ & -> & ->). cbn [negb].
  rewrite (M_eta (bind _ _)). monad.
  destruct Hfile as [|file data Hread Hclose]; monad.
  - fold m. unfold Spec.relay, Spec.upload_calls.
    destruct (result m) as [s|[c d|e]]; monad; [|done..].
    destruct (startswith s _); by monad.
  - rewrite Hread, Hclose. monad. fold m. unfold Spec.relay, Spec.upload_calls.
    destruct (result m) as [s|[c d|e]]; monad; [|done..].
    destruct (startswith s _); by monad.
Qed.

(* ===================================================================== *)
(** * The model on the tests of the repository                            *)
(* ===================================================================== *)

(** [test_generate_text_invalid_provider] *)
Example invalid_provider :
  Main.generate_text (Mock.world (py "unused")) (py "unknown_provider") (py "Hello") None
  = ([], Raise (HTTPException 400
                  (py "Invalid AI provider specified. Choose 'openai' or 'google'."))).
Proof. vm_compute. reflexivity. Qed.

(** [test_file_read_error_handling]: the upload is closed all the same. *)
Example file_read_error :
  Main.generate_text (Mock.world (py "unused")) (py "openai") (py "Analyze this")
    (Some {| UploadFile.filename := Some (py "error_file.txt");
             UploadFile.content_type := Some (py "text/plain");
             UploadFile.read :=
               inl (Mock.sdk_error ExceptionCls "Exception" "Simulated file read error");
             UploadFile.close := inr tt |})
  = ([UploadFile_read; UploadFile_close],
     Raise (HTTPException 400
              (py "Error processing uploaded file: Simulated file read error"))).
Proof. vm_compute. reflexivity. Qed.

(** [test_get_openai_chat_response_authentication_error] *)
Example openai_authentication_error :
  result (OpenAIUtils.get_openai_chat_response
            (Mock.world_answering
               (inl (Mock.sdk_error AuthenticationError "AuthenticationError"
                       "Invalid API Key"))
               (inr (Mock.gemini_response (py "unused"))))
            (py "Hello") None None)
  = Return (py "Error: OpenAI API Authentication Error - Invalid API Key. Ensure your OPENAI_API_KEY is correct and active.").
Proof. vm_compute. reflexivity. Qed.

(** [test_get_openai_chat_response_generic_api_error], where the test sets
    [status_code] and [type] on the exception by hand. *)
Example openai_generic_api_error :
  result (OpenAIUtils.get_openai_chat_response
            (Mock.world_answering
               (inl {| exc_class_of := APIError;
                       exc_str := py "Generic API Error";
                       exc_name := py "APIError";
                       exc_message := Some (py "Generic API Error");
                       exc_status_code := Some (py "500");
                       exc_type := Some (py "internal_server_error") |})
               (inr (Mock.gemini_response (py "unused"))))
            (py "Hello") None None)
  = Return (py "Error: OpenAI API Error - Generic API Error (Status Code: 500, Type: internal_server_error)").
Proof. vm_compute. reflexivity. Qed.

(** Without those two attributes the handler itself raises, and the
    endpoint falls back on its last [except] clause. *)
Example openai_api_error_without_status_code :
  result (Main.generate_text
            (Mock.world_answering
               (inl (Mock.sdk_error APIError "APIError" "Generic API Error"))
               (inr (Mock.gemini_response (py "unused"))))
            (py "openai") (py "Hello") None)
  = Raise (HTTPException 500
             (py "An unexpected server error occurred while contacting the AI provider: 'APIError' object has no attribute 'status_code'")).
Proof. vm_compute. reflexivity. Qed.

(** [test_get_google_gemini_response_prompt_blocked] *)
Example google_prompt_blocked :
  result (GoogleUtils.get_google_gemini_response
            (Mock.world_answering
               (inr (ChatCompletion.with_content (py "unused")))
               (inr {| GenerateContentResponse.prompt_feedback :=
                         Some {| GenerateContentResponse.block_reason :=
                                   Some (py "SAFETY");
                                 GenerateContentResponse.safety_ratings :=
                                   [ {| GenerateContentResponse.category :=
                                          py "HARM_CATEGORY_DANGEROUS_CONTENT";
                                        GenerateContentResponse.probability :=
                                          py "HIGH" |} ] |};
                       GenerateContentResponse.text :=
                         inl (Mock.sdk_error ValueError "ValueError" "blocked");
                       GenerateContentResponse.candidates := [] |}))
            (py "A problematic prompt") None None None)
  = Return (py "Error: Prompt blocked by Google API. Reason: SAFETY. Safety Ratings: [HARM_CATEGORY_DANGEROUS_CONTENT: HIGH]").
Proof. vm_compute. reflexivity. Qed.

(** [test_get_google_gemini_response_empty_text_finish_reason_other] *)
Example google_empty_text :
  result (GoogleUtils.get_google_gemini_response
            (Mock.world_answering
               (inr (ChatCompletion.with_content (py "unused")))
               (inr {| GenerateContentResponse.prompt_feedback := None;
                       GenerateContentResponse.text := inr (py "");
                       GenerateContentResponse.candidates :=
                         [ {| GenerateContentResponse.finish_reason := py "OTHER";
                              GenerateContentResponse.candidate_safety_ratings :=
                                [ {| GenerateContentResponse.category :=
                                       py "HARM_CATEGORY_HARASSMENT";
                                     GenerateContentResponse.probability :=
                                       py "NEGLIGIBLE" |} ] |} ] |}))
            (py "A prompt that might yield no text") None None None)
  = Return (py "Error: Google Gemini returned no content. Finish Reason: OTHER. Safety: [HARM_CATEGORY_HARASSMENT: NEGLIGIBLE]").
Proof. vm_compute. reflexivity. Qed.

(** [test_get_google_gemini_response_permission_denied] *)
Example google_permission_denied :
  exists advice,
    result (GoogleUtils.get_google_gemini_response
              (Mock.world_answering
                 (inr (ChatCompletion.with_content (py "unused")))
                 (inl (Mock.sdk_error PermissionDenied "PermissionDenied"
                         "Fake permission denied")))
              (py "Test permission error") None None None)
    = Return (py "Error: Google API Error - Fake permission denied (Type: PermissionDenied). This indicates an issue with your GOOGLE_API_KEY"
              ++ advice).
Proof. eexists. vm_compute. reflexivity. Qed.

(** [test_file_decoding_error] expects an error string for the file
    [b'\x80abc'].  With [errors='ignore'] there is none: the byte is dropped
    and the adapter returns the answer of the model. *)
Example openai_undecodable_file_is_no_error :
  result (OpenAIUtils.get_openai_chat_response
            (Mock.world (py "OpenAI file processed")) (py "Test")
            (Some (x80 :: pyb "abc")) (Some (py "bad_encoding.txt")))
  = Return (py "OpenAI file processed").
Proof. vm_compute. reflexivity. Qed.

(* ===================================================================== *)
(** * The endpoint: errors and success                                    *)
(* ===================================================================== *)

(** C1.  Whenever the endpoint has reached an adapter (the credential of
    the provider is set and the upload, if any, was read) and the adapter
    returns a string that starts with ["Error:"], the endpoint raises an
    [HTTPException] with status 500 whose detail is that very string. *)
Theorem C1_adapter_error_is_relayed_verbatim
    w text file file_content filename mime_type detail :
  Spec.file_reads file file_content filename mime_type ->
  startswith detail (py "Error:") = true ->
  (truthy (World.getenv w (py "OPENAI_API_KEY")) = true ->
   result (OpenAIUtils.get_openai_chat_response w text file_content filename)
   = Return detail ->
   result (Main.generate_text w (py "openai") text file)
   = Raise (HTTPException 500 detail))
  /\
  (truthy (World.getenv w (py "GOOGLE_API_KEY")) = true ->
   result (GoogleUtils.get_google_gemini_response
             w text file_content filename mime_type)
   = Return detail ->
   result (Main.generate_text w (py "google") text file)
   = Raise (HTTPException 500 detail)).
Proof.
  intros Hfile Hprefix. split; intros Hkey Hresult.
  - rewrite (generate_text_openai _ _ _ _ _ _ Hkey Hfile).
    unfold result at 1, Spec.relay. cbn [snd]. by rewrite Hresult, Hprefix.
  - rewrite (generate_text_google _ _ _ _ _ _ Hkey Hfile).
    unfold result at 1, Spec.relay. cbn [snd]. by rewrite Hresult, Hprefix.
Qed.

(** The two error relays of the endpoint's tests: the mocked providers
    answer ["Error: OpenAI specific problem"] and
    ["Error: Google specific problem"]. *)
Lemma C1_witness :
  result (Main.generate_text (Mock.world (py "Error: OpenAI specific problem"))
            (py "openai") (py "Test error") None)
  = Raise (HTTPException 500 (py "Error: OpenAI specific problem"))
  /\ result (Main.generate_text (Mock.world (py "Error: Google specific problem"))
               (py "google") (py "Test error google") None)
     = Raise (HTTPException 500 (py "Error: Google specific problem")).
Proof.
  split.
  - apply (C1_adapter_error_is_relayed_verbatim
             (Mock.world (py "Error: OpenAI specific problem")) (py "Test error")
             None None None None (py "Error: OpenAI specific problem")
             Spec.reads_no_file);
      vm_compute; reflexivity.
  - apply (C1_adapter_error_is_relayed_verbatim
             (Mock.world (py "Error: Google specific problem"))
             (py "Test error google")
             None None None None (py "Error: Google specific problem")
             Spec.reads_no_file);
      vm_compute; reflexivity.
Defined.

(** C7.  For a recognized provider whose credential is unset or empty the
    endpoint raises an [HTTPException] with status 500 whose detail names
    the missing variable, and it has made no call at all by then: the
    upload is not read and no adapter is entered. *)
Theorem C7_missing_credential w text file :
  (truthy (World.getenv w (py "OPENAI_API_KEY")) = false ->
   exists detail,
     Main.generate_text w (py "openai") text file
     = ([], Raise (HTTPException 500 detail))
     /\ contains (py "OPENAI_API_KEY not configured.") detail = true)
  /\
  (truthy (World.getenv w (py "GOOGLE_API_KEY")) = false ->
   exists detail,
     Main.generate_text w (py "google") text file
     = ([], Raise (HTTPException 500 detail))
     /\ contains (py "GOOGLE_API_KEY not configured.") detail = true).
Proof.
  split; intros Hkey; eexists; split.
  - unfold Main.generate_text.
    rewrite check_api_key_openai, Hkey.
    destruct provider_tests as (-> & _). reflexivity.
  - by vm_compute.
  - unfold Main.generate_text.
    rewrite check_api_key_google, Hkey.
    destruct provider_tests as (_ & -> & _). reflexivity.
  - by vm_compute.
Qed.

(** With one key empty and the other unset, a request with an upload stops
    before the upload is read. *)
Lemma C7_witness :
  (exists detail,
     Main.generate_text (Mock.world_without_keys (py "unused")) (py "openai")
       (py "Hello OpenAI")
       (Some (Mock.upload (py "test.txt") (py "text/plain") (pyb "data")))
     = ([], Raise (HTTPException 500 detail))
     /\ contains (py "OPENAI_API_KEY not configured.") detail = true)
  /\
  (exists detail,
     Main.generate_text (Mock.world_without_keys (py "unused")) (py "google")
       (py "Hello Google")
       (Some (Mock.upload (py "test.txt") (py "text/plain") (pyb "data")))
     = ([], Raise (HTTPException 500 detail))
     /\ contains (py "GOOGLE_API_KEY not configured.") detail = true).
Proof.
  split.
  - apply (proj1 (C7_missing_credential (Mock.world_without_keys (py "unused"))
                    (py "Hello OpenAI")
                    (Some (Mock.upload (py "test.txt") (py "text/plain") (pyb "data"))))).
    vm_compute; reflexivity.
  - apply (proj2 (C7_missing_credential (Mock.world_without_keys (py "unused"))
                    (py "Hello Google")
                    (Some (Mock.upload (py "test.txt") (py "text/plain") (pyb "data"))))).
    vm_compute; reflexivity.
Defined.

(** C4.  Called with a prompt and no file, the OpenAI adapter sends the
    chat-completion API exactly the one-element message list
    [[{"role": "user", "content": prompt}]]: no request it makes carries any
    other list, and the request is made (to the configured default model,
    with [max_tokens=1024]) whenever the credential is set and the client can
    be built.  When the text the adapter returns does not start with
    ["Error:"], the endpoint answers [{"response": text}]. *)
Theorem C4_openai_prompt_only w prompt :
  let m := OpenAIUtils.get_openai_chat_response w prompt None None in
  let messages := [ {[ py "role" := py "user"; py "content" := prompt ]} ] in
  (forall model messages' max_tokens,
      ChatCompletions_create model messages' max_tokens ∈ calls m ->
      messages' = messages)
  /\ (truthy (World.getenv w (py "OPENAI_API_KEY")) = true ->
      World.OpenAI w = inr tt ->
      calls m
      = [OpenAI_client;
         ChatCompletions_create (OpenAIUtils.OPENAI_DEFAULT_MODEL w) messages 1024])
  /\ (truthy (World.getenv w (py "OPENAI_API_KEY")) = true ->
      forall text,
        result m = Return text ->
        startswith text (py "Error:") = false ->
        Main.generate_text w (py "openai") prompt None
        = (calls m, Return {[ py "response" := text ]})).
Proof.
  intros m messages. split; [|split].
  - intros model messages' max_tokens. subst m.
    rewrite openai_calls_prompt_only. by intros (_ & -> & _)%openai_calls_request.
  - intros Hkey Hclient. subst m.
    rewrite openai_calls_prompt_only. by apply openai_calls_complete.
  - intros Hkey text Hresult Hprefix.
    rewrite (generate_text_openai _ _ _ _ _ None Hkey Spec.reads_no_file).
    fold m. unfold Spec.relay. by rewrite Hresult, Hprefix.
Qed.

(** The first test of the endpoint and of the adapter: prompt
    ["Hello OpenAI"], a provider that answers ["Mocked OpenAI response"]. *)
Lemma C4_witness :
  calls (OpenAIUtils.get_openai_chat_response
           (Mock.world (py "Mocked OpenAI response")) (py "Hello OpenAI") None None)
  = [OpenAI_client;
     ChatCompletions_create (py "gpt-3.5-turbo")
       [ {[ py "role" := py "user"; py "content" := py "Hello OpenAI" ]} ] 1024]
  /\ result (Main.generate_text (Mock.world (py "Mocked OpenAI response"))
               (py "openai") (py "Hello OpenAI") None)
     = Return {[ py "response" := py "Mocked OpenAI response" ]}.
Proof.
  destruct (C4_openai_prompt_only (Mock.world (py "Mocked OpenAI response"))
              (py "Hello OpenAI")) as (_ & Hcalls & Hendpoint).
  split.
  - apply Hcalls; vm_compute; reflexivity.
  - rewrite (Hendpoint ltac:(vm_compute; reflexivity) (py "Mocked OpenAI response"));
      [reflexivity | vm_compute; reflexivity ..].
Defined.

(** A completion with a non-empty message is returned stripped. *)
Lemma complete_result w messages reply :
  World.OpenAI w = inr tt ->
  World.chat_completions_create w (OpenAIUtils.OPENAI_DEFAULT_MODEL w) messages 1024
  = inr (ChatCompletion.with_content reply) ->
  reply <> [] ->
  result (OpenAIUtils.complete w messages) = Return (strip reply).
Proof.
  intros Hclient Hanswer Hreply. unfold OpenAIUtils.complete.
  monad. rewrite Hclient. monad. rewrite Hanswer. monad.
  cbn. by destruct reply.
Qed.

(** C8.  The endpoint has no other sign of failure than the prefix
    ["Error:"].  Text that the model itself generated, returned by the
    adapter on its success path, is answered with status 500 when it begins
    with ["Error:"], and as [{"response": text}] when it does not; and for
    every request that reaches an adapter, with or without a file, whatever
    string the adapter returns decides the outcome of the endpoint by its
    prefix alone. *)
Theorem C8_generated_text_taken_for_an_error w prompt :
  (forall generated,
      truthy (World.getenv w (py "OPENAI_API_KEY")) = true ->
      World.OpenAI w = inr tt ->
      World.chat_completions_create w (OpenAIUtils.OPENAI_DEFAULT_MODEL w)
        [ {[ py "role" := py "user"; py "content" := prompt ]} ] 1024
      = inr (ChatCompletion.with_content generated) ->
      generated <> [] ->
      result (OpenAIUtils.get_openai_chat_response w prompt None None)
      = Return (strip generated)
      /\ (startswith (strip generated) (py "Error:") = true ->
          result (Main.generate_text w (py "openai") prompt None)
          = Raise (HTTPException 500 (strip generated)))
      /\ (startswith (strip generated) (py "Error:") = false ->
          result (Main.generate_text w (py "openai") prompt None)
          = Return {[ py "response" := strip generated ]}))
  /\ (forall file file_content filename mime_type text,
         Spec.file_reads file file_content filename mime_type ->
         (truthy (World.getenv w (py "OPENAI_API_KEY")) = true ->
          result (OpenAIUtils.get_openai_chat_response
                    w prompt file_content filename) = Return text ->
          result (Main.generate_text w (py "openai") prompt file)
          = if startswith text (py "Error:")
            then Raise (HTTPException 500 text)
            else Return {[ py "response" := text ]})
         /\ (truthy (World.getenv w (py "GOOGLE_API_KEY")) = true ->
             result (GoogleUtils.get_google_gemini_response
                       w prompt file_content filename mime_type) = Return text ->
             result (Main.generate_text w (py "google") prompt file)
             = if startswith text (py "Error:")
               then Raise (HTTPException 500 text)
               else Return {[ py "response" := text ]})).
Proof.
  assert (forall file file_content filename mime_type text,
             Spec.file_reads file file_content filename mime_type ->
             truthy (World.getenv w (py "OPENAI_API_KEY")) = true ->
             result (OpenAIUtils.get_openai_chat_response
                       w prompt file_content filename) = Return text ->
             result (Main.generate_text w (py "openai") prompt file)
             = if startswith text (py "Error:")
               then Raise (HTTPException 500 text)
               else Return {[ py "response" := text ]}) as Hrelay.
  { intros file file_content filename mime_type text Hfile Hkey Htext.
    rewrite (generate_text_openai _ _ _ _ _ mime_type Hkey Hfile).
    unfold result at 1, Spec.relay. cbn [snd]. by rewrite Htext. }
  split.
  - intros generated Hkey Hclient Hanswer Hgenerated.
    assert (result (OpenAIUtils.get_openai_chat_response w prompt None None)
            = Return (strip generated)) as Hresult.
    { unfold OpenAIUtils.get_openai_chat_response.
      rewrite Hkey. cbn [negb truthy andb app].
      by apply complete_result. }
    split; [done|].
    split; intros Hprefix;
      by rewrite (Hrelay None None None None _ Spec.reads_no_file Hkey Hresult),
           Hprefix.
  - intros file file_content filename mime_type text Hfile. split.
    + by apply (Hrelay file file_content filename mime_type).
    + intros Hkey Htext.
      rewrite (generate_text_google _ _ _ _ _ _ Hkey Hfile).
      unfold result at 1, Spec.relay. cbn [snd]. by rewrite Htext.
Qed.

(** A model that writes ["Error: 404 is the status code for a missing page"]
    gets its answer reported as a server error; had it written the same
    without the first word, the endpoint would have answered with it. *)
Lemma C8_witness :
  (result (OpenAIUtils.get_openai_chat_response
             (Mock.world (py "Error: 404 is the status code for a missing page"))
             (py "What does 404 mean?") None None)
   = Return (py "Error: 404 is the status code for a missing page")
   /\ result (Main.generate_text
                (Mock.world (py "Error: 404 is the status code for a missing page"))
                (py "openai") (py "What does 404 mean?") None)
      = Raise (HTTPException 500
                 (py "Error: 404 is the status code for a missing page")))
  /\ (result (OpenAIUtils.get_openai_chat_response
                (Mock.world (py "404 is the status code for a missing page"))
                (py "What does 404 mean?") None None)
      = Return (py "404 is the status code for a missing page")
      /\ result (Main.generate_text
                   (Mock.world (py "404 is the status code for a missing page"))
                   (py "openai") (py "What does 404 mean?") None)
         = Return {[ py "response" :=
                       py "404 is the status code for a missing page" ]}).
Proof.
  split.
  - destruct (proj1 (C8_generated_text_taken_for_an_error
                       (Mock.world (py "Error: 404 is the status code for a missing page"))
                       (py "What does 404 mean?"))
                (py "Error: 404 is the status code for a missing page"))
      as (Hadapter & Hfailure & _);
      [vm_compute; (reflexivity || discriminate) .. |].
    split; [exact Hadapter | apply Hfailure; vm_compute; reflexivity].
  - destruct (proj1 (C8_generated_text_taken_for_an_error
                       (Mock.world (py "404 is the status code for a missing page"))
                       (py "What does 404 mean?"))
                (py "404 is the status code for a missing page"))
      as (Hadapter & _ & Hsuccess);
      [vm_compute; (reflexivity || discriminate) .. |].
    split; [exact Hadapter | apply Hsuccess; vm_compute; reflexivity].
Defined.

(* ===================================================================== *)
(** * The Google adapter: which request for which file                    *)
(* ===================================================================== *)

Lemma gemini_calls_request w part model contents model' contents' :
  GenAI_generate_content model' contents' ∈ Spec.gemini_calls w part model contents ->
  model' = model /\ contents' = contents.
Proof.
  unfold Spec.gemini_calls, Spec.generate_calls.
  destruct (World.getenv _ _) as [[|c api_key]|];
    [by intros ?%elem_of_nil | | by intros ?%elem_of_nil].
  destruct (World.configure _ _);
    [|destruct part as [[data mime_type]|];
      [destruct (World.Part_from_bytes _ _ _)|]];
    try destruct (World.GenerativeModel _ _);
    rewrite ?elem_of_cons, ?elem_of_nil; intros H;
    repeat destruct H as [H|H]; by simplify_eq.
Qed.

Lemma gemini_calls_complete w model contents api_key :
  World.getenv w (py "GOOGLE_API_KEY") = Some api_key ->
  api_key <> [] ->
  World.configure w api_key = inr tt ->
  World.GenerativeModel w model = inr tt ->
  Spec.gemini_calls w None model contents
  = [GenAI_configure api_key; GenAI_GenerativeModel model;
     GenAI_generate_content model contents].
Proof.
  intros Hkey Hne Hconfigure Hmodel. unfold Spec.gemini_calls, Spec.generate_calls.
  rewrite Hkey. destruct api_key as [|c api_key]; [done|].
  by rewrite Hconfigure, Hmodel.
Qed.

Lemma gemini_calls_complete_image w data mime_type model contents api_key :
  World.getenv w (py "GOOGLE_API_KEY") = Some api_key ->
  api_key <> [] ->
  World.configure w api_key = inr tt ->
  World.Part_from_bytes w data mime_type = inr tt ->
  World.GenerativeModel w model = inr tt ->
  Spec.gemini_calls w (Some (data, mime_type)) model contents
  = [GenAI_configure api_key; GenAI_Part_from_bytes data mime_type;
     GenAI_GenerativeModel model; GenAI_generate_content model contents].
Proof.
  intros Hkey Hne Hconfigure Hpart Hmodel.
  unfold Spec.gemini_calls, Spec.generate_calls.
  rewrite Hkey. destruct api_key as [|c api_key]; [done|].
  by rewrite Hconfigure, Hpart, Hmodel.
Qed.

Lemma gemini_calls_no_part w model contents data mime_type :
  GenAI_Part_from_bytes data mime_type ∉ Spec.gemini_calls w None model contents.
Proof.
  unfold Spec.gemini_calls, Spec.generate_calls.
  destruct (World.getenv _ _) as [[|c api_key]|];
    [by intros ?%elem_of_nil | | by intros ?%elem_of_nil].
  destruct (World.configure _ _); [|destruct (World.GenerativeModel _ _)];
    rewrite ?elem_of_cons, ?elem_of_nil; intros H;
    repeat destruct H as [H|H]; by simplify_eq.
Qed.

Lemma gemini_calls_part w data mime_type model contents data' mime_type' :
  GenAI_Part_from_bytes data' mime_type'
    ∈ Spec.gemini_calls w (Some (data, mime_type)) model contents ->
  (data', mime_type') = (data, mime_type).
Proof.
  unfold Spec.gemini_calls, Spec.generate_calls.
  destruct (World.getenv _ _) as [[|c api_key]|];
    [by intros ?%elem_of_nil | | by intros ?%elem_of_nil].
  destruct (World.configure _ _);
    [|destruct (World.Part_from_bytes _ _ _);
      [|destruct (World.GenerativeModel _ _)]];
    rewrite ?elem_of_cons, ?elem_of_nil; intros H;
    repeat destruct H as [H|H]; by simplify_eq.
Qed.

(** A MIME type that mentions an image is not empty. *)
Lemma contains_image_nonempty unicode_lower (mime_type : str) :
  contains (py "image") (lower unicode_lower mime_type) = true -> mime_type <> [].
Proof. by intros H ->. Qed.

(** The three ways through the adapter when the file, if any, is valid. *)
Lemma google_calls_image w prompt file_content filename mime_type :
  file_content <> [] -> filename <> [] ->
  contains (py "image") (lower (World.unicode_lower w) mime_type) = true ->
  calls (GoogleUtils.get_google_gemini_response w prompt
           (Some file_content) (Some filename) (Some mime_type))
  = Spec.gemini_calls w (Some (file_content, mime_type))
      (GoogleUtils.GOOGLE_VISION_MODEL w)
      [Text prompt; Part_from_bytes file_content mime_type].
Proof.
  intros Hfile Hname Himage.
  pose proof (contains_image_nonempty _ _ Himage) as Hmime.
  unfold GoogleUtils.get_google_gemini_response, Spec.gemini_calls,
    Spec.generate_calls.
  destruct file_content as [|b0 data], filename as [|c0 name],
    mime_type as [|c1 mime]; try done.
  destruct (World.getenv _ _) as [[|c api_key]|]; [done| |done].
  cbn [truthy negb orb default from_option id]. monad.
  destruct (World.configure _ _) as [e|[]]; monad; [done|].
  rewrite Himage.
  destruct (World.Part_from_bytes _ _ _) as [e|[]]; monad; [done|].
  by rewrite generate_calls.
Qed.

(** What [Part.from_bytes] raises leaves the adapter. *)
Lemma google_image_part_raises w prompt file_content filename mime_type api_key e :
  file_content <> [] -> filename <> [] ->
  contains (py "image") (lower (World.unicode_lower w) mime_type) = true ->
  World.getenv w (py "GOOGLE_API_KEY") = Some api_key -> api_key <> [] ->
  World.configure w api_key = inr tt ->
  World.Part_from_bytes w file_content mime_type = inl e ->
  GoogleUtils.get_google_gemini_response w prompt
    (Some file_content) (Some filename) (Some mime_type)
  = ([GenAI_configure api_key; GenAI_Part_from_bytes file_content mime_type],
     Raise (PyError e)).
Proof.
  intros Hfile Hname Himage Hkey Hne Hconfigure Hpart.
  pose proof (contains_image_nonempty _ _ Himage) as Hmime.
  unfold GoogleUtils.get_google_gemini_response.
  destruct file_content as [|b0 data], filename as [|c0 name],
    mime_type as [|c1 mime], api_key as [|c api_key]; try done.
  rewrite Hkey. cbn [truthy negb orb default from_option id].
  rewrite (M_eta (try_except_else _ _ _)). monad.
  rewrite Hconfigure. monad. rewrite Himage.
  rewrite (M_eta (bind _ _)). monad. by rewrite Hpart.
Qed.

Lemma google_calls_text_file w prompt file_content filename mime_type :
  file_content <> [] -> filename <> [] -> mime_type <> [] ->
  contains (py "image") (lower (World.unicode_lower w) mime_type) = false ->
  calls (GoogleUtils.get_google_gemini_response w prompt
           (Some file_content) (Some filename) (Some mime_type))
  = Spec.gemini_calls w None (GoogleUtils.GOOGLE_DEFAULT_MODEL w)
      [Text (Spec.enhanced_prompt prompt filename mime_type
               (decode ErrorsReplace (slice_to 50000 file_content)))].
Proof.
  intros Hfile Hname Hmime Himage.
  unfold GoogleUtils.get_google_gemini_response, Spec.gemini_calls,
    Spec.generate_calls.
  destruct file_content as [|b0 data], filename as [|c0 name],
    mime_type as [|c1 mime]; try done.
  destruct (World.getenv _ _) as [[|c api_key]|]; [done| |done].
  cbn [truthy negb orb default from_option id]. monad.
  destruct (World.configure _ _) as [e|[]]; monad; [done|].
  rewrite Himage. by rewrite generate_calls.
Qed.

(** A file without a name or without a MIME type: the adapter returns an
    error string, having at most configured the SDK. *)
Lemma google_invalid_file w prompt file_content filename mime_type :
  file_content <> [] ->
  truthy filename = false \/ truthy mime_type = false ->
  GoogleUtils.get_google_gemini_response w prompt (Some file_content) filename mime_type
  = match World.getenv w (py "GOOGLE_API_KEY") with
    | Some (c :: api_key) =>
      ([GenAI_configure (c :: api_key)],
       Return
         match World.configure w (c :: api_key) with
         | inl e =>
           py "Error: Failed to configure Google GenAI SDK - " ++ exc_str e
           ++ py ". Check API key and library installation."
         | inr _ =>
           py "Error: File content provided without filename or MIME type. Both are required for Google Gemini."
         end)
    | _ =>
      ([], Return (py "Error: GOOGLE_API_KEY not found in environment variables. Please set it in your .env file or system environment."))
    end.
Proof.
  intros Hfile Hmissing.
  unfold GoogleUtils.get_google_gemini_response.
  destruct file_content as [|b0 data]; [done|].
  destruct (World.getenv _ _) as [[|c api_key]|]; [done| |done].
  cbn [negb default from_option id]. change (truthy (Some (c :: api_key))) with true.
  change (truthy (Some (b0 :: data))) with true. cbn [negb].
  rewrite (M_eta (try_except_else _ _ _)). monad.
  destruct (World.configure _ _) as [e|[]]; monad; [done|].
  by destruct Hmissing as [-> | ->]; cbn [negb orb]; rewrite ?orb_true_r; monad.
Qed.

(** C2.  Called with a file whose content and name are not empty and
    whose MIME type indicates an image, the Google adapter selects the
    configured vision model and sends the two-element contents
    [[prompt, Part.from_bytes(data=file_content, mime_type=mime_type)]]:
    no request it makes is any other one, so the text-excerpt path is never
    taken.  The request is made whenever the credential is set and the SDK
    raises neither when configured, nor when the part is built, nor when the
    model object is built. *)
Theorem C2_google_image_file w prompt file_content filename mime_type :
  file_content <> [] -> filename <> [] ->
  contains (py "image") (lower (World.unicode_lower w) mime_type) = true ->
  let m := GoogleUtils.get_google_gemini_response w prompt
             (Some file_content) (Some filename) (Some mime_type) in
  let vision_model := GoogleUtils.GOOGLE_VISION_MODEL w in
  let contents := [Text prompt; Part_from_bytes file_content mime_type] in
  (forall model_name contents',
      GenAI_generate_content model_name contents' ∈ calls m ->
      model_name = vision_model /\ contents' = contents)
  /\ (forall api_key,
         World.getenv w (py "GOOGLE_API_KEY") = Some api_key -> api_key <> [] ->
         World.configure w api_key = inr tt ->
         World.Part_from_bytes w file_content mime_type = inr tt ->
         World.GenerativeModel w vision_model = inr tt ->
         calls m = [GenAI_configure api_key;
                    GenAI_Part_from_bytes file_content mime_type;
                    GenAI_GenerativeModel vision_model;
                    GenAI_generate_content vision_model contents]).
Proof.
  intros Hfile Hname Himage m vision_model contents. subst m.
  rewrite google_calls_image by done. split.
  - intros model_name contents'. apply gemini_calls_request.
  - intros api_key. apply gemini_calls_complete_image.
Qed.

(** The image test of the adapter: ["image/png"], file [b"fake_image_bytes"],
    and a configuration whose vision model is not its default model. *)
Lemma C2_witness :
  calls (GoogleUtils.get_google_gemini_response
           (Mock.test_world (py "Google image processed")) (py "Describe this image")
           (Some (pyb "fake_image_bytes")) (Some (py "test_image.png"))
           (Some (py "image/png")))
  = [GenAI_configure (py "fake_google_key");
     GenAI_Part_from_bytes (pyb "fake_image_bytes") (py "image/png");
     GenAI_GenerativeModel (py "gemini-test-vision");
     GenAI_generate_content (py "gemini-test-vision")
       [Text (py "Describe this image");
        Part_from_bytes (pyb "fake_image_bytes") (py "image/png")]].
Proof.
  apply (proj2 (C2_google_image_file
                  (Mock.test_world (py "Google image processed"))
                  (py "Describe this image") (pyb "fake_image_bytes")
                  (py "test_image.png") (py "image/png")
                  ltac:(vm_compute; discriminate)
                  ltac:(vm_compute; discriminate)
                  ltac:(vm_compute; reflexivity))
               (py "fake_google_key"));
    vm_compute; (reflexivity || discriminate).
Defined.

(** An image upload without content is no file to the adapter: the prompt
    alone goes to the default model.  An image upload without a name is
    rejected: nothing is sent.  In neither case is the request of the claim
    made. *)
Lemma C2_counterexample :
  let w := Mock.test_world (py "Google text processed") in
  let empty := GoogleUtils.get_google_gemini_response w (py "Describe this image")
                 (Some []) (Some (py "test_image.png")) (Some (py "image/png")) in
  let unnamed := GoogleUtils.get_google_gemini_response w (py "Describe this image")
                   (Some (pyb "fake_image_bytes")) None (Some (py "image/png")) in
  contains (py "image") (lower (World.unicode_lower w) (py "image/png")) = true
  /\ calls empty = [GenAI_configure (py "fake_google_key");
                    GenAI_GenerativeModel (py "gemini-test-default");
                    GenAI_generate_content (py "gemini-test-default")
                      [Text (py "Describe this image")]]
  /\ (Spec.claimed_image_request w (py "Describe this image") [] (py "image/png")
      ∉ calls empty)
  /\ unnamed
     = ([GenAI_configure (py "fake_google_key")],
        Return (py "Error: File content provided without filename or MIME type. Both are required for Google Gemini."))
  /\ (Spec.claimed_image_request w (py "Describe this image")
        (pyb "fake_image_bytes") (py "image/png")
      ∉ calls unnamed).
Proof.
  intros w empty unnamed.
  assert (calls empty = [GenAI_configure (py "fake_google_key");
                         GenAI_GenerativeModel (py "gemini-test-default");
                         GenAI_generate_content (py "gemini-test-default")
                           [Text (py "Describe this image")]]) as Hempty
    by (vm_compute; reflexivity).
  assert (unnamed
          = ([GenAI_configure (py "fake_google_key")],
             Return (py "Error: File content provided without filename or MIME type. Both are required for Google Gemini.")))
    as Hunnamed by (vm_compute; reflexivity).
  split; [by vm_compute|]. split; [exact Hempty|].
  split; [|split; [exact Hunnamed|]].
  - rewrite Hempty. unfold Spec.claimed_image_request.
    rewrite !elem_of_cons, elem_of_nil.
    intros H. repeat destruct H as [H|H]; by simplify_eq.
  - rewrite Hunnamed. unfold Spec.claimed_image_request, calls. cbn [fst].
    rewrite !elem_of_cons, elem_of_nil.
    intros H. repeat destruct H as [H|H]; by simplify_eq.
Qed.

(** C5.  Called with a file whose content, name and MIME type are not
    empty and whose MIME type does not indicate an image, the Google adapter
    keeps the configured default model and sends one string: the prompt, two
    line feeds, the header with the filename and the MIME type, a line feed,
    the first 50000 bytes of the file decoded with the undecodable bytes
    replaced, a line feed and the footer.  No request it makes is any other
    one, [Part.from_bytes] is not called, and the request is made whenever
    the credential is set and the SDK raises neither when configured nor
    when the model object is built. *)
Theorem C5_google_text_file w prompt file_content filename mime_type :
  file_content <> [] -> filename <> [] -> mime_type <> [] ->
  contains (py "image") (lower (World.unicode_lower w) mime_type) = false ->
  let m := GoogleUtils.get_google_gemini_response w prompt
             (Some file_content) (Some filename) (Some mime_type) in
  let default_model := GoogleUtils.GOOGLE_DEFAULT_MODEL w in
  let excerpt := decode ErrorsReplace (take (N.to_nat 50000) file_content) in
  let contents :=
    [Text (prompt ++ [10; 10]
           ++ py "--- User Uploaded File: " ++ filename ++ py " (MIME type: "
           ++ mime_type ++ py ") ---" ++ [10]
           ++ excerpt ++ [10]
           ++ py "--- End of File Content ---")] in
  (forall model_name contents',
      GenAI_generate_content model_name contents' ∈ calls m ->
      model_name = default_model /\ contents' = contents)
  /\ (forall data mime, GenAI_Part_from_bytes data mime ∉ calls m)
  /\ (forall api_key,
         World.getenv w (py "GOOGLE_API_KEY") = Some api_key -> api_key <> [] ->
         World.configure w api_key = inr tt ->
         World.GenerativeModel w default_model = inr tt ->
         calls m = [GenAI_configure api_key; GenAI_GenerativeModel default_model;
                    GenAI_generate_content default_model contents]).
Proof.
  intros Hfile Hname Hmime Himage m default_model excerpt contents. subst m.
  rewrite google_calls_text_file by done. split; [|split].
  - intros model_name contents'. apply gemini_calls_request.
  - intros data mime. apply gemini_calls_no_part.
  - intros api_key. apply gemini_calls_complete.
Qed.

(** A text file of 50014 bytes that starts with a byte that is not UTF-8:
    that byte reaches Gemini as U+FFFD, and the bytes after the first 50000
    do not reach it. *)
Lemma C5_witness :
  calls (GoogleUtils.get_google_gemini_response
           (Mock.test_world (py "Google text file processed"))
           (py "Summarize this document")
           (Some Mock.long_file)
           (Some (py "test_doc.txt")) (Some (py "text/plain")))
  = [GenAI_configure (py "fake_google_key");
     GenAI_GenerativeModel (py "gemini-test-default");
     GenAI_generate_content (py "gemini-test-default")
       [Text (py "Summarize this document" ++ [10; 10]
              ++ py "--- User Uploaded File: " ++ py "test_doc.txt"
              ++ py " (MIME type: " ++ py "text/plain" ++ py ") ---" ++ [10]
              ++ (0xFFFD :: replicate (N.to_nat 49999) 97%N) ++ [10]
              ++ py "--- End of File Content ---")]].
Proof.
  pose proof (proj2 (proj2 (C5_google_text_file
                              (Mock.test_world (py "Google text file processed"))
                              (py "Summarize this document") Mock.long_file
                              (py "test_doc.txt") (py "text/plain")
                              ltac:(unfold Mock.long_file; discriminate)
                              ltac:(vm_compute; discriminate)
                              ltac:(vm_compute; discriminate)
                              ltac:(vm_compute; reflexivity)))
                (py "fake_google_key")
                ltac:(vm_compute; reflexivity) ltac:(vm_compute; discriminate)
                ltac:(vm_compute; reflexivity) ltac:(vm_compute; reflexivity))
    as Hcalls.
  cbv zeta in Hcalls. rewrite decode_long_file in Hcalls.
  assert (GoogleUtils.GOOGLE_DEFAULT_MODEL
            (Mock.test_world (py "Google text file processed"))
          = py "gemini-test-default") as Hmodel by (vm_compute; reflexivity).
  rewrite Hmodel in Hcalls. exact Hcalls.
Defined.

(** A text upload without content is no file to the adapter: the prompt
    alone is sent, not the template of the claim.  A text upload without a
    name, or without a MIME type, is rejected: nothing is sent. *)
Lemma C5_counterexample :
  let w := Mock.test_world (py "Google text processed") in
  let empty := GoogleUtils.get_google_gemini_response w (py "Summarize this document")
                 (Some []) (Some (py "test_doc.txt")) (Some (py "text/plain")) in
  let unnamed := GoogleUtils.get_google_gemini_response w (py "Summarize this document")
                   (Some (pyb "This is a test text document.")) None
                   (Some (py "text/plain")) in
  let untyped := GoogleUtils.get_google_gemini_response w (py "Summarize this document")
                   (Some (pyb "This is a test text document."))
                   (Some (py "test_doc.txt")) None in
  contains (py "image") (lower (World.unicode_lower w) (py "text/plain")) = false
  /\ calls empty = [GenAI_configure (py "fake_google_key");
                    GenAI_GenerativeModel (py "gemini-test-default");
                    GenAI_generate_content (py "gemini-test-default")
                      [Text (py "Summarize this document")]]
  /\ (Spec.claimed_text_file_request w (py "Summarize this document") []
        (py "test_doc.txt") (py "text/plain")
      ∉ calls empty)
  /\ unnamed
     = ([GenAI_configure (py "fake_google_key")],
        Return (py "Error: File content provided without filename or MIME type. Both are required for Google Gemini."))
  /\ untyped = unnamed
  /\ filter is_outbound (calls unnamed) = [].
Proof.
  intros w empty unnamed untyped.
  assert (calls empty = [GenAI_configure (py "fake_google_key");
                         GenAI_GenerativeModel (py "gemini-test-default");
                         GenAI_generate_content (py "gemini-test-default")
                           [Text (py "Summarize this document")]]) as Hempty
    by (vm_compute; reflexivity).
  split; [by vm_compute|]. split; [exact Hempty|].
  split; [|split; [by vm_compute|split; by vm_compute]].
  rewrite Hempty. unfold Spec.claimed_text_file_request.
  rewrite !elem_of_cons, elem_of_nil.
  intros H. repeat destruct H as [H|H]; [done|done| |done].
  vm_compute in H. discriminate H.
Qed.

(** C6.  Called with non-empty file content but without a filename or
    without a MIME type ([None] or empty), the Google adapter returns a string
    that starts with ["Error:"] and sends nothing to the provider: it builds
    no model object and makes no request; the one thing it may have called is
    the local [configure] of the SDK.  With the credential set and the SDK
    configured, the string is the validation message. *)
Theorem C6_google_file_without_name_or_type
    w prompt file_content filename mime_type :
  file_content <> [] ->
  truthy filename = false \/ truthy mime_type = false ->
  let m := GoogleUtils.get_google_gemini_response w prompt
             (Some file_content) filename mime_type in
  (exists message,
      result m = Return message /\ startswith message (py "Error:") = true)
  /\ filter is_outbound (calls m) = []
  /\ (forall ev, ev ∈ calls m -> exists api_key, ev = GenAI_configure api_key)
  /\ (forall api_key,
         World.getenv w (py "GOOGLE_API_KEY") = Some api_key -> api_key <> [] ->
         World.configure w api_key = inr tt ->
         m = ([GenAI_configure api_key],
              Return (py "Error: File content provided without filename or MIME type. Both are required for Google Gemini."))).
Proof.
  intros Hfile Hmissing m. subst m.
  rewrite google_invalid_file by done.
  destruct (World.getenv _ _) as [[|c api_key]|].
  - repeat split.
    + eexists. split; [reflexivity | by vm_compute].
    + by intros ev ?%elem_of_nil.
    + by intros api_key [= <-].
  - repeat split.
    + eexists. split; [reflexivity|].
      destruct (World.configure _ _); [|by vm_compute].
      apply startswith_app_l. by vm_compute.
    + intros ev ->%list_elem_of_singleton. by eexists.
    + intros api_key' [= <-] _ ->. reflexivity.
  - repeat split.
    + eexists. split; [reflexivity | by vm_compute].
    + by intros ev ?%elem_of_nil.
    + done.
Qed.

(** The validation test of the adapter: [filename=None] with
    [mime_type="text/plain"]. *)
Lemma C6_witness :
  GoogleUtils.get_google_gemini_response (Mock.world (py "unused")) (py "Test")
    (Some (pyb "some content")) None (Some (py "text/plain"))
  = ([GenAI_configure (py "fake_google_key")],
     Return (py "Error: File content provided without filename or MIME type. Both are required for Google Gemini.")).
Proof.
  apply (C6_google_file_without_name_or_type (Mock.world (py "unused")) (py "Test")
           (pyb "some content") None (Some (py "text/plain"))
           ltac:(vm_compute; discriminate) ltac:(left; vm_compute; reflexivity));
    vm_compute; (reflexivity || discriminate).
Defined.

(** C10.  For a file whose content and name are not empty, the Google
    adapter takes the image path (vision model, binary part built by
    [Part.from_bytes]) exactly when the lowercased MIME type contains
    ["image"] somewhere; otherwise it takes the text path (default model, one
    string, [Part.from_bytes] not called), if there is a MIME type at all.
    So a MIME type such as ["application/x-imagemap"], which is not of the
    form ["image/*"], takes the image path, in whatever case it is written,
    and ["text/plain"] does not. *)
Theorem C10_google_image_test_is_a_substring_test
    w prompt file_content filename mime_type :
  file_content <> [] -> filename <> [] ->
  let m := GoogleUtils.get_google_gemini_response w prompt
             (Some file_content) (Some filename) (Some mime_type) in
  let image := contains (py "image") (lower (World.unicode_lower w) mime_type) in
  let selected_model :=
    if image then GoogleUtils.GOOGLE_VISION_MODEL w
    else GoogleUtils.GOOGLE_DEFAULT_MODEL w in
  let selected_contents :=
    if image then [Text prompt; Part_from_bytes file_content mime_type]
    else [Text (Spec.enhanced_prompt prompt filename mime_type
                  (decode ErrorsReplace (slice_to 50000 file_content)))] in
  let part_calls :=
    if image then [GenAI_Part_from_bytes file_content mime_type] else [] in
  (forall model_name contents,
      GenAI_generate_content model_name contents ∈ calls m ->
      model_name = selected_model /\ contents = selected_contents
      /\ Spec.has_image_part contents = image)
  /\ (forall data mime,
         GenAI_Part_from_bytes data mime ∈ calls m ->
         image = true /\ data = file_content /\ mime = mime_type)
  /\ (forall api_key,
         World.getenv w (py "GOOGLE_API_KEY") = Some api_key -> api_key <> [] ->
         World.configure w api_key = inr tt ->
         (image = true -> World.Part_from_bytes w file_content mime_type = inr tt) ->
         (image = false -> mime_type <> []) ->
         World.GenerativeModel w selected_model = inr tt ->
         calls m = [GenAI_configure api_key] ++ part_calls
                   ++ [GenAI_GenerativeModel selected_model;
                       GenAI_generate_content selected_model selected_contents])
  /\ (mime_type = py "application/x-imagemap"
      \/ mime_type = py "Application/X-ImageMap"
      \/ mime_type = py "IMAGE/PNG" -> image = true)
  /\ (mime_type = py "text/plain" -> image = false).
Proof.
  intros Hfile Hname m image selected_model selected_contents part_calls.
  subst m selected_model selected_contents part_calls.
  destruct image eqn:Himage; subst image.
  - rewrite google_calls_image by done. split; [|split; [|split; [|split]]].
    + intros model_name contents [-> ->]%gemini_calls_request. done.
    + intros data mime [= -> ->]%gemini_calls_part. done.
    + intros api_key Hkey Hne Hconfigure Hpart _.
      apply gemini_calls_complete_image; auto.
    + done.
    + intros ->. by vm_compute in Himage.
  - destruct (decide (mime_type = [])) as [->|Hmime].
    { rewrite google_invalid_file by (done || by right).
      split; [|split; [|split; [|split; [|done]]]].
      - intros model_name contents H. exfalso. revert H.
        destruct (World.getenv _ _) as [[|c api_key]|];
          unfold calls; cbn [fst]; rewrite ?elem_of_cons, ?elem_of_nil;
          intros H; repeat destruct H as [H|H]; by simplify_eq.
      - intros data mime H. exfalso. revert H.
        destruct (World.getenv _ _) as [[|c api_key]|];
          unfold calls; cbn [fst]; rewrite ?elem_of_cons, ?elem_of_nil;
          intros H; repeat destruct H as [H|H]; by simplify_eq.
      - intros api_key _ _ _ _ Hmime. by destruct Hmime.
      - intros [H | [H | H]]; discriminate H. }
    rewrite google_calls_text_file by done. split; [|split; [|split; [|split]]].
    + intros model_name contents [-> ->]%gemini_calls_request. done.
    + intros data mime H. by apply gemini_calls_no_part in H.
    + intros api_key Hkey Hne Hconfigure _ _. by apply gemini_calls_complete.
    + intros [-> | [-> | ->]]; by vm_compute in Himage.
    + done.
Qed.

(** An image map, its MIME type written with capitals, is sent to the
    vision model as a binary part. *)
Lemma C10_witness :
  calls (GoogleUtils.get_google_gemini_response
           (Mock.test_world (py "A map")) (py "What is this?")
           (Some (pyb "rect /a 0,0 9,9")) (Some (py "site.map"))
           (Some (py "Application/X-ImageMap")))
  = [GenAI_configure (py "fake_google_key");
     GenAI_Part_from_bytes (pyb "rect /a 0,0 9,9") (py "Application/X-ImageMap");
     GenAI_GenerativeModel (py "gemini-test-vision");
     GenAI_generate_content (py "gemini-test-vision")
       [Text (py "What is this?");
        Part_from_bytes (pyb "rect /a 0,0 9,9") (py "Application/X-ImageMap")]].
Proof.
  apply (proj1 (proj2 (proj2 (C10_google_image_test_is_a_substring_test
                         (Mock.test_world (py "A map")) (py "What is this?")
                         (pyb "rect /a 0,0 9,9") (py "site.map")
                         (py "Application/X-ImageMap")
                         ltac:(vm_compute; discriminate)
                         ltac:(vm_compute; discriminate))))
               (py "fake_google_key"));
    vm_compute; (reflexivity || discriminate).
Defined.

(** An upload whose MIME type contains ["image"] but whose content is
    empty, or whose name is missing, does not take the image path: the
    first sends the prompt alone to the default model, the second is
    rejected. *)
Lemma C10_counterexample :
  let w := Mock.test_world (py "Google text processed") in
  let empty := GoogleUtils.get_google_gemini_response w (py "What is this?")
                 (Some []) (Some (py "photo.jpg")) (Some (py "image/jpeg")) in
  let unnamed := GoogleUtils.get_google_gemini_response w (py "What is this?")
                   (Some (pyb "fake_image_bytes")) None (Some (py "image/jpeg")) in
  contains (py "image") (lower (World.unicode_lower w) (py "image/jpeg")) = true
  /\ calls empty = [GenAI_configure (py "fake_google_key");
                    GenAI_GenerativeModel (py "gemini-test-default");
                    GenAI_generate_content (py "gemini-test-default")
                      [Text (py "What is this?")]]
  /\ GoogleUtils.GOOGLE_VISION_MODEL w <> GoogleUtils.GOOGLE_DEFAULT_MODEL w
  /\ Spec.has_image_part [Text (py "What is this?")] = false
  /\ unnamed = ([GenAI_configure (py "fake_google_key")],
                Return (py "Error: File content provided without filename or MIME type. Both are required for Google Gemini.")).
Proof. by vm_compute. Qed.

(* ===================================================================== *)
(** * The OpenAI adapter: the file excerpt                                *)
(* ===================================================================== *)

Lemma openai_unnamed_file w prompt file_content filename :
  file_content <> [] -> truthy filename = false ->
  truthy (World.getenv w (py "OPENAI_API_KEY")) = true ->
  OpenAIUtils.get_openai_chat_response w prompt (Some file_content) filename
  = OpenAIUtils.complete w
      [ {[ py "role" := py "system";
           py "content" :=
             py "The user has uploaded a file (name not provided). Its content (first 2000 characters) is: "
             ++ decode ErrorsIgnore (slice_to 2000 file_content) ]};
        {[ py "role" := py "user"; py "content" := prompt ]} ].
Proof.
  intros Hfile Hname Hkey. unfold OpenAIUtils.get_openai_chat_response.
  rewrite Hkey, Hname. by destruct file_content.
Qed.


(** C3.  At the file of the adapter's own decoding test, [b'\x80abc']
    named ["bad_encoding.txt"], the OpenAI adapter does not replace the byte
    that does not decode, it drops it: replacing gives U+FFFD and then
    ["abc"], and the excerpt that is sent is ["abc"], so the request is not
    the one with the byte replaced.  The adapter returns the answer of the
    model, where its test expects the error string for a file that does not
    decode; and the Google adapter, given the same file as text, does send
    U+FFFD. *)
Theorem C3_openai_drops_undecodable_bytes :
  let w := Mock.world (py "OpenAI file processed") in
  let m := OpenAIUtils.get_openai_chat_response w (py "Test")
             (Some (x80 :: pyb "abc")) (Some (py "bad_encoding.txt")) in
  decode ErrorsReplace (take 2000 (x80 :: pyb "abc")) = 0xFFFD :: py "abc"
  /\ calls m
     = [OpenAI_client;
        ChatCompletions_create (py "gpt-3.5-turbo")
          [ {[ py "role" := py "system";
               py "content" :=
                 py "The user has uploaded a file named 'bad_encoding.txt'. Its content (first 2000 characters) is: abc" ]};
            {[ py "role" := py "user"; py "content" := py "Test" ]} ] 1024]
  /\ calls m
     <> [OpenAI_client;
         ChatCompletions_create (py "gpt-3.5-turbo")
           (Spec.claimed_openai_messages (py "Test") (x80 :: pyb "abc")
              (py "bad_encoding.txt")) 1024]
  /\ result m = Return (py "OpenAI file processed")
  /\ result m <> Return (py "Error: Could not decode file content for OpenAI.")
  /\ calls (GoogleUtils.get_google_gemini_response w (py "Test")
              (Some (x80 :: pyb "abc")) (Some (py "bad_encoding.txt"))
              (Some (py "text/plain")))
     = [GenAI_configure (py "fake_google_key");
        GenAI_GenerativeModel (py "gemini-1.5-flash-latest");
        GenAI_generate_content (py "gemini-1.5-flash-latest")
          [Text (py "Test" ++ [10; 10]
                 ++ py "--- User Uploaded File: bad_encoding.txt (MIME type: text/plain) ---"
                 ++ [10] ++ [0xFFFD] ++ py "abc" ++ [10]
                 ++ py "--- End of File Content ---")]].
Proof.
  intros w m.
  assert (calls m
          = [OpenAI_client;
             ChatCompletions_create (py "gpt-3.5-turbo")
               [ {[ py "role" := py "system";
                    py "content" :=
                      py "The user has uploaded a file named 'bad_encoding.txt'. Its content (first 2000 characters) is: abc" ]};
                 {[ py "role" := py "user"; py "content" := py "Test" ]} ] 1024])
    as Hcalls by (vm_compute; reflexivity).
  split; [by vm_compute|]. split; [exact Hcalls|].
  split; [|split; [by vm_compute|split; [by vm_compute|by vm_compute]]].
  rewrite Hcalls. intros H.
  apply (f_equal (fun t => match t with
                           | [_; ChatCompletions_create _ (m :: _) _] =>
                             m !! py "content"
                           | _ => None
                           end)) in H.
  vm_compute in H. discriminate H.
Qed.

(** C9.  Called with non-empty file content and no filename ([None] or
    empty), the OpenAI adapter does not fail: it sends a system message that
    labels the file ["(name not provided)"] and carries the decoded excerpt,
    then the user message, and it returns what the model answers.  The
    Google adapter, given the same file, returns its validation error. *)
Theorem C9_openai_file_without_name w prompt file_content filename :
  file_content <> [] -> truthy filename = false ->
  let m := OpenAIUtils.get_openai_chat_response w prompt (Some file_content) filename in
  let messages :=
    [ {[ py "role" := py "system";
         py "content" :=
           py "The user has uploaded a file (name not provided). Its content (first 2000 characters) is: "
           ++ decode ErrorsIgnore (slice_to 2000 file_content) ]};
      {[ py "role" := py "user"; py "content" := prompt ]} ] in
  (forall model messages' max_tokens,
      ChatCompletions_create model messages' max_tokens ∈ calls m ->
      messages' = messages)
  /\ (truthy (World.getenv w (py "OPENAI_API_KEY")) = true ->
      World.OpenAI w = inr tt ->
      calls m
      = [OpenAI_client;
         ChatCompletions_create (OpenAIUtils.OPENAI_DEFAULT_MODEL w) messages 1024]
      /\ forall reply,
           World.chat_completions_create w
             (OpenAIUtils.OPENAI_DEFAULT_MODEL w) messages 1024
           = inr (ChatCompletion.with_content reply) ->
           reply <> [] ->
           result m = Return (strip reply))
  /\ (forall mime_type api_key,
         World.getenv w (py "GOOGLE_API_KEY") = Some api_key -> api_key <> [] ->
         World.configure w api_key = inr tt ->
         GoogleUtils.get_google_gemini_response w prompt
           (Some file_content) filename mime_type
         = ([GenAI_configure api_key],
            Return (py "Error: File content provided without filename or MIME type. Both are required for Google Gemini."))).
Proof.
  intros Hfile Hname m messages. subst m. split; [|split].
  - intros model messages' max_tokens.
    rewrite openai_calls_unnamed_file by done.
    by intros (_ & -> & _)%openai_calls_request.
  - intros Hkey Hclient. split.
    + rewrite openai_calls_unnamed_file by done. by apply openai_calls_complete.
    + intros reply Hanswer Hreply.
      rewrite openai_unnamed_file by done. by apply complete_result.
  - intros mime_type api_key Hkey Hne Hconfigure.
    rewrite google_invalid_file by auto. rewrite Hkey.
    destruct api_key as [|c api_key]; [done|]. by rewrite Hconfigure.
Qed.

(** A file sent without a name to both adapters. *)
Lemma C9_witness :
  (calls (OpenAIUtils.get_openai_chat_response (Mock.world (py " Summary. "))
            (py "Summarize") (Some (pyb "some content")) None)
   = [OpenAI_client;
      ChatCompletions_create (py "gpt-3.5-turbo")
        [ {[ py "role" := py "system";
             py "content" :=
               py "The user has uploaded a file (name not provided). Its content (first 2000 characters) is: some content" ]};
          {[ py "role" := py "user"; py "content" := py "Summarize" ]} ] 1024]
   /\ result (OpenAIUtils.get_openai_chat_response (Mock.world (py " Summary. "))
                (py "Summarize") (Some (pyb "some content")) None)
      = Return (py "Summary."))
  /\ GoogleUtils.get_google_gemini_response (Mock.world (py " Summary. "))
       (py "Summarize") (Some (pyb "some content")) None (Some (py "text/plain"))
     = ([GenAI_configure (py "fake_google_key")],
        Return (py "Error: File content provided without filename or MIME type. Both are required for Google Gemini.")).
Proof.
  destruct (C9_openai_file_without_name (Mock.world (py " Summary. "))
              (py "Summarize") (pyb "some content") None)
    as (_ & Hopenai & Hgoogle);
    [vm_compute; (reflexivity || discriminate) .. |].
  destruct Hopenai as [Hcalls Hresult]; [vm_compute; reflexivity .. |].
  split; [split|].
  - rewrite Hcalls. vm_compute. reflexivity.
  - rewrite (Hresult (py " Summary. "));
      [vm_compute; reflexivity | vm_compute; (reflexivity || discriminate) ..].
  - apply Hgoogle; vm_compute; (reflexivity || discriminate).
Defined.

(* ===================================================================== *)
(** * Further properties: the shape of every run                          *)
(* ===================================================================== *)

(** ** The adapters, for all arguments *)

Lemma openai_shape w prompt file_content filename :
  OpenAIUtils.get_openai_chat_response w prompt file_content filename
  = if truthy (World.getenv w (py "OPENAI_API_KEY")) then
      OpenAIUtils.complete w (Spec.openai_messages prompt file_content filename)
    else
      ret (py "Error: OPENAI_API_KEY not found in environment variables. Please set it in your .env file or system environment.").
Proof.
  unfold OpenAIUtils.get_openai_chat_response, Spec.openai_messages.
  destruct (truthy (World.getenv _ _)); [|done]. cbn [negb].
  by destruct (truthy file_content), (truthy filename).
Qed.

Lemma google_shape w prompt file_content filename mime_type :
  GoogleUtils.get_google_gemini_response w prompt file_content filename mime_type
  = match World.getenv w (py "GOOGLE_API_KEY") with
    | Some (c :: api_key) =>
      try_except_else
        (call (GenAI_configure (c :: api_key)) (World.configure w (c :: api_key)))
        (fun e =>
           ret (py "Error: Failed to configure Google GenAI SDK - " ++ str_ e
                ++ py ". Check API key and library installation."))
        (fun _ =>
           match Spec.gemini_plan w prompt file_content filename mime_type with
           | inl message => ret message
           | inr (Some (data, mime_type), model_name, contents) =>
             call (GenAI_Part_from_bytes data mime_type)
                  (World.Part_from_bytes w data mime_type) ;;;
             GoogleUtils.generate w model_name contents
           | inr (None, model_name, contents) =>
             GoogleUtils.generate w model_name contents
           end)
    | _ =>
      ret (py "Error: GOOGLE_API_KEY not found in environment variables. Please set it in your .env file or system environment.")
    end.
Proof.
  unfold GoogleUtils.get_google_gemini_response, Spec.gemini_plan.
  destruct (World.getenv _ _) as [[|c api_key]|]; [done| |done].
  cbn [truthy negb default from_option id]. f_equal.
  destruct file_content as [[|b data]|]; try done.
  change (truthy (Some (b :: data))) with true. cbv iota.
  destruct (negb (truthy filename) || negb (truthy mime_type)); [done|].
  cbn [default from_option id]. by destruct (contains _ _).
Qed.

(** ** What the adapters return *)

(** A string built on a literal that starts with ["Error:"] starts with it. *)
Ltac error_prefix :=
  first [ by vm_compute
        | apply startswith_app_l; by vm_compute
        | rewrite <- !app_assoc; apply startswith_app_l; by vm_compute ].

Lemma google_handlers_result w model e :
  exists message,
    result (GoogleUtils.google_handlers w model e) = Return message
    /\ startswith message (py "Error:") = true.
Proof.
  unfold GoogleUtils.google_handlers.
  repeat case_match; eexists; (split; [reflexivity | error_prefix]).
Qed.

(** The Gemini request returns a string, whatever the SDK does: the
    stripped text of a response that is not blocked, or an error string. *)
Lemma generate_result w model contents :
  exists s,
    result (GoogleUtils.generate w model contents) = Return s
    /\ (startswith s (py "Error:") = true
        \/ exists response text,
             World.generate_content w model contents = inr response
             /\ GenerateContentResponse.text response = inr text
             /\ text <> [] /\ s = strip text).
Proof.
  unfold GoogleUtils.generate. monad.
  destruct (World.GenerativeModel w model) as [e|[]]; monad.
  { destruct (google_handlers_result w model (PyError e)) as (s & -> & Hs). eauto. }
  destruct (World.generate_content w model contents) as [e|response] eqn:Hanswer; monad.
  { destruct (google_handlers_result w model (PyError e)) as (s & -> & Hs). eauto. }
  destruct (_ ≫= _) as [[pf name]|]; monad.
  { eexists. split; [reflexivity|]. left. error_prefix. }
  destruct (GenerateContentResponse.text response) as [e|text] eqn:Htext; monad.
  { destruct (isinstance (PyError e) ValueError); monad.
    - eexists. split; [reflexivity|]. left. error_prefix.
    - destruct (google_handlers_result w model (PyError e)) as (s & -> & Hs). eauto. }
  destruct text as [|c text]; cbn [truthy negb].
  - destruct (GenerateContentResponse.candidates response) as [|candidate ?];
      [|destruct (negb (bool_decide _))]; monad;
      eexists; (split; [reflexivity|]); left; error_prefix.
  - monad. eexists. split; [reflexivity|]. right. by eexists _, _.
Qed.

(** The plan holds the arguments of [Part.from_bytes] for an image file
    only: a file with content and a MIME type that mentions an image. *)
Lemma gemini_plan_part w prompt file_content filename mime_type
    data mime model contents :
  Spec.gemini_plan w prompt file_content filename mime_type
  = inr (Some (data, mime), model, contents) ->
  file_content = Some data /\ data <> [] /\ truthy filename = true
  /\ mime_type = Some mime
  /\ contains (py "image") (lower (World.unicode_lower w) mime) = true.
Proof.
  unfold Spec.gemini_plan.
  destruct file_content as [[|b0 file_content]|]; cbn [truthy]; [done| |done].
  destruct filename as [[|c0 filename]|], mime_type as [[|c1 mime_type]|];
    cbn [truthy negb orb default from_option id]; try done.
  destruct (contains _ _) eqn:Himage; [|done].
  intros [= <- <- _ _]. done.
Qed.

(** The Google adapter returns a string, an error string or the stripped
    text of a response, unless [Part.from_bytes] raises on an image file:
    then that exception leaves the adapter. *)
Lemma google_result w prompt file_content filename mime_type :
  match result (GoogleUtils.get_google_gemini_response
                  w prompt file_content filename mime_type) with
  | Return s =>
    startswith s (py "Error:") = true
    \/ exists model contents response text,
         World.generate_content w model contents = inr response
         /\ GenerateContentResponse.text response = inr text
         /\ text <> [] /\ s = strip text
  | Raise x =>
    exists data mime e,
      file_content = Some data /\ data <> [] /\ truthy filename = true
      /\ mime_type = Some mime
      /\ contains (py "image") (lower (World.unicode_lower w) mime) = true
      /\ World.Part_from_bytes w data mime = inl e
      /\ x = PyError e
  end.
Proof.
  rewrite google_shape.
  destruct (World.getenv _ _) as [[|c api_key]|];
    [left; error_prefix | | left; error_prefix].
  monad. destruct (World.configure _ _) as [e|[]]; monad.
  { left; error_prefix. }
  assert (forall model contents,
             match result (GoogleUtils.generate w model contents) with
             | Return s =>
               startswith s (py "Error:") = true
               \/ exists model contents response text,
                    World.generate_content w model contents = inr response
                    /\ GenerateContentResponse.text response = inr text
                    /\ text <> [] /\ s = strip text
             | Raise x => False
             end) as Hgenerate.
  { intros model contents.
    destruct (generate_result w model contents) as (s & -> & [Hs | Hs]);
      [by left|].
    destruct Hs as (response & text & ?).
    right. by eexists model, contents, response, text. }
  destruct (Spec.gemini_plan _ _ _ _ _)
    as [message|[[[[data mime]|] model] contents]] eqn:Hplan.
  - monad. left.
    unfold Spec.gemini_plan in Hplan. repeat case_match; by simplify_eq.
  - apply gemini_plan_part in Hplan as (-> & Hdata & Hname & -> & Himage).
    monad. destruct (World.Part_from_bytes _ _ _) as [e|[]] eqn:Hpart; monad.
    + by eexists data, mime, e.
    + specialize (Hgenerate model contents).
      destruct (result (GoogleUtils.generate w model contents));
        [exact Hgenerate | done].
  - specialize (Hgenerate model contents).
    destruct (result (GoogleUtils.generate w model contents));
      [exact Hgenerate | done].
Qed.

(** The handlers of the OpenAI adapter return an error string, unless the
    exception is an [APIError] outside the three named subclasses that lacks
    one of the attributes the handler formats: then they raise
    [AttributeError]. *)
Lemma openai_handlers_result e :
  match result (OpenAIUtils.openai_handlers (PyError e)) with
  | Return message => startswith message (py "Error:") = true
  | Raise x =>
    exc_class_of e = APIError
    /\ (exc_status_code e = None \/ exc_type e = None \/ exc_message e = None)
    /\ exists err, x = PyError err /\ exc_class_of err = AttributeError
  end.
Proof.
  unfold OpenAIUtils.openai_handlers.
  destruct (isinstance _ APIConnectionError) eqn:H1; [monad; error_prefix|].
  destruct (isinstance _ RateLimitError) eqn:H2; [monad; error_prefix|].
  destruct (isinstance _ AuthenticationError) eqn:H3; [monad; error_prefix|].
  destruct (isinstance _ APIError) eqn:Hapi; [|monad; error_prefix].
  assert (exc_class_of e = APIError) as Hcls.
  { revert H1 H2 H3 Hapi. unfold isinstance, class_of.
    by destruct (exc_class_of e). }
  unfold getattr, attribute. cbn [String.eqb Ascii.eqb Bool.eqb].
  destruct e as [cls s name [message|] [status_code|] [type|]];
    cbn [exc_message exc_status_code exc_type] in *; monad;
    try error_prefix; (split; [done|]); (split; [tauto|]); by eexists.
Qed.

(** The OpenAI request returns the stripped content of the first choice or
    an error string; it raises only as its handlers do. *)
Lemma complete_outcome w messages :
  match result (OpenAIUtils.complete w messages) with
  | Return s =>
    startswith s (py "Error:") = true
    \/ exists response choice rest msg reply,
         World.chat_completions_create w
           (OpenAIUtils.OPENAI_DEFAULT_MODEL w) messages 1024 = inr response
         /\ ChatCompletion.choices response = choice :: rest
         /\ ChatCompletion.message choice = Some msg
         /\ ChatCompletion.content msg = Some reply
         /\ reply <> [] /\ s = strip reply
  | Raise x =>
    exists e,
      (World.OpenAI w = inl e
       \/ World.chat_completions_create w
            (OpenAIUtils.OPENAI_DEFAULT_MODEL w) messages 1024 = inl e)
      /\ exc_class_of e = APIError
      /\ (exc_status_code e = None \/ exc_type e = None \/ exc_message e = None)
      /\ exists err, x = PyError err /\ exc_class_of err = AttributeError
  end.
Proof.
  unfold OpenAIUtils.complete. monad.
  destruct (World.OpenAI w) as [e|[]] eqn:Hclient; monad.
  { pose proof (openai_handlers_result e) as H.
    destruct (result (OpenAIUtils.openai_handlers _)); [by left|].
    exists e. split; [by left|done]. }
  destruct (World.chat_completions_create _ _ _ _) as [e|response] eqn:Hanswer; monad.
  { pose proof (openai_handlers_result e) as H.
    destruct (result (OpenAIUtils.openai_handlers _)); [by left|].
    exists e. split; [by right|done]. }
  destruct (ChatCompletion.choices response) as [|choice rest] eqn:Hchoices;
    monad; [left; error_prefix|].
  destruct (ChatCompletion.message choice) as [msg|] eqn:Hmsg;
    monad; [|left; error_prefix].
  destruct (ChatCompletion.content msg) as [[|c reply]|] eqn:Hcontent;
    cbn [truthy default from_option id]; monad; try (left; error_prefix).
  right. by eexists response, choice, rest, msg, (c :: reply).
Qed.

(** ** [str.strip] *)

Lemma lstrip_idemp s : lstrip (lstrip s) = lstrip s.
Proof.
  induction s as [|c s IH]; [done|]. simpl.
  destruct (isspace c) eqn:Hc; [done|]. simpl. by rewrite Hc.
Qed.

Lemma lstrip_spaces s : forallb isspace s = true -> lstrip s = [].
Proof.
  induction s as [|c s IH]; [done|]. simpl.
  intros [-> ?]%andb_true_iff. auto.
Qed.

(** A string that ends with a character that is no space keeps it. *)
Lemma lstrip_snoc s c :
  isspace c = false -> exists s', lstrip (s ++ [c]) = s' ++ [c].
Proof.
  intros Hc. induction s as [|d s [s' IH]]; simpl.
  - rewrite Hc. by exists [].
  - destruct (isspace d); [by exists s' | by exists (d :: s)].
Qed.

Lemma rstrip_idemp s : rstrip (rstrip s) = rstrip s.
Proof. unfold rstrip. by rewrite rev_involutive, lstrip_idemp. Qed.

Lemma rstrip_cons c s :
  isspace c = false -> exists s', rstrip (c :: s) = c :: s'.
Proof.
  intros Hc. unfold rstrip. simpl.
  destruct (lstrip_snoc (rev s) c Hc) as [s' ->].
  rewrite rev_app_distr. by eexists.
Qed.

Lemma lstrip_rstrip_lstrip s : lstrip (rstrip (lstrip s)) = rstrip (lstrip s).
Proof.
  induction s as [|c s IH]; [done|]. simpl.
  destruct (isspace c) eqn:Hc; [done|].
  destruct (rstrip_cons c s Hc) as [s' ->]. simpl. by rewrite Hc.
Qed.

(** Stripping twice is stripping once. *)
Lemma strip_idemp s : strip (strip s) = strip s.
Proof.
  unfold strip. by rewrite lstrip_rstrip_lstrip, rstrip_idemp.
Qed.

Lemma strip_spaces s : forallb isspace s = true -> strip s = [].
Proof. intros H. unfold strip. by rewrite lstrip_spaces. Qed.

(** ** The decoder: how much text *)

Lemma utf8_decode_length errors fuel :
  forall s, (length (utf8_decode fuel errors s) <= length s)%nat.
Proof.
  induction fuel as [|fuel IH]; intros s; [simpl; lia|].
  destruct s as [|c s]; [done|].
  cbn [utf8_decode].
  pose proof (utf8_decode_step_progress (c :: s)) as Hstep.
  destruct (utf8_decode_step (c :: s)) as [ch len|len|].
  - specialize (IH (drop len (c :: s))). rewrite length_drop in IH.
    simpl in *. lia.
  - specialize (IH (drop len (c :: s))). rewrite length_drop in IH.
    rewrite length_app. destruct errors; simpl in *; lia.
  - destruct errors; simpl; lia.
Qed.

Lemma decode_length errors b : (length (decode errors b) <= length b)%nat.
Proof.
  unfold decode. etrans; [apply utf8_decode_length|]. by rewrite length_map.
Qed.

Lemma decode_slice_length errors n b :
  (length (decode errors (slice_to n b)) <= N.to_nat n)%nat.
Proof.
  etrans; [apply decode_length|]. unfold slice_to. rewrite length_take. lia.
Qed.

(** ASCII text in front of the data is decoded as it stands. *)
Lemma utf8_decode_ascii_app errors a :
  forall fuel s,
    Forall (fun c => c < 0x80) a ->
    utf8_decode (length a + fuel) errors (a ++ s) = a ++ utf8_decode fuel errors s.
Proof.
  induction a as [|c a IH]; intros fuel s Ha; [done|].
  inversion Ha as [|? ? Hc Ha']; subst.
  cbn [length Nat.add app utf8_decode utf8_decode_step].
  apply N.ltb_lt in Hc. rewrite Hc. cbn [drop]. f_equal. by apply IH.
Qed.

(** ** The endpoint, for all requests *)

Lemma generate_text_openai_all w text file :
  Main.generate_text w (py "openai") text file
  = Spec.endpoint_with w (py "OPENAI_API_KEY")
      (fun file_content filename _ =>
         OpenAIUtils.get_openai_chat_response w text file_content filename)
      file.
Proof.
  unfold Spec.endpoint_with.
  destruct (truthy (World.getenv _ _)) eqn:Hkey.
  2:{ unfold Main.generate_text. rewrite check_api_key_openai, Hkey.
      by destruct provider_tests as (-> & _). }
  destruct file as [f|].
  2:{ by rewrite (generate_text_openai _ _ _ _ _ None Hkey Spec.reads_no_file). }
  destruct (UploadFile.read f) as [e|data] eqn:Hread,
           (UploadFile.close f) as [e'|[]] eqn:Hclose.
  4:{ by rewrite (generate_text_openai _ _ _ _ _ _ Hkey
                    (Spec.reads_file f data Hread Hclose)). }
  all: unfold Main.generate_text;
    rewrite check_api_key_openai, Hkey;
    destruct provider_tests as (-> & _); cbn [negb];
    rewrite (M_eta (bind _ _)); monad; rewrite Hread, Hclose; by monad.
Qed.

Lemma generate_text_google_all w text file :
  Main.generate_text w (py "google") text file
  = Spec.endpoint_with w (py "GOOGLE_API_KEY")
      (fun file_content filename mime_type =>
         GoogleUtils.get_google_gemini_response
           w text file_content filename mime_type)
      file.
Proof.
  unfold Spec.endpoint_with.
  destruct (truthy (World.getenv _ _)) eqn:Hkey.
  2:{ unfold Main.generate_text. rewrite check_api_key_google, Hkey.
      by destruct provider_tests as (_ & -> & _). }
  destruct file as [f|].
  2:{ by rewrite (generate_text_google _ _ _ _ _ _ Hkey Spec.reads_no_file). }
  destruct (UploadFile.read f) as [e|data] eqn:Hread,
           (UploadFile.close f) as [e'|[]] eqn:Hclose.
  4:{ by rewrite (generate_text_google _ _ _ _ _ _ Hkey
                    (Spec.reads_file f data Hread Hclose)). }
  all: unfold Main.generate_text;
    rewrite check_api_key_google, Hkey;
    destruct provider_tests as (_ & -> & _); cbn [negb];
    rewrite (M_eta (bind _ _)); monad; rewrite Hread, Hclose; by monad.
Qed.

Lemma generate_text_unrecognized w provider text file :
  provider <> py "openai" -> provider <> py "google" ->
  Main.generate_text w provider text file
  = ([], Raise (HTTPException 400
                  (py "Invalid AI provider specified. Choose 'openai' or 'google'."))).
Proof.
  intros Hopenai Hgoogle. unfold Main.generate_text.
  rewrite bool_decide_eq_false_2; [done|].
  rewrite !elem_of_cons, elem_of_nil. tauto.
Qed.

(** ** The calls of the adapters, for all arguments *)

Lemma openai_calls_all w prompt file_content filename :
  calls (OpenAIUtils.get_openai_chat_response w prompt file_content filename)
  = Spec.openai_calls w (Spec.openai_messages prompt file_content filename).
Proof.
  rewrite openai_shape. unfold Spec.openai_calls.
  destruct (truthy (World.getenv _ _)); [apply complete_calls | done].
Qed.

Lemma google_calls_all w prompt file_content filename mime_type :
  calls (GoogleUtils.get_google_gemini_response
           w prompt file_content filename mime_type)
  = match Spec.gemini_plan w prompt file_content filename mime_type with
    | inr (part, model_name, contents) =>
      Spec.gemini_calls w part model_name contents
    | inl _ =>
      match World.getenv w (py "GOOGLE_API_KEY") with
      | Some (c :: api_key) => [GenAI_configure (c :: api_key)]
      | _ => []
      end
    end.
Proof.
  rewrite google_shape. unfold Spec.gemini_calls, Spec.generate_calls.
  destruct (World.getenv _ _) as [[|c api_key]|];
    [by repeat case_match | | by repeat case_match].
  monad.
  destruct (Spec.gemini_plan _ _ _ _ _)
    as [message|[[[[data mime]|] model] contents]];
    destruct (World.configure _ _) as [e|[]]; monad; try done.
  - destruct (World.Part_from_bytes _ _ _) as [e|[]]; monad; [done|].
    by rewrite generate_calls.
  - by rewrite generate_calls.
Qed.

Lemma openai_outcome w prompt file_content filename :
  match result (OpenAIUtils.get_openai_chat_response
                  w prompt file_content filename) with
  | Return s =>
    startswith s (py "Error:") = true
    \/ exists response choice rest msg reply,
         World.chat_completions_create w (OpenAIUtils.OPENAI_DEFAULT_MODEL w)
           (Spec.openai_messages prompt file_content filename) 1024
         = inr response
         /\ ChatCompletion.choices response = choice :: rest
         /\ ChatCompletion.message choice = Some msg
         /\ ChatCompletion.content msg = Some reply
         /\ reply <> [] /\ s = strip reply
  | Raise x =>
    exists e,
      (World.OpenAI w = inl e
       \/ World.chat_completions_create w (OpenAIUtils.OPENAI_DEFAULT_MODEL w)
            (Spec.openai_messages prompt file_content filename) 1024
          = inl e)
      /\ exc_class_of e = APIError
      /\ (exc_status_code e = None \/ exc_type e = None \/ exc_message e = None)
      /\ exists err, x = PyError err /\ exc_class_of err = AttributeError
  end.
Proof.
  rewrite openai_shape.
  destruct (truthy (World.getenv _ _)); [apply complete_outcome|].
  monad. left. error_prefix.
Qed.

Lemma startswith_self (p s : str) : startswith (p ++ s) p = true.
Proof.
  induction p as [|c p IH]; simpl; [by destruct s|].
  by rewrite N.eqb_refl.
Qed.

(** An outbound request is not a call of the upload, and conversely. *)
Lemma openai_calls_outbound w messages :
  (length (filter is_outbound (Spec.openai_calls w messages)) <= 1)%nat
  /\ Forall (fun e => Spec.is_openai_call e = true) (Spec.openai_calls w messages).
Proof.
  unfold Spec.openai_calls.
  destruct (truthy _); [|by split; [simpl; lia | constructor]].
  destruct (World.OpenAI w); split; try (cbn; lia); by repeat constructor.
Qed.

Lemma gemini_calls_outbound w part model contents :
  (length (filter is_outbound (Spec.gemini_calls w part model contents)) <= 1)%nat
  /\ Forall (fun e => Spec.is_google_call e = true)
       (Spec.gemini_calls w part model contents).
Proof.
  unfold Spec.gemini_calls, Spec.generate_calls.
  destruct (World.getenv _ _) as [[|c api_key]|];
    [by split; [simpl; lia | constructor] | |
     by split; [simpl; lia | constructor]].
  destruct (World.configure _ _);
    [|destruct part as [[data mime_type]|];
      [destruct (World.Part_from_bytes _ _ _)|]];
    try destruct (World.GenerativeModel _ _);
    split; try (cbn; lia); by repeat constructor.
Qed.

Lemma google_calls_outbound w prompt file_content filename mime_type :
  let t := calls (GoogleUtils.get_google_gemini_response
                    w prompt file_content filename mime_type) in
  (length (filter is_outbound t) <= 1)%nat
  /\ Forall (fun e => Spec.is_google_call e = true) t.
Proof.
  intros t. subst t. rewrite google_calls_all.
  destruct (Spec.gemini_plan _ _ _ _ _) as [message|[[part model] contents]];
    [|apply gemini_calls_outbound].
  destruct (World.getenv _ _) as [[|c api_key]|];
    split; try (cbn; lia); by repeat constructor.
Qed.

(* ===================================================================== *)
(** * Further properties of the endpoint                                  *)
(* ===================================================================== *)

(** X1.  A provider other than ["openai"] and ["google"] is refused with
    status 400 before anything else happens: no credential is looked at, the
    upload is not read, no adapter is entered. *)
Theorem X1_unrecognized_provider w provider text file :
  provider <> py "openai" -> provider <> py "google" ->
  Main.generate_text w provider text file
  = ([], Raise (HTTPException 400
                  (py "Invalid AI provider specified. Choose 'openai' or 'google'."))).
Proof. apply generate_text_unrecognized. Qed.

(** Provider ["OpenAI"], capitalised, with no credential in the environment
    and an upload: status 400, not 500. *)
Lemma X1_witness :
  Main.generate_text (Mock.world_without_keys (py "unused")) (py "OpenAI")
    (py "Hello") (Some (Mock.upload (py "a.txt") (py "text/plain") (pyb "data")))
  = ([], Raise (HTTPException 400
                  (py "Invalid AI provider specified. Choose 'openai' or 'google'."))).
Proof.
  apply (X1_unrecognized_provider (Mock.world_without_keys (py "unused"))
           (py "OpenAI") (py "Hello")
           (Some (Mock.upload (py "a.txt") (py "text/plain") (pyb "data"))));
    vm_compute; discriminate.
Defined.

(** X2.  When reading the upload raises, the endpoint raises status 400
    with the text of the exception after ["Error processing uploaded file: "];
    the upload is closed all the same and no adapter is entered. *)
Theorem X2_upload_read_failure w text f e :
  UploadFile.read f = inl e ->
  UploadFile.close f = inr tt ->
  let failure :=
    ([UploadFile_read; UploadFile_close],
     Raise (HTTPException 400
              (py "Error processing uploaded file: " ++ exc_str e))) in
  (truthy (World.getenv w (py "OPENAI_API_KEY")) = true ->
   Main.generate_text w (py "openai") text (Some f) = failure)
  /\ (truthy (World.getenv w (py "GOOGLE_API_KEY")) = true ->
      Main.generate_text w (py "google") text (Some f) = failure).
Proof.
  intros Hread Hclose failure. split; intros Hkey.
  - rewrite generate_text_openai_all. unfold Spec.endpoint_with.
    by rewrite Hkey, Hread, Hclose.
  - rewrite generate_text_google_all. unfold Spec.endpoint_with.
    by rewrite Hkey, Hread, Hclose.
Qed.

Lemma X2_witness :
  Main.generate_text (Mock.world (py "unused")) (py "google") (py "Analyze this")
    (Some {| UploadFile.filename := Some (py "error_file.txt");
             UploadFile.content_type := Some (py "text/plain");
             UploadFile.read :=
               inl (Mock.sdk_error ExceptionCls "Exception" "Simulated file read error");
             UploadFile.close := inr tt |})
  = ([UploadFile_read; UploadFile_close],
     Raise (HTTPException 400
              (py "Error processing uploaded file: Simulated file read error"))).
Proof.
  apply (proj2 (X2_upload_read_failure (Mock.world (py "unused")) (py "Analyze this")
                  {| UploadFile.filename := Some (py "error_file.txt");
                     UploadFile.content_type := Some (py "text/plain");
                     UploadFile.read :=
                       inl (Mock.sdk_error ExceptionCls "Exception"
                              "Simulated file read error");
                     UploadFile.close := inr tt |}
                  (Mock.sdk_error ExceptionCls "Exception" "Simulated file read error")
                  eq_refl eq_refl));
    vm_compute; reflexivity.
Defined.

(** X3.  When closing the upload raises, that exception leaves the
    endpoint as it is, not as an [HTTPException]: the [finally] clause is
    outside every handler.  This holds whether reading succeeded or not, and
    no adapter is entered. *)
Theorem X3_upload_close_failure w text f e :
  UploadFile.close f = inl e ->
  (truthy (World.getenv w (py "OPENAI_API_KEY")) = true ->
   Main.generate_text w (py "openai") text (Some f)
   = ([UploadFile_read; UploadFile_close], Raise (PyError e)))
  /\ (truthy (World.getenv w (py "GOOGLE_API_KEY")) = true ->
      Main.generate_text w (py "google") text (Some f)
      = ([UploadFile_read; UploadFile_close], Raise (PyError e))).
Proof.
  intros Hclose. split; intros Hkey.
  - rewrite generate_text_openai_all. unfold Spec.endpoint_with.
    rewrite Hkey, Hclose. by destruct (UploadFile.read f).
  - rewrite generate_text_google_all. unfold Spec.endpoint_with.
    rewrite Hkey, Hclose. by destruct (UploadFile.read f).
Qed.

Lemma X3_witness :
  Main.generate_text (Mock.world (py "unused")) (py "openai") (py "Analyze this")
    (Some {| UploadFile.filename := Some (py "a.txt");
             UploadFile.content_type := Some (py "text/plain");
             UploadFile.read := inr (pyb "data");
             UploadFile.close :=
               inl (Mock.sdk_error ExceptionCls "OSError" "close failed") |})
  = ([UploadFile_read; UploadFile_close],
     Raise (PyError (Mock.sdk_error ExceptionCls "OSError" "close failed"))).
Proof.
  apply (proj1 (X3_upload_close_failure (Mock.world (py "unused")) (py "Analyze this")
                  {| UploadFile.filename := Some (py "a.txt");
                     UploadFile.content_type := Some (py "text/plain");
                     UploadFile.read := inr (pyb "data");
                     UploadFile.close :=
                       inl (Mock.sdk_error ExceptionCls "OSError" "close failed") |}
                  (Mock.sdk_error ExceptionCls "OSError" "close failed")
                  eq_refl));
    vm_compute; reflexivity.
Defined.

Lemma relay_openai w prompt file_content filename :
  match Spec.relay (OpenAIUtils.get_openai_chat_response
                      w prompt file_content filename) with
  | Return body =>
    exists s, body = {[ py "response" := s ]}
              /\ startswith s (py "Error:") = false /\ strip s = s
  | Raise (HTTPException status_code _) => status_code = 500%Z
  | Raise (PyError _) => False
  end.
Proof.
  unfold Spec.relay.
  pose proof (openai_outcome w prompt file_content filename) as H.
  destruct (result _) as [s|[c d|e]].
  - destruct (startswith s _) eqn:Hs; [done|].
    exists s. split; [done|]. split; [done|].
    destruct H as [H|(? & ? & ? & ? & reply & _ & _ & _ & _ & _ & ->)];
      [congruence | apply strip_idemp].
  - by destruct H as (? & _ & _ & _ & ? & ? & _).
  - done.
Qed.

Lemma relay_google w prompt file_content filename mime_type :
  match Spec.relay (GoogleUtils.get_google_gemini_response
                      w prompt file_content filename mime_type) with
  | Return body =>
    exists s, body = {[ py "response" := s ]}
              /\ startswith s (py "Error:") = false /\ strip s = s
  | Raise (HTTPException status_code _) => status_code = 500%Z
  | Raise (PyError _) => False
  end.
Proof.
  unfold Spec.relay.
  pose proof (google_result w prompt file_content filename mime_type) as H.
  destruct (result _) as [s|[c d|e]].
  - destruct (startswith s _) eqn:Hs; [done|].
    exists s. split; [done|]. split; [done|].
    destruct H as [H|(? & ? & ? & text & _ & _ & _ & ->)];
      [congruence | apply strip_idemp].
  - by destruct H as (? & ? & ? & _ & _ & _ & _ & _ & _ & ?).
  - done.
Qed.

Lemma endpoint_with_outcome w key_name adapter file :
  (forall file_content filename mime_type,
      match Spec.relay (adapter file_content filename mime_type) with
      | Return body =>
        exists s, body = {[ py "response" := s ]}
                  /\ startswith s (py "Error:") = false /\ strip s = s
      | Raise (HTTPException status_code _) => status_code = 500%Z
      | Raise (PyError _) => False
      end) ->
  match result (Spec.endpoint_with w key_name adapter file) with
  | Return body =>
    exists s, body = {[ py "response" := s ]}
              /\ startswith s (py "Error:") = false /\ strip s = s
  | Raise (HTTPException status_code _) =>
    status_code = 400%Z \/ status_code = 500%Z
  | Raise (PyError e) => exists f, file = Some f /\ UploadFile.close f = inl e
  end.
Proof.
  intros Hadapter. unfold Spec.endpoint_with.
  destruct (truthy _); [|by right].
  destruct file as [f|].
  - destruct (UploadFile.read f) as [e|data], (UploadFile.close f) as [e'|[]] eqn:Hclose;
      unfold result; cbn [snd]; eauto.
    specialize (Hadapter (Some data) (UploadFile.filename f)
                  (UploadFile.content_type f)).
    destruct (Spec.relay _) as [body|[c d|e']]; [done | by right | done].
  - unfold result; cbn [snd]. specialize (Hadapter None None None).
    destruct (Spec.relay _) as [body|[c d|e']]; [done | by right | done].
Qed.

(** X4.  Whatever the request and whatever the providers do, the endpoint
    ends in one of three ways: it answers [{"response": s}] where [s] does not
    start with ["Error:"] and has no white space at either end; or it raises
    an [HTTPException] whose status is 400 or 500; or closing the upload
    raised, and that exception escapes. *)
Theorem X4_endpoint_outcomes w provider text file :
  match result (Main.generate_text w provider text file) with
  | Return body =>
    exists s, body = {[ py "response" := s ]}
              /\ startswith s (py "Error:") = false /\ strip s = s
  | Raise (HTTPException status_code _) =>
    status_code = 400%Z \/ status_code = 500%Z
  | Raise (PyError e) => exists f, file = Some f /\ UploadFile.close f = inl e
  end.
Proof.
  destruct (decide (provider = py "openai")) as [->|Hopenai].
  { rewrite generate_text_openai_all. apply endpoint_with_outcome.
    intros. apply relay_openai. }
  destruct (decide (provider = py "google")) as [->|Hgoogle].
  { rewrite generate_text_google_all. apply endpoint_with_outcome.
    intros. apply relay_google. }
  rewrite generate_text_unrecognized by done. by left.
Qed.

(** The calls of the endpoint: the upload, if it gets that far, then the
    calls of the adapter, if it gets that far. *)
Lemma endpoint_with_calls w key_name adapter file :
  exists upload rest,
    calls (Spec.endpoint_with w key_name adapter file) = upload ++ rest
    /\ (upload = [] \/ (is_Some file /\ upload = [UploadFile_read; UploadFile_close]))
    /\ (rest = []
        \/ exists file_content filename mime_type,
             rest = calls (adapter file_content filename mime_type)).
Proof.
  unfold Spec.endpoint_with.
  destruct (truthy _); [|exists [], []; auto].
  destruct file as [f|].
  - assert (is_Some (Some f)) as Hfile by by eexists.
    destruct (UploadFile.read f) as [e|data], (UploadFile.close f) as [e'|[]];
      try (exists [UploadFile_read; UploadFile_close], [];
           split; [done|]; split; [by right | by left]).
    eexists [UploadFile_read; UploadFile_close], _.
    split; [reflexivity|]. split; [by right|]. right. by eexists _, _, _.
  - eexists [], _. split; [reflexivity|]. split; [by left|]. right.
    by eexists _, _, _.
Qed.

Lemma generate_text_calls w provider text file :
  exists upload rest,
    calls (Main.generate_text w provider text file) = upload ++ rest
    /\ (upload = [] \/ (is_Some file /\ upload = [UploadFile_read; UploadFile_close]))
    /\ (length (filter is_outbound rest) <= 1)%nat
    /\ (provider <> py "google" -> Forall (fun e => Spec.is_openai_call e = true) rest)
    /\ (provider <> py "openai" -> Forall (fun e => Spec.is_google_call e = true) rest).
Proof.
  destruct (decide (provider = py "openai")) as [->|Hopenai].
  { rewrite generate_text_openai_all.
    destruct (endpoint_with_calls w (py "OPENAI_API_KEY")
                (fun file_content filename _ =>
                   OpenAIUtils.get_openai_chat_response w text file_content filename)
                file) as (upload & rest & -> & Hupload & Hrest).
    exists upload, rest. split; [done|]. split; [done|].
    destruct Hrest as [->|(fc & fn & _ & ->)].
    - split; [simpl; lia|]. by split; intros _.
    - rewrite openai_calls_all.
      destruct (openai_calls_outbound w (Spec.openai_messages text fc fn)).
      by repeat split. }
  destruct (decide (provider = py "google")) as [->|Hgoogle].
  { rewrite generate_text_google_all.
    destruct (endpoint_with_calls w (py "GOOGLE_API_KEY")
                (fun file_content filename mime_type =>
                   GoogleUtils.get_google_gemini_response
                     w text file_content filename mime_type)
                file) as (upload & rest & -> & Hupload & Hrest).
    exists upload, rest. split; [done|]. split; [done|].
    destruct Hrest as [->|(fc & fn & mt & ->)].
    - split; [simpl; lia|]. by split; intros _.
    - destruct (google_calls_outbound w text fc fn mt).
      by repeat split. }
  rewrite generate_text_unrecognized by done.
  exists [], []. split; [done|]. split; [by left|].
  split; [simpl; lia|]. by split; intros _.
Qed.

(** X5.  One request to the endpoint sends at most one request to a
    provider, whatever fails on the way: nothing is retried. *)
Theorem X5_at_most_one_outbound_request w provider text file :
  (length (filter is_outbound (calls (Main.generate_text w provider text file)))
   <= 1)%nat.
Proof.
  destruct (generate_text_calls w provider text file)
    as (upload & rest & -> & Hupload & Hrest & _).
  rewrite filter_app.
  by destruct Hupload as [->|[_ ->]].
Qed.

(** X6.  The endpoint calls the SDK of the requested provider only: a
    request for ["openai"] makes no call to the Google SDK, and a request for
    ["google"] none to the OpenAI SDK. *)
Theorem X6_only_the_requested_provider w text file :
  Forall (fun e => Spec.is_google_call e = false)
    (calls (Main.generate_text w (py "openai") text file))
  /\ Forall (fun e => Spec.is_openai_call e = false)
       (calls (Main.generate_text w (py "google") text file)).
Proof.
  split.
  - destruct (generate_text_calls w (py "openai") text file)
      as (upload & rest & -> & Hupload & _ & Hrest & _).
    apply Forall_app. split.
    + destruct Hupload as [->|[_ ->]]; by repeat constructor.
    + eapply Forall_impl; [apply Hrest; by vm_compute|].
      by intros [].
  - destruct (generate_text_calls w (py "google") text file)
      as (upload & rest & -> & Hupload & _ & _ & Hrest).
    apply Forall_app. split.
    + destruct Hupload as [->|[_ ->]]; by repeat constructor.
    + eapply Forall_impl; [apply Hrest; by vm_compute|].
      by intros [].
Qed.

(** X7.  The upload is closed whenever it was read, straight after, and
    before any call to an SDK; without an upload the file calls do not occur
    at all. *)
Theorem X7_upload_is_read_then_closed w provider text file :
  exists rest,
    Forall (fun e => Spec.is_upload_call e = false) rest
    /\ (calls (Main.generate_text w provider text file) = rest
        \/ (is_Some file
            /\ calls (Main.generate_text w provider text file)
               = UploadFile_read :: UploadFile_close :: rest)).
Proof.
  destruct (generate_text_calls w provider text file)
    as (upload & rest & -> & Hupload & _ & Hopenai & Hgoogle).
  exists rest. split.
  - destruct (decide (provider = py "google")) as [->|Hne].
    + eapply Forall_impl; [apply Hgoogle; by vm_compute|]. by intros [].
    + eapply Forall_impl; [by apply Hopenai|]. by intros [].
  - destruct Hupload as [->|[? ->]]; [by left | by right].
Qed.

(* ===================================================================== *)
(** * Further properties of the adapters                                  *)
(* ===================================================================== *)

(** X8.  The Google adapter raises in one case only: the file is an
    image (content and name not empty, a MIME type that mentions an image)
    and [Part.from_bytes] raised on it; what the adapter raises then is that
    very exception, since the call stands outside the [try] statements, and
    the endpoint answers it with status 500 and its own message, having sent
    nothing to the provider.  Otherwise, whatever the SDK does (at
    [configure], when the model object is built, at the request, when the
    text of the response is read), the adapter returns a string, and that
    string either starts with ["Error:"] or is the stripped, non-empty text
    of the response. *)
Theorem X8_google_adapter_outcomes
    w prompt file_content filename mime_type :
  match result (GoogleUtils.get_google_gemini_response
                  w prompt file_content filename mime_type) with
  | Return s =>
    startswith s (py "Error:") = true
    \/ exists model contents response text,
         World.generate_content w model contents = inr response
         /\ GenerateContentResponse.text response = inr text
         /\ text <> [] /\ s = strip text
  | Raise x =>
    exists data mime e,
      file_content = Some data /\ data <> [] /\ truthy filename = true
      /\ mime_type = Some mime
      /\ contains (py "image") (lower (World.unicode_lower w) mime) = true
      /\ World.Part_from_bytes w data mime = inl e
      /\ x = PyError e
  end
  /\ (forall file data name mime api_key e,
         Spec.file_reads (Some file) (Some data) (Some name) (Some mime) ->
         data <> [] -> name <> [] ->
         contains (py "image") (lower (World.unicode_lower w) mime) = true ->
         World.getenv w (py "GOOGLE_API_KEY") = Some api_key -> api_key <> [] ->
         World.configure w api_key = inr tt ->
         World.Part_from_bytes w data mime = inl e ->
         GoogleUtils.get_google_gemini_response w prompt
           (Some data) (Some name) (Some mime)
         = ([GenAI_configure api_key; GenAI_Part_from_bytes data mime],
            Raise (PyError e))
         /\ Main.generate_text w (py "google") prompt (Some file)
            = ([UploadFile_read; UploadFile_close;
                GenAI_configure api_key; GenAI_Part_from_bytes data mime],
               Raise (HTTPException 500
                        (py "An unexpected server error occurred while contacting the AI provider: "
                         ++ exc_str e)))).
Proof.
  split; [apply google_result|].
  intros file data name mime api_key e Hfile Hdata Hname Himage Hkey Hne
    Hconfigure Hpart.
  pose proof (google_image_part_raises w prompt data name mime api_key e
                Hdata Hname Himage Hkey Hne Hconfigure Hpart) as Hadapter.
  split; [exact Hadapter|].
  rewrite (generate_text_google _ _ _ _ _ _
             ltac:(rewrite Hkey; by destruct api_key) Hfile).
  by rewrite Hadapter.
Qed.

(** An image on which [Part.from_bytes] raises. *)
Lemma X8_witness :
  Main.generate_text (Mock.world_without_parts (py "unused")) (py "google")
    (py "Describe this image")
    (Some (Mock.upload (py "a.png") (py "image/png") (pyb "not an image")))
  = ([UploadFile_read; UploadFile_close;
      GenAI_configure (py "fake_google_key");
      GenAI_Part_from_bytes (pyb "not an image") (py "image/png")],
     Raise (HTTPException 500
              (py "An unexpected server error occurred while contacting the AI provider: "
               ++ py "unsupported image data"))).
Proof.
  apply (proj2 (X8_google_adapter_outcomes
                  (Mock.world_without_parts (py "unused"))
                  (py "Describe this image") None None None)
           (Mock.upload (py "a.png") (py "image/png") (pyb "not an image"))
           (pyb "not an image") (py "a.png") (py "image/png")
           (py "fake_google_key")
           (Mock.sdk_error ValueError "ValueError" "unsupported image data"));
    [by apply (Spec.reads_file
                 (Mock.upload (py "a.png") (py "image/png") (pyb "not an image")))
    | vm_compute; (reflexivity || discriminate) ..].
Defined.

(** X9.  The OpenAI adapter returns a string that starts with ["Error:"]
    or is the stripped, non-empty content of the first choice.  It raises in
    one case only: the SDK raised an [APIError] that is none of the three
    subclasses handled before it, and that exception lacks [status_code],
    [type] or [message]; what the adapter raises then is an
    [AttributeError]. *)
Theorem X9_openai_adapter_outcomes w prompt file_content filename :
  exists messages,
    match result (OpenAIUtils.get_openai_chat_response
                    w prompt file_content filename) with
    | Return s =>
      startswith s (py "Error:") = true
      \/ exists response choice rest msg reply,
           World.chat_completions_create w (OpenAIUtils.OPENAI_DEFAULT_MODEL w)
             messages 1024 = inr response
           /\ ChatCompletion.choices response = choice :: rest
           /\ ChatCompletion.message choice = Some msg
           /\ ChatCompletion.content msg = Some reply
           /\ reply <> [] /\ s = strip reply
    | Raise x =>
      exists e,
        (World.OpenAI w = inl e
         \/ World.chat_completions_create w (OpenAIUtils.OPENAI_DEFAULT_MODEL w)
              messages 1024 = inl e)
        /\ exc_class_of e = APIError
        /\ (exc_status_code e = None \/ exc_type e = None \/ exc_message e = None)
        /\ exists err, x = PyError err /\ exc_class_of err = AttributeError
    end.
Proof.
  exists (Spec.openai_messages prompt file_content filename).
  apply openai_outcome.
Qed.

(** X10.  What an adapter returns as generated text is trimmed: a result
    that does not start with ["Error:"] has no white space at either end
    (stripping it changes nothing). *)
Theorem X10_generated_text_is_trimmed
    w prompt file_content filename mime_type s :
  startswith s (py "Error:") = false ->
  (result (OpenAIUtils.get_openai_chat_response w prompt file_content filename)
   = Return s -> strip s = s)
  /\ (result (GoogleUtils.get_google_gemini_response
                w prompt file_content filename mime_type)
      = Return s -> strip s = s).
Proof.
  intros Hs. split; intros Hresult.
  - pose proof (openai_outcome w prompt file_content filename) as H.
    rewrite Hresult in H.
    destruct H as [H|(? & ? & ? & ? & reply & _ & _ & _ & _ & _ & ->)];
      [congruence | apply strip_idemp].
  - pose proof (google_result w prompt file_content filename mime_type) as H.
    rewrite Hresult in H.
    destruct H as [H|(? & ? & ? & text & _ & _ & _ & ->)];
      [congruence | apply strip_idemp].
Qed.

(** A reply with a line break in front and blanks behind. *)
Lemma X10_witness :
  strip (py "Paris.") = py "Paris.".
Proof.
  apply (proj1 (X10_generated_text_is_trimmed
                  (Mock.world (NL ++ py "Paris.  ")) (py "Capital of France?")
                  None None None (py "Paris.")
                  ltac:(vm_compute; reflexivity)));
    vm_compute; reflexivity.
Defined.

(** X11.  The adapters test for an empty reply before they strip it: a
    reply that is not empty but all white space is returned as the empty
    string, not as the empty-response error, and the endpoint answers
    [{"response": ""}]. *)
Theorem X11_blank_reply_becomes_empty_response w prompt reply :
  reply <> [] -> forallb isspace reply = true ->
  (truthy (World.getenv w (py "OPENAI_API_KEY")) = true ->
   World.OpenAI w = inr tt ->
   World.chat_completions_create w (OpenAIUtils.OPENAI_DEFAULT_MODEL w)
     [ {[ py "role" := py "user"; py "content" := prompt ]} ] 1024
   = inr (ChatCompletion.with_content reply) ->
   result (OpenAIUtils.get_openai_chat_response w prompt None None) = Return []
   /\ result (Main.generate_text w (py "openai") prompt None)
      = Return {[ py "response" := [] ]})
  /\ (forall api_key response,
         World.getenv w (py "GOOGLE_API_KEY") = Some api_key -> api_key <> [] ->
         World.configure w api_key = inr tt ->
         World.GenerativeModel w (GoogleUtils.GOOGLE_DEFAULT_MODEL w) = inr tt ->
         World.generate_content w (GoogleUtils.GOOGLE_DEFAULT_MODEL w) [Text prompt]
         = inr response ->
         GenerateContentResponse.prompt_feedback response = None ->
         GenerateContentResponse.text response = inr reply ->
         result (GoogleUtils.get_google_gemini_response w prompt None None None)
         = Return []
         /\ result (Main.generate_text w (py "google") prompt None)
            = Return {[ py "response" := [] ]}).
Proof.
  intros Hreply Hblank. split.
  - intros Hkey Hclient Hanswer.
    assert (result (OpenAIUtils.get_openai_chat_response w prompt None None)
            = Return []) as Hresult.
    { rewrite openai_shape, Hkey.
      unfold Spec.openai_messages. cbn [truthy andb app].
      rewrite (complete_result w _ reply Hclient Hanswer Hreply).
      by rewrite strip_spaces. }
    split; [done|].
    rewrite (generate_text_openai _ _ _ _ _ None Hkey Spec.reads_no_file).
    unfold result at 1, Spec.relay. cbn [snd]. by rewrite Hresult.
  - intros api_key response Hkey Hne Hconfigure Hmodel Hanswer Hfeedback Htext.
    assert (result (GoogleUtils.get_google_gemini_response w prompt None None None)
            = Return []) as Hresult.
    { rewrite google_shape, Hkey. destruct api_key as [|c api_key]; [done|].
      monad. rewrite Hconfigure. cbn [Spec.gemini_plan truthy].
      unfold GoogleUtils.generate. monad. rewrite Hmodel. monad.
      rewrite Hanswer. monad. rewrite Hfeedback. cbn [mbind option_bind]. monad.
      rewrite Htext. monad. destruct reply as [|d reply]; [done|].
      cbn [truthy negb]. monad. by rewrite strip_spaces. }
    split; [done|].
    assert (truthy (World.getenv w (py "GOOGLE_API_KEY")) = true) as Htruthy.
    { rewrite Hkey. by destruct api_key. }
    rewrite (generate_text_google _ _ _ _ _ _ Htruthy Spec.reads_no_file).
    unfold result at 1, Spec.relay. cbn [snd]. by rewrite Hresult.
Qed.

Lemma X11_witness :
  result (Main.generate_text (Mock.world (py "  " ++ NL)) (py "openai")
            (py "Say nothing") None)
  = Return {[ py "response" := [] ]}
  /\ result (Main.generate_text (Mock.world (py "  " ++ NL)) (py "google")
               (py "Say nothing") None)
     = Return {[ py "response" := [] ]}.
Proof.
  destruct (X11_blank_reply_becomes_empty_response (Mock.world (py "  " ++ NL))
              (py "Say nothing") (py "  " ++ NL))
    as [Hopenai Hgoogle];
    [vm_compute; (reflexivity || discriminate) .. |].
  split.
  - apply Hopenai; vm_compute; reflexivity.
  - apply (Hgoogle (py "fake_google_key")
             (Mock.gemini_response (py "  " ++ NL)));
      vm_compute; (reflexivity || discriminate).
Defined.

(** X12.  File content that is absent or empty counts as no file: the
    filename and the MIME type are then ignored, so an empty upload declared
    as an image is answered by the default model from the prompt alone, and
    an empty upload without a name is not a validation error. *)
Theorem X12_empty_file_is_no_file w prompt file_content filename mime_type :
  truthy file_content = false ->
  OpenAIUtils.get_openai_chat_response w prompt file_content filename
  = OpenAIUtils.get_openai_chat_response w prompt None None
  /\ GoogleUtils.get_google_gemini_response w prompt file_content filename mime_type
     = GoogleUtils.get_google_gemini_response w prompt None None None
  /\ forall model contents,
       GenAI_generate_content model contents
       ∈ calls (GoogleUtils.get_google_gemini_response
                  w prompt file_content filename mime_type) ->
       model = GoogleUtils.GOOGLE_DEFAULT_MODEL w /\ contents = [Text prompt].
Proof.
  intros Hfile.
  assert (GoogleUtils.get_google_gemini_response w prompt file_content filename mime_type
          = GoogleUtils.get_google_gemini_response w prompt None None None) as Hgoogle.
  { rewrite !google_shape. unfold Spec.gemini_plan. by rewrite Hfile. }
  split; [|split; [done|]].
  - rewrite !openai_shape. unfold Spec.openai_messages. by rewrite Hfile.
  - intros model contents. rewrite Hgoogle, google_calls_all.
    cbn [Spec.gemini_plan truthy]. apply gemini_calls_request.
Qed.

(** An empty upload named ["photo.png"] of type ["image/png"]. *)
Lemma X12_witness :
  calls (GoogleUtils.get_google_gemini_response (Mock.world (py "ok"))
           (py "Describe") (Some []) (Some (py "photo.png")) (Some (py "image/png")))
  = [GenAI_configure (py "fake_google_key");
     GenAI_GenerativeModel (py "gemini-1.5-flash-latest");
     GenAI_generate_content (py "gemini-1.5-flash-latest") [Text (py "Describe")]].
Proof.
  rewrite (proj1 (proj2 (X12_empty_file_is_no_file (Mock.world (py "ok"))
                           (py "Describe") (Some []) (Some (py "photo.png"))
                           (Some (py "image/png")) eq_refl))).
  vm_compute. reflexivity.
Defined.

(** X13.  Each adapter checks its own credential first: when the variable
    is unset or empty it returns its own error string and calls nothing,
    whatever the other arguments are (a file without a name included). *)
Theorem X13_adapter_without_credential
    w prompt file_content filename mime_type :
  (truthy (World.getenv w (py "OPENAI_API_KEY")) = false ->
   OpenAIUtils.get_openai_chat_response w prompt file_content filename
   = ([], Return (py "Error: OPENAI_API_KEY not found in environment variables. Please set it in your .env file or system environment.")))
  /\ (truthy (World.getenv w (py "GOOGLE_API_KEY")) = false ->
      GoogleUtils.get_google_gemini_response w prompt file_content filename mime_type
      = ([], Return (py "Error: GOOGLE_API_KEY not found in environment variables. Please set it in your .env file or system environment."))).
Proof.
  split; intros Hkey.
  - by rewrite openai_shape, Hkey.
  - rewrite google_shape. by destruct (World.getenv _ _) as [[|c api_key]|].
Qed.

Lemma X13_witness :
  OpenAIUtils.get_openai_chat_response (Mock.world_without_keys (py "unused"))
    (py "Hello") None None
  = ([], Return (py "Error: OPENAI_API_KEY not found in environment variables. Please set it in your .env file or system environment."))
  /\ GoogleUtils.get_google_gemini_response (Mock.world_without_keys (py "unused"))
       (py "Hello") (Some (pyb "data")) None None
     = ([], Return (py "Error: GOOGLE_API_KEY not found in environment variables. Please set it in your .env file or system environment.")).
Proof.
  split.
  - apply (proj1 (X13_adapter_without_credential
                    (Mock.world_without_keys (py "unused")) (py "Hello")
                    None None None)).
    vm_compute. reflexivity.
  - apply (proj2 (X13_adapter_without_credential
                    (Mock.world_without_keys (py "unused")) (py "Hello")
                    (Some (pyb "data")) None None)).
    vm_compute. reflexivity.
Defined.

(** X14.  When [configure] raises, the Google adapter returns
    ["Error: Failed to configure Google GenAI SDK - ..."] with the text of the
    exception and stops there: the file is not looked at, no model object is
    built, nothing is sent. *)
Theorem X14_google_configure_failure
    w prompt file_content filename mime_type api_key e :
  World.getenv w (py "GOOGLE_API_KEY") = Some api_key -> api_key <> [] ->
  World.configure w api_key = inl e ->
  GoogleUtils.get_google_gemini_response w prompt file_content filename mime_type
  = ([GenAI_configure api_key],
     Return (py "Error: Failed to configure Google GenAI SDK - " ++ exc_str e
             ++ py ". Check API key and library installation.")).
Proof.
  intros Hkey Hne Hconfigure. rewrite google_shape, Hkey.
  destruct api_key as [|c api_key]; [done|].
  rewrite (M_eta (try_except_else _ _ _)). monad. by rewrite Hconfigure.
Qed.

Lemma X14_witness :
  GoogleUtils.get_google_gemini_response
    {| World.environ := {[ py "GOOGLE_API_KEY" := py "k" ]};
       World.unicode_lower := fun s => s;
       World.config_json := World.FileNotFoundError;
       World.OpenAI := inr tt;
       World.chat_completions_create :=
         fun _ _ _ => inr (ChatCompletion.with_content (py "unused"));
       World.configure :=
         fun _ => inl (Mock.sdk_error AttributeError "AttributeError"
                         "module 'google.genai' has no attribute 'configure'");
       World.Part_from_bytes := fun _ _ => inr tt;
       World.GenerativeModel := fun _ => inr tt;
       World.generate_content := fun _ _ => inr (Mock.gemini_response (py "unused")) |}
    (py "Hello") (Some (pyb "data")) None None
  = ([GenAI_configure (py "k")],
     Return (py "Error: Failed to configure Google GenAI SDK - module 'google.genai' has no attribute 'configure'. Check API key and library installation.")).
Proof.
  rewrite (X14_google_configure_failure _ (py "Hello") (Some (pyb "data")) None None
             (py "k")
             (Mock.sdk_error AttributeError "AttributeError"
                "module 'google.genai' has no attribute 'configure'"));
    vm_compute; (reflexivity || discriminate).
Defined.

(** X15.  A block reason in the prompt feedback has priority over
    everything else in the response: the adapter returns the block reason
    and the safety ratings, joined by [", "], and does not read the text
    (which may be missing, empty or present). *)
Theorem X15_google_blocked_prompt
    w prompt api_key response prompt_feedback block_reason_name :
  World.getenv w (py "GOOGLE_API_KEY") = Some api_key -> api_key <> [] ->
  World.configure w api_key = inr tt ->
  World.GenerativeModel w (GoogleUtils.GOOGLE_DEFAULT_MODEL w) = inr tt ->
  World.generate_content w (GoogleUtils.GOOGLE_DEFAULT_MODEL w) [Text prompt]
  = inr response ->
  GenerateContentResponse.prompt_feedback response = Some prompt_feedback ->
  GenerateContentResponse.block_reason prompt_feedback = Some block_reason_name ->
  result (GoogleUtils.get_google_gemini_response w prompt None None None)
  = Return (py "Error: Prompt blocked by Google API. Reason: " ++ block_reason_name
            ++ py ". " ++ py "Safety Ratings: ["
            ++ join (py ", ")
                 (map (fun sr => GenerateContentResponse.category sr ++ py ": "
                                 ++ GenerateContentResponse.probability sr)
                    (GenerateContentResponse.safety_ratings prompt_feedback))
            ++ py "]").
Proof.
  intros Hkey Hne Hconfigure Hmodel Hanswer Hfeedback Hreason.
  rewrite google_shape, Hkey. destruct api_key as [|c api_key]; [done|].
  monad. rewrite Hconfigure. cbn [Spec.gemini_plan truthy].
  unfold GoogleUtils.generate. monad. rewrite Hmodel. monad.
  rewrite Hanswer. monad. rewrite Hfeedback. cbn [mbind option_bind].
  rewrite Hreason. cbn [mbind option_bind]. monad.
  reflexivity.
Qed.

Lemma X15_witness :
  result (GoogleUtils.get_google_gemini_response
            (Mock.world_answering
               (inr (ChatCompletion.with_content (py "unused")))
               (inr Mock.blocked_response))
            (py "A problematic prompt") None None None)
  = Return (py "Error: Prompt blocked by Google API. Reason: SAFETY. Safety Ratings: [HARM_CATEGORY_DANGEROUS_CONTENT: HIGH, HARM_CATEGORY_HARASSMENT: LOW]").
Proof.
  rewrite (X15_google_blocked_prompt
             (Mock.world_answering
                (inr (ChatCompletion.with_content (py "unused")))
                (inr Mock.blocked_response))
             (py "A problematic prompt") (py "fake_google_key")
             Mock.blocked_response Mock.blocked_feedback (py "SAFETY"));
    vm_compute; (reflexivity || discriminate).
Defined.

(** X16.  The handler for [openai.APIError] formats [e.status_code].  If
    the request raises an [APIError] that has no such attribute (and is none
    of the three subclasses handled before), the handler raises
    [AttributeError] in its turn; the adapter lets it out, and the endpoint
    reports it through its last [except] clause: status 500, and a detail
    that speaks of the missing attribute, not of the error of the API. *)
Theorem X16_api_error_without_status_code w prompt file_content filename e :
  truthy (World.getenv w (py "OPENAI_API_KEY")) = true ->
  World.OpenAI w = inr tt ->
  (forall messages,
      World.chat_completions_create w (OpenAIUtils.OPENAI_DEFAULT_MODEL w)
        messages 1024 = inl e) ->
  exc_class_of e = APIError -> exc_status_code e = None ->
  exists err,
    result (OpenAIUtils.get_openai_chat_response w prompt file_content filename)
    = Raise (PyError err)
    /\ exc_class_of err = AttributeError
    /\ exc_str err = py "'" ++ exc_name e
                     ++ py "' object has no attribute 'status_code'"
    /\ forall file mime_type,
         Spec.file_reads file file_content filename mime_type ->
         result (Main.generate_text w (py "openai") prompt file)
         = Raise (HTTPException 500
                    (py "An unexpected server error occurred while contacting the AI provider: "
                     ++ py "'" ++ exc_name e
                     ++ py "' object has no attribute 'status_code'")).
Proof.
  intros Hkey Hclient Hanswer Hcls Hstatus.
  eexists. split; [|split; [|split]].
  - rewrite openai_shape, Hkey. unfold OpenAIUtils.complete. monad.
    rewrite Hclient. monad. rewrite Hanswer. monad.
    unfold OpenAIUtils.openai_handlers, isinstance, class_of. rewrite Hcls.
    cbn [issubclass exc_class_eqb base_class orb]. monad.
    unfold getattr, attribute. cbn [String.eqb Ascii.eqb Bool.eqb].
    rewrite Hstatus. monad. reflexivity.
  - reflexivity.
  - by vm_compute.
  - intros file mime_type Hfile.
    rewrite (generate_text_openai _ _ _ _ _ _ Hkey Hfile).
    unfold result at 1, Spec.relay. cbn [snd].
    rewrite openai_shape, Hkey. unfold OpenAIUtils.complete. monad.
    rewrite Hclient. monad. rewrite Hanswer. monad.
    unfold OpenAIUtils.openai_handlers, isinstance, class_of. rewrite Hcls.
    cbn [issubclass exc_class_eqb base_class orb]. monad.
    unfold getattr, attribute. cbn [String.eqb Ascii.eqb Bool.eqb].
    rewrite Hstatus. monad. by vm_compute.
Qed.

Lemma X16_witness :
  result (Main.generate_text
            (Mock.world_answering
               (inl (Mock.sdk_error APIError "APIError" "Generic API Error"))
               (inr (Mock.gemini_response (py "unused"))))
            (py "openai") (py "Hello") None)
  = Raise (HTTPException 500
             (py "An unexpected server error occurred while contacting the AI provider: 'APIError' object has no attribute 'status_code'")).
Proof.
  destruct (X16_api_error_without_status_code
              (Mock.world_answering
                 (inl (Mock.sdk_error APIError "APIError" "Generic API Error"))
                 (inr (Mock.gemini_response (py "unused"))))
              (py "Hello") None None
              (Mock.sdk_error APIError "APIError" "Generic API Error"))
    as (err & _ & _ & _ & Hendpoint);
    [vm_compute; reflexivity | reflexivity | intros; reflexivity
    | reflexivity | reflexivity |].
  rewrite (Hendpoint None None Spec.reads_no_file). vm_compute. reflexivity.
Defined.

(** X17.  Whatever the file, every chat-completion request of the OpenAI
    adapter goes to the configured default model with [max_tokens=1024],
    carries one message or two, and ends with the user message that holds
    the prompt unchanged; a first message, when there is one, has the role
    ["system"].  An image is treated like any other file: there is no vision
    model on this path. *)
Theorem X17_openai_request_invariants
    w prompt file_content filename model messages max_tokens :
  ChatCompletions_create model messages max_tokens
  ∈ calls (OpenAIUtils.get_openai_chat_response w prompt file_content filename) ->
  model = OpenAIUtils.OPENAI_DEFAULT_MODEL w
  /\ max_tokens = 1024%Z
  /\ (length messages <= 2)%nat
  /\ last messages = Some {[ py "role" := py "user"; py "content" := prompt ]}
  /\ (forall first, messages !! 0%nat = Some first -> length messages = 2%nat ->
      first !! py "role" = Some (py "system")).
Proof.
  rewrite openai_calls_all. intros (-> & -> & ->)%openai_calls_request.
  split; [done|]. split; [done|].
  unfold Spec.openai_messages.
  destruct (truthy file_content && truthy filename);
    [|destruct (truthy file_content && negb (truthy filename))];
    cbn [app length last lookup list_lookup];
    (split; [lia|]); (split; [done|]); intros first [= <-] Hlen;
    try done; by vm_compute.
Qed.

(** An image sent to the OpenAI adapter. *)
Lemma X17_witness :
  (length (Spec.openai_messages (py "What is this?") (Some (pyb "PNG"))
             (Some (py "photo.png"))) <= 2)%nat
  /\ last (Spec.openai_messages (py "What is this?") (Some (pyb "PNG"))
             (Some (py "photo.png")))
     = Some {[ py "role" := py "user"; py "content" := py "What is this?" ]}.
Proof.
  destruct (X17_openai_request_invariants (Mock.world (py "ok"))
              (py "What is this?") (Some (pyb "PNG")) (Some (py "photo.png"))
              (py "gpt-3.5-turbo")
              (Spec.openai_messages (py "What is this?") (Some (pyb "PNG"))
                 (Some (py "photo.png")))
              1024%Z) as (_ & _ & Hlength & Hlast & _).
  - assert (calls (OpenAIUtils.get_openai_chat_response (Mock.world (py "ok"))
                     (py "What is this?") (Some (pyb "PNG")) (Some (py "photo.png")))
            = [OpenAI_client;
               ChatCompletions_create (py "gpt-3.5-turbo")
                 (Spec.openai_messages (py "What is this?") (Some (pyb "PNG"))
                    (Some (py "photo.png"))) 1024]) as ->
      by (vm_compute; reflexivity).
    apply elem_of_cons. right. apply elem_of_cons. by left.
  - by split.
Defined.

(** X18.  Whatever the file, every request of the Google adapter goes to
    the configured default model or to the configured vision model, and its
    contents begin with a string that begins with the prompt unchanged; a
    binary part is sent to the vision model only. *)
Theorem X18_google_request_invariants
    w prompt file_content filename mime_type model contents :
  GenAI_generate_content model contents
  ∈ calls (GoogleUtils.get_google_gemini_response
             w prompt file_content filename mime_type) ->
  (model = GoogleUtils.GOOGLE_DEFAULT_MODEL w
   \/ model = GoogleUtils.GOOGLE_VISION_MODEL w)
  /\ (exists first rest,
         contents = Text first :: rest /\ startswith first prompt = true)
  /\ (Spec.has_image_part contents = true ->
      model = GoogleUtils.GOOGLE_VISION_MODEL w).
Proof.
  rewrite google_calls_all.
  destruct (Spec.gemini_plan _ _ _ _ _)
    as [message|[[part model'] contents']] eqn:Hplan.
  { destruct (World.getenv _ _) as [[|c api_key]|];
      rewrite ?elem_of_cons, ?elem_of_nil; intros H;
      repeat destruct H as [H|H]; by simplify_eq. }
  intros [-> ->]%gemini_calls_request.
  unfold Spec.gemini_plan in Hplan.
  destruct (truthy file_content).
  - destruct (negb (truthy filename) || negb (truthy mime_type)); [done|].
    destruct (contains _ _); injection Hplan as <- <- <-.
    + split; [by right|]. split; [|done].
      eexists _, _. split; [done|]. rewrite <- (app_nil_r prompt) at 1.
      apply startswith_self.
    + split; [by left|]. split; [|done].
      eexists _, _. split; [done|]. apply startswith_self.
  - injection Hplan as <- <- <-. split; [by left|]. split; [|done].
    eexists _, _. split; [done|]. rewrite <- (app_nil_r prompt) at 1.
    apply startswith_self.
Qed.

(** A text file sent to the Google adapter. *)
Lemma X18_witness :
  exists first rest,
    [Text (Spec.enhanced_prompt (py "Summarize") (py "a.txt") (py "text/plain")
             (py "data"))]
    = Text first :: rest
    /\ startswith first (py "Summarize") = true.
Proof.
  refine (proj1 (proj2 (X18_google_request_invariants (Mock.world (py "ok"))
                          (py "Summarize") (Some (pyb "data")) (Some (py "a.txt"))
                          (Some (py "text/plain"))
                          (py "gemini-1.5-flash-latest")
                          [Text (Spec.enhanced_prompt (py "Summarize") (py "a.txt")
                                   (py "text/plain") (py "data"))] _))).
  assert (calls (GoogleUtils.get_google_gemini_response (Mock.world (py "ok"))
                   (py "Summarize") (Some (pyb "data")) (Some (py "a.txt"))
                   (Some (py "text/plain")))
          = [GenAI_configure (py "fake_google_key");
             GenAI_GenerativeModel (py "gemini-1.5-flash-latest");
             GenAI_generate_content (py "gemini-1.5-flash-latest")
               [Text (Spec.enhanced_prompt (py "Summarize") (py "a.txt")
                        (py "text/plain") (py "data"))]]) as ->
    by (vm_compute; reflexivity).
  apply elem_of_cons. right. apply elem_of_cons. right. apply elem_of_cons. by left.
Defined.

(* ===================================================================== *)
(** * Further properties of the file excerpts                             *)
(* ===================================================================== *)

Lemma decode_slice_bound errors n b :
  N.of_nat (length (decode errors (slice_to n b))) <= n
  /\ (length (decode errors (slice_to n b)) <= length b)%nat.
Proof.
  split.
  - pose proof (decode_slice_length errors n b). lia.
  - etrans; [apply decode_length|]. unfold slice_to. rewrite length_take. lia.
Qed.

(** X19.  The system message of the OpenAI adapter announces the "first
    2000 characters" of the file; the excerpt is cut by bytes, so it holds
    at most 2000 characters, and at most as many as the file has bytes. *)
Theorem X19_openai_excerpt_bound
    w prompt file_content filename model messages max_tokens :
  file_content <> [] ->
  ChatCompletions_create model messages max_tokens
  ∈ calls (OpenAIUtils.get_openai_chat_response
             w prompt (Some file_content) filename) ->
  exists label excerpt,
    messages = [ {[ py "role" := py "system"; py "content" := label ++ excerpt ]};
                 {[ py "role" := py "user"; py "content" := prompt ]} ]
    /\ excerpt = decode ErrorsIgnore (slice_to 2000 file_content)
    /\ N.of_nat (length excerpt) <= 2000
    /\ (length excerpt <= length file_content)%nat.
Proof.
  intros Hfile. rewrite openai_calls_all.
  intros (_ & -> & _)%openai_calls_request.
  destruct (decode_slice_bound ErrorsIgnore 2000 file_content) as [Hlen1 Hlen2].
  unfold Spec.openai_messages. rewrite (truthy_nonempty file_content Hfile).
  destruct (truthy filename); cbn [andb negb app default from_option id].
  - exists (py "The user has uploaded a file named '" ++ default [] filename
            ++ py "'. " ++ py "Its content (first 2000 characters) is: "),
           (decode ErrorsIgnore (slice_to 2000 file_content)).
    rewrite <- !app_assoc. by repeat split.
  - exists (py "The user has uploaded a file (name not provided). Its content (first 2000 characters) is: "),
           (decode ErrorsIgnore (slice_to 2000 file_content)).
    by repeat split.
Qed.

(** Three bytes that encode one character, the euro sign. *)
Lemma X19_witness :
  exists label excerpt,
    Spec.openai_messages (py "Price?") (Some [xe2; x82; xac]) (Some (py "p.txt"))
    = [ {[ py "role" := py "system"; py "content" := label ++ excerpt ]};
        {[ py "role" := py "user"; py "content" := py "Price?" ]} ]
    /\ excerpt = decode ErrorsIgnore (slice_to 2000 [xe2; x82; xac])
    /\ N.of_nat (length excerpt) <= 2000
    /\ (length excerpt <= length [xe2; x82; xac])%nat.
Proof.
  apply (X19_openai_excerpt_bound (Mock.world (py "ok")) (py "Price?")
           [xe2; x82; xac] (Some (py "p.txt")) (py "gpt-3.5-turbo")
           (Spec.openai_messages (py "Price?") (Some [xe2; x82; xac])
              (Some (py "p.txt")))
           1024%Z ltac:(discriminate)).
  assert (calls (OpenAIUtils.get_openai_chat_response (Mock.world (py "ok"))
                   (py "Price?") (Some [xe2; x82; xac]) (Some (py "p.txt")))
          = [OpenAI_client;
             ChatCompletions_create (py "gpt-3.5-turbo")
               (Spec.openai_messages (py "Price?") (Some [xe2; x82; xac])
                  (Some (py "p.txt"))) 1024]) as ->
    by (vm_compute; reflexivity).
  apply elem_of_cons. right. apply elem_of_cons. by left.
Defined.

(** X25.  Called with a non-empty file and a filename, the OpenAI adapter
    decodes the first 2000 bytes of the file as UTF-8 and
    DROPS the bytes that do not decode ([errors='ignore']; nothing is put in
    their place), and it sends a system message with the filename and that
    excerpt before the user message with the prompt: no request it makes
    carries any other list, and the request is made whenever the credential
    is set and the client can be built.  The excerpt is the text that
    replacing would give less the replacement characters, and it is that very
    text when the file is ASCII. *)
Theorem X25_openai_named_file_request w prompt file_content filename :
  file_content <> [] -> filename <> [] ->
  let m := OpenAIUtils.get_openai_chat_response w prompt
             (Some file_content) (Some filename) in
  let excerpt := decode ErrorsIgnore (slice_to 2000 file_content) in
  let messages :=
    [ {[ py "role" := py "system";
         py "content" :=
           py "The user has uploaded a file named '" ++ filename ++ py "'. "
           ++ py "Its content (first 2000 characters) is: " ++ excerpt ]};
      {[ py "role" := py "user"; py "content" := prompt ]} ] in
  (forall model messages' max_tokens,
      ChatCompletions_create model messages' max_tokens ∈ calls m ->
      messages' = messages)
  /\ (truthy (World.getenv w (py "OPENAI_API_KEY")) = true ->
      World.OpenAI w = inr tt ->
      calls m
      = [OpenAI_client;
         ChatCompletions_create (OpenAIUtils.OPENAI_DEFAULT_MODEL w) messages 1024])
  /\ excerpt `sublist_of` decode ErrorsReplace (slice_to 2000 file_content)
  /\ (Forall (fun b => Byte.to_N b < 0x80) file_content ->
      excerpt = decode ErrorsReplace (slice_to 2000 file_content)).
Proof.
  intros Hfile Hname m excerpt messages. subst m.
  rewrite openai_calls_named_file by done. split; [|split; [|split]].
  - intros model messages' max_tokens. by intros (_ & -> & _)%openai_calls_request.
  - apply openai_calls_complete.
  - apply decode_ignore_sublist.
  - intros Hascii. subst excerpt. unfold slice_to.
    by rewrite !decode_ascii by by apply Forall_take.
Qed.

(** The file of the adapter's decoding test, [b'\x80abc'] named
    ["bad_encoding.txt"]: the excerpt that is sent is ["abc"]. *)
Lemma X25_witness :
  calls (OpenAIUtils.get_openai_chat_response
           (Mock.world (py "OpenAI file processed")) (py "Test")
           (Some (x80 :: pyb "abc")) (Some (py "bad_encoding.txt")))
  = [OpenAI_client;
     ChatCompletions_create (py "gpt-3.5-turbo")
       [ {[ py "role" := py "system";
            py "content" :=
              py "The user has uploaded a file named 'bad_encoding.txt'. Its content (first 2000 characters) is: abc" ]};
         {[ py "role" := py "user"; py "content" := py "Test" ]} ] 1024].
Proof.
  destruct (X25_openai_named_file_request (Mock.world (py "OpenAI file processed"))
              (py "Test") (x80 :: pyb "abc") (py "bad_encoding.txt"))
    as (_ & Hcalls & _);
    [vm_compute; discriminate .. |].
  rewrite Hcalls by (vm_compute; reflexivity). vm_compute. reflexivity.
Defined.

(** X20.  The text the Google adapter sends for a file that is not an
    image holds at most 50000 characters of the file, and at most as many as
    the file has bytes, between the header line and the closing line. *)
Theorem X20_google_excerpt_bound
    w prompt file_content filename mime_type model contents :
  file_content <> [] -> filename <> [] -> mime_type <> [] ->
  contains (py "image") (lower (World.unicode_lower w) mime_type) = false ->
  GenAI_generate_content model contents
  ∈ calls (GoogleUtils.get_google_gemini_response
             w prompt (Some file_content) (Some filename) (Some mime_type)) ->
  exists excerpt,
    contents
    = [Text (prompt ++ NL ++ NL
             ++ py "--- User Uploaded File: " ++ filename ++ py " (MIME type: "
             ++ mime_type ++ py ") ---" ++ NL
             ++ excerpt ++ NL ++ py "--- End of File Content ---")]
    /\ excerpt = decode ErrorsReplace (slice_to 50000 file_content)
    /\ N.of_nat (length excerpt) <= 50000
    /\ (length excerpt <= length file_content)%nat.
Proof.
  intros Hfile Hname Hmime Himage.
  rewrite google_calls_text_file by done.
  intros [_ ->]%gemini_calls_request.
  destruct (decode_slice_bound ErrorsReplace 50000 file_content) as [Hlen1 Hlen2].
  exists (decode ErrorsReplace (slice_to 50000 file_content)).
  by repeat split.
Qed.

Lemma X20_witness :
  exists excerpt,
    [Text (Spec.enhanced_prompt (py "Summarize") (py "a.txt") (py "text/plain")
             (decode ErrorsReplace (slice_to 50000 [xe2; x82; xac])))]
    = [Text (py "Summarize" ++ NL ++ NL
             ++ py "--- User Uploaded File: " ++ py "a.txt" ++ py " (MIME type: "
             ++ py "text/plain" ++ py ") ---" ++ NL
             ++ excerpt ++ NL ++ py "--- End of File Content ---")]
    /\ excerpt = decode ErrorsReplace (slice_to 50000 [xe2; x82; xac])
    /\ N.of_nat (length excerpt) <= 50000
    /\ (length excerpt <= length [xe2; x82; xac])%nat.
Proof.
  apply (X20_google_excerpt_bound (Mock.world (py "ok")) (py "Summarize")
           [xe2; x82; xac] (py "a.txt") (py "text/plain")
           (py "gemini-1.5-flash-latest")
           [Text (Spec.enhanced_prompt (py "Summarize") (py "a.txt")
                    (py "text/plain")
                    (decode ErrorsReplace (slice_to 50000 [xe2; x82; xac])))]
           ltac:(discriminate) ltac:(vm_compute; discriminate)
           ltac:(vm_compute; discriminate) ltac:(vm_compute; reflexivity)).
  assert (calls (GoogleUtils.get_google_gemini_response (Mock.world (py "ok"))
                   (py "Summarize") (Some [xe2; x82; xac]) (Some (py "a.txt"))
                   (Some (py "text/plain")))
          = [GenAI_configure (py "fake_google_key");
             GenAI_GenerativeModel (py "gemini-1.5-flash-latest");
             GenAI_generate_content (py "gemini-1.5-flash-latest")
               [Text (Spec.enhanced_prompt (py "Summarize") (py "a.txt")
                        (py "text/plain")
                        (decode ErrorsReplace (slice_to 50000 [xe2; x82; xac])))]])
    as -> by (vm_compute; reflexivity).
  apply elem_of_cons. right. apply elem_of_cons. right. apply elem_of_cons. by left.
Defined.

(** A lead byte of a multi-byte sequence, alone at the end of the data, is
    an unexpected end of data. *)
Lemma utf8_decode_lone_lead errors lead :
  0xC2 <= lead -> lead <= 0xF4 ->
  utf8_decode 1 errors [lead] = on_decode_error errors.
Proof.
  intros Hlo Hhi. cbn [utf8_decode utf8_decode_step].
  destruct (lead <? 0x80) eqn:H1; [apply N.ltb_lt in H1; lia|].
  destruct (lead <? 0xC2) eqn:H2; [apply N.ltb_lt in H2; lia|].
  destruct (lead <? 0xE0); [done|].
  destruct (lead <? 0xF0); [done|].
  destruct (lead <? 0xF5) eqn:H5; [done|].
  apply N.ltb_ge in H5. lia.
Qed.

(** X21.  The excerpt is cut by bytes, not by characters.  When the cut
    falls inside a multi-byte character (ASCII text, then the lead byte of a
    sequence as the last byte kept), the OpenAI adapter drops the broken
    character without a trace and the Google adapter puts U+FFFD in its
    place, whatever follows in the file. *)
Theorem X21_character_cut_at_the_limit errors n ascii lead rest :
  (length ascii + 1)%nat = N.to_nat n ->
  Forall (fun b => Byte.to_N b < 0x80) ascii ->
  0xC2 <= Byte.to_N lead -> Byte.to_N lead <= 0xF4 ->
  decode errors (slice_to n (ascii ++ lead :: rest))
  = map Byte.to_N ascii ++ on_decode_error errors.
Proof.
  intros Hlen Hascii Hlo Hhi. unfold slice_to. rewrite <- Hlen.
  rewrite take_app_add. cbn [take]. unfold decode.
  rewrite length_app, map_app. cbn [length map].
  rewrite <- (length_map Byte.to_N ascii).
  rewrite utf8_decode_ascii_app by by apply Forall_map.
  by rewrite utf8_decode_lone_lead.
Qed.

(** A file of 1999 letters followed by ["é"] (the bytes C3 A9): the excerpt
    of the OpenAI adapter is the 1999 letters. *)
Lemma X21_witness :
  decode ErrorsIgnore (slice_to 2000 (replicate 1999 "a"%byte ++ [xc3; xa9]))
  = map Byte.to_N (replicate 1999 "a"%byte) ++ [].
Proof.
  apply (X21_character_cut_at_the_limit ErrorsIgnore 2000
           (replicate 1999 "a"%byte) xc3 [xa9]).
  - vm_compute. reflexivity.
  - apply Forall_replicate. vm_compute. reflexivity.
  - vm_compute. discriminate.
  - vm_compute. discriminate.
Defined.

(* ===================================================================== *)
(** * Further properties: the model names                                 *)
(* ===================================================================== *)

(** ** The head of the two modules *)

Lemma existsb_is_string key items :
  existsb (Json.is_string key) items = true <-> Json.String key ∈ items.
Proof.
  induction items as [|v items IH]; cbn [existsb].
  - split; [done | by intros ?%elem_of_nil].
  - rewrite orb_true_iff, IH, elem_of_cons. split; intros [H|H]; auto; left.
    + destruct v; try done. cbn in H. by apply bool_decide_eq_true in H as ->.
    + subst v. cbn. by apply bool_decide_eq_true.
Qed.

Lemma json_lookup_singleton key v : Json.lookup [(key, v)] key = Some v.
Proof. cbn. by rewrite bool_decide_eq_true_2. Qed.

Lemma model_name_cases provider default_fields field fallback config_json :
  Json.lookup default_fields field = Some fallback ->
  ConfigFile.model_name provider
    (Json.Object [(provider, Json.Object default_fields)]) field config_json
  = match config_json with
    | ConfigFile.Raises ConfigFile.FileNotFoundError
    | ConfigFile.Raises ConfigFile.JSONDecodeError => ConfigFile.Bound fallback
    | ConfigFile.Raises (ConfigFile.OtherException name) => ConfigFile.ImportFails name
    | ConfigFile.Loads (Json.Object members) =>
      match Json.lookup members provider with
      | Some (Json.Object fields) =>
        ConfigFile.Bound (default fallback (Json.lookup fields field))
      | _ => ConfigFile.Bound fallback
      end
    | ConfigFile.Loads (Json.Array items) =>
      if existsb (Json.is_string provider) items
      then ConfigFile.ImportFails (py "TypeError")
      else ConfigFile.Bound fallback
    | ConfigFile.Loads (Json.String s) =>
      if contains provider s
      then ConfigFile.ImportFails (py "TypeError")
      else ConfigFile.Bound fallback
    | ConfigFile.Loads _ => ConfigFile.ImportFails (py "TypeError")
    end.
Proof.
  intros Hfallback.
  assert (forall fields,
             ConfigFile.and_then
               (ConfigFile.getitem
                  (Json.Object [(provider, Json.Object default_fields)]) provider)
               (fun default_entry =>
                  ConfigFile.and_then (ConfigFile.getitem default_entry field)
                    (fun fallback => ConfigFile.get (Json.Object fields) field fallback))
             = ConfigFile.Bound (default fallback (Json.lookup fields field)))
    as Hget.
  { intros fields. cbn [ConfigFile.getitem]. rewrite json_lookup_singleton.
    cbn [ConfigFile.and_then ConfigFile.getitem]. by rewrite Hfallback. }
  assert (ConfigFile.and_then
            (ConfigFile.get (Json.Object [(provider, Json.Object default_fields)])
               provider (Json.Object []))
            (fun entry =>
               ConfigFile.and_then
                 (ConfigFile.getitem
                    (Json.Object [(provider, Json.Object default_fields)]) provider)
                 (fun default_entry =>
                    ConfigFile.and_then (ConfigFile.getitem default_entry field)
                      (fun fallback => ConfigFile.get entry field fallback)))
          = ConfigFile.Bound fallback) as Hdefault.
  { cbn [ConfigFile.get]. rewrite json_lookup_singleton.
    cbn [default from_option id ConfigFile.and_then]. rewrite Hget.
    by rewrite Hfallback. }
  unfold ConfigFile.model_name, ConfigFile.MODEL_CONFIG.
  destruct config_json as [[| |name]|[|b|n|s|items|members]];
    cbn [ConfigFile.and_then ConfigFile.contains_key]; try done.
  - by destruct (contains provider s).
  - by destruct (existsb _ items).
  - destruct (Json.lookup members provider) as [entry|] eqn:Hentry.
    + rewrite bool_decide_eq_true_2 by by eexists.
      cbn [negb ConfigFile.getitem]. rewrite Hentry.
      cbn [ConfigFile.and_then].
      destruct entry; cbn [Json.is_dict negb]; try done.
      cbn [ConfigFile.and_then ConfigFile.get]. rewrite Hentry.
      cbn [default from_option id]. apply Hget.
    + rewrite bool_decide_eq_false_2 by by intros [? ?].
      done.
Qed.

Lemma json_lookup_list {V} (f : V -> Json.value) (l : list (list N * V)) key :
  NoDup l.*1 ->
  Json.lookup (prod_map id f <$> l) key
  = f <$> ((list_to_map l : gmap (list N) V) !! key).
Proof.
  induction l as [|[k v] l IH]; intros Hnodup; [done|].
  apply NoDup_cons in Hnodup as [Hk Hnodup].
  cbn [fmap list_fmap prod_map fst snd id Json.lookup list_to_map foldr].
  change (list_fmap _ _ (prod_map id f) l) with (prod_map id f <$> l).
  rewrite IH by done.
  destruct (decide (k = key)) as [->|Hne].
  - rewrite lookup_insert_eq.
    rewrite (not_elem_of_list_to_map_1 l key) by done.
    cbn. by rewrite bool_decide_eq_true_2.
  - rewrite lookup_insert_ne by done.
    destruct (list_to_map l !! key); [done|].
    cbn. by rewrite bool_decide_eq_false_2.
Qed.

Lemma json_lookup_map_to_list {V} (f : V -> Json.value) (m : gmap (list N) V) key :
  Json.lookup (prod_map id f <$> map_to_list m) key = f <$> m !! key.
Proof.
  rewrite json_lookup_list by apply NoDup_fst_map_to_list.
  by rewrite list_to_map_to_list.
Qed.

Lemma config_represents_read_of_config c :
  Spec.config_represents c (Spec.read_of_config c).
Proof.
  destruct c as [| |loaded_config]; [done..|].
  eexists. split; [reflexivity|]. intros provider.
  rewrite json_lookup_map_to_list.
  destruct (loaded_config !! provider) as [[d|]|]; cbn; [|done..].
  eexists. split; [reflexivity|]. intros field.
  apply json_lookup_map_to_list.
Qed.

(** The model name of the adapters' world, by cases. *)
Lemma entry_get_cases (c : World.config_file) (provider : list N)
    (DEFAULT : gmap (list N) World.config_entry) (field fallback : list N) :
  World.entry_get (default (World.Dict ∅) (DEFAULT !! provider)) field fallback
  = fallback ->
  World.entry_get
    (default (World.Dict ∅)
       (match c with
        | World.Loaded loaded_config =>
          match loaded_config !! provider with
          | Some (World.Dict _) => loaded_config
          | _ => DEFAULT
          end
        | _ => DEFAULT
        end !! provider)) field fallback
  = match c with
    | World.Loaded loaded_config =>
      match loaded_config !! provider with
      | Some (World.Dict d) => default fallback (d !! field)
      | _ => fallback
      end
    | _ => fallback
    end.
Proof.
  intros Hdefault.
  destruct c as [| |loaded_config]; [done..|].
  destruct (loaded_config !! provider) as [[d|]|] eqn:Hentry; [|done..].
  by rewrite Hentry.
Qed.

Lemma model_name_refines c r provider default_fields field fallback :
  Spec.config_represents c r ->
  Json.lookup default_fields field = Some (Json.String fallback) ->
  ConfigFile.model_name provider
    (Json.Object [(provider, Json.Object default_fields)]) field r
  = ConfigFile.Bound
      (Json.String
         match c with
         | World.Loaded loaded_config =>
           match loaded_config !! provider with
           | Some (World.Dict d) => default fallback (d !! field)
           | _ => fallback
           end
         | _ => fallback
         end).
Proof.
  intros Hrepresents Hfallback.
  rewrite (model_name_cases _ _ _ _ _ Hfallback).
  destruct c as [| |loaded_config]; cbn in Hrepresents; [by subst..|].
  destruct Hrepresents as (members & -> & Hmembers).
  specialize (Hmembers provider).
  destruct (loaded_config !! provider) as [[d|]|],
    (Json.lookup members provider) as [v|]; try done.
  - destruct Hmembers as (fields & -> & Hfields).
    rewrite Hfields. by destruct (d !! field).
  - by destruct v.
Qed.

Lemma openai_model_refines w r :
  Spec.config_represents (World.config_json w) r ->
  OpenAIUtils.AtImport.OPENAI_DEFAULT_MODEL r
  = ConfigFile.Bound (Json.String (OpenAIUtils.OPENAI_DEFAULT_MODEL w)).
Proof.
  intros Hrepresents.
  unfold OpenAIUtils.AtImport.OPENAI_DEFAULT_MODEL,
    OpenAIUtils.AtImport.DEFAULT_MODEL_CONFIG.
  rewrite (model_name_refines _ _ _ _ _ (py "gpt-3.5-turbo") Hrepresents)
    by (by vm_compute).
  unfold OpenAIUtils.OPENAI_DEFAULT_MODEL, OpenAIUtils.MODEL_CONFIG.
  by rewrite entry_get_cases by (by vm_compute).
Qed.

Lemma google_model_refines w r :
  Spec.config_represents (World.config_json w) r ->
  GoogleUtils.AtImport.GOOGLE_DEFAULT_MODEL r
  = ConfigFile.Bound (Json.String (GoogleUtils.GOOGLE_DEFAULT_MODEL w))
  /\ GoogleUtils.AtImport.GOOGLE_VISION_MODEL r
     = ConfigFile.Bound (Json.String (GoogleUtils.GOOGLE_VISION_MODEL w)).
Proof.
  intros Hrepresents.
  unfold GoogleUtils.AtImport.GOOGLE_DEFAULT_MODEL,
    GoogleUtils.AtImport.GOOGLE_VISION_MODEL,
    GoogleUtils.AtImport.DEFAULT_MODEL_CONFIG.
  rewrite !(model_name_refines _ _ _ _ _ (py "gemini-1.5-flash-latest") Hrepresents)
    by (by vm_compute).
  unfold GoogleUtils.GOOGLE_DEFAULT_MODEL, GoogleUtils.GOOGLE_VISION_MODEL,
    GoogleUtils.MODEL_CONFIG.
  by rewrite !entry_get_cases by (by vm_compute).
Qed.

Lemma openai_model_cases config_json :
  OpenAIUtils.AtImport.OPENAI_DEFAULT_MODEL config_json
  = match config_json with
    | ConfigFile.Raises ConfigFile.FileNotFoundError
    | ConfigFile.Raises ConfigFile.JSONDecodeError =>
      ConfigFile.Bound (Json.String (py "gpt-3.5-turbo"))
    | ConfigFile.Raises (ConfigFile.OtherException name) => ConfigFile.ImportFails name
    | ConfigFile.Loads (Json.Object members) =>
      match Json.lookup members (py "openai") with
      | Some (Json.Object fields) =>
        ConfigFile.Bound (default (Json.String (py "gpt-3.5-turbo"))
                            (Json.lookup fields (py "default_model")))
      | _ => ConfigFile.Bound (Json.String (py "gpt-3.5-turbo"))
      end
    | ConfigFile.Loads (Json.Array items) =>
      if existsb (Json.is_string (py "openai")) items
      then ConfigFile.ImportFails (py "TypeError")
      else ConfigFile.Bound (Json.String (py "gpt-3.5-turbo"))
    | ConfigFile.Loads (Json.String s) =>
      if contains (py "openai") s
      then ConfigFile.ImportFails (py "TypeError")
      else ConfigFile.Bound (Json.String (py "gpt-3.5-turbo"))
    | ConfigFile.Loads _ => ConfigFile.ImportFails (py "TypeError")
    end.
Proof. apply model_name_cases. by vm_compute. Qed.


Lemma google_model_cases field config_json :
  field = py "default_model" \/ field = py "vision_model" ->
  ConfigFile.model_name (py "google") GoogleUtils.AtImport.DEFAULT_MODEL_CONFIG field
    config_json
  = match config_json with
    | ConfigFile.Raises ConfigFile.FileNotFoundError
    | ConfigFile.Raises ConfigFile.JSONDecodeError =>
      ConfigFile.Bound (Json.String (py "gemini-1.5-flash-latest"))
    | ConfigFile.Raises (ConfigFile.OtherException name) => ConfigFile.ImportFails name
    | ConfigFile.Loads (Json.Object members) =>
      match Json.lookup members (py "google") with
      | Some (Json.Object fields) =>
        ConfigFile.Bound (default (Json.String (py "gemini-1.5-flash-latest"))
                            (Json.lookup fields (field)))
      | _ => ConfigFile.Bound (Json.String (py "gemini-1.5-flash-latest"))
      end
    | ConfigFile.Loads (Json.Array items) =>
      if existsb (Json.is_string (py "google")) items
      then ConfigFile.ImportFails (py "TypeError")
      else ConfigFile.Bound (Json.String (py "gemini-1.5-flash-latest"))
    | ConfigFile.Loads (Json.String s) =>
      if contains (py "google") s
      then ConfigFile.ImportFails (py "TypeError")
      else ConfigFile.Bound (Json.String (py "gemini-1.5-flash-latest"))
    | ConfigFile.Loads _ => ConfigFile.ImportFails (py "TypeError")
    end.
Proof. intros [-> | ->]; apply model_name_cases; by vm_compute. Qed.


(** X22.  What the head of [openai_utils.py] binds [OPENAI_DEFAULT_MODEL]
    to, for every [config.json].  The import fails when reading the file
    raises anything but [FileNotFoundError] and [JSONDecodeError] (a file
    that is not UTF-8, a file that may not be read), and it fails with
    [TypeError] when the file holds [null], a boolean, a number, a list with
    the item ["openai"] or a string that contains ["openai"].  Without a
    file, with a file that is not JSON, with a list or a string that does not
    mention ["openai"], with an object that has no ["openai"] member or
    something else than an object under it, the name is ["gpt-3.5-turbo"].
    With an object under ["openai"], the name is its ["default_model"],
    whatever JSON value stands there, a string or not, and ["gpt-3.5-turbo"]
    when it has none.  For the configurations of the adapters' world, each
    of which stands for an outcome of reading the file, the name bound is the
    model name the adapter uses. *)
Theorem X22_openai_model_from_config :
  let model := OpenAIUtils.AtImport.OPENAI_DEFAULT_MODEL in
  let fallback := Json.String (py "gpt-3.5-turbo") in
  (forall name,
      model (ConfigFile.Raises (ConfigFile.OtherException name))
      = ConfigFile.ImportFails name)
  /\ (forall v,
         v = Json.Null \/ (exists b, v = Json.Bool b) \/ (exists n, v = Json.Number n)
         \/ (exists items, v = Json.Array items /\ Json.String (py "openai") ∈ items)
         \/ (exists s, v = Json.String s /\ contains (py "openai") s = true) ->
         model (ConfigFile.Loads v) = ConfigFile.ImportFails (py "TypeError"))
  /\ model (ConfigFile.Raises ConfigFile.FileNotFoundError) = ConfigFile.Bound fallback
  /\ model (ConfigFile.Raises ConfigFile.JSONDecodeError) = ConfigFile.Bound fallback
  /\ (forall v,
         (exists items, v = Json.Array items /\ Json.String (py "openai") ∉ items)
         \/ (exists s, v = Json.String s /\ contains (py "openai") s = false)
         \/ (exists members,
                v = Json.Object members
                /\ (Json.lookup members (py "openai") = None
                    \/ exists entry, Json.lookup members (py "openai") = Some entry
                                     /\ Json.is_dict entry = false)) ->
         model (ConfigFile.Loads v) = ConfigFile.Bound fallback)
  /\ (forall members fields,
         Json.lookup members (py "openai") = Some (Json.Object fields) ->
         model (ConfigFile.Loads (Json.Object members))
         = ConfigFile.Bound
             (default fallback (Json.lookup fields (py "default_model"))))
  /\ (forall w r,
         Spec.config_represents (World.config_json w) r ->
         model r = ConfigFile.Bound (Json.String (OpenAIUtils.OPENAI_DEFAULT_MODEL w)))
  /\ (forall w,
         Spec.config_represents (World.config_json w)
           (Spec.read_of_config (World.config_json w))).
Proof.
  intros model fallback. subst model fallback.
  split; [|split; [|split; [|split; [|split; [|split; [|split]]]]]].
  - intros name. by rewrite openai_model_cases.
  - intros v Hv. rewrite openai_model_cases.
    destruct Hv as [-> | [[b ->] | [[n ->] | [(items & -> & Hin) | (s & -> & Hs)]]]];
      try done.
    + apply existsb_is_string in Hin. by rewrite Hin.
    + by rewrite Hs.
  - by rewrite openai_model_cases.
  - by rewrite openai_model_cases.
  - intros v Hv. rewrite openai_model_cases.
    destruct Hv as [(items & -> & Hin) | [(s & -> & Hs) | (members & -> & Hentry)]].
    + destruct (existsb _ items) eqn:Hexists; [|done].
      by apply existsb_is_string in Hexists.
    + by rewrite Hs.
    + destruct Hentry as [-> | (entry & -> & Hentry)]; [done|].
      by destruct entry.
  - intros members fields Hentry. rewrite openai_model_cases. by rewrite Hentry.
  - intros w r. apply openai_model_refines.
  - intros w. apply config_represents_read_of_config.
Qed.

Lemma X22_witness :
  OpenAIUtils.AtImport.OPENAI_DEFAULT_MODEL
    (ConfigFile.Loads (Json.Number (py "5")))
  = ConfigFile.ImportFails (py "TypeError")
  /\ OpenAIUtils.AtImport.OPENAI_DEFAULT_MODEL (ConfigFile.Loads Mock.json_provider_list)
     = ConfigFile.ImportFails (py "TypeError")
  /\ OpenAIUtils.AtImport.OPENAI_DEFAULT_MODEL (ConfigFile.Loads Mock.json_null_model)
     = ConfigFile.Bound Json.Null
  /\ OpenAIUtils.AtImport.OPENAI_DEFAULT_MODEL
       (Spec.read_of_config (World.Loaded Mock.DEFAULT_TEST_CONFIG))
     = ConfigFile.Bound (Json.String (py "gpt-3.5-turbo")).
Proof.
  destruct X22_openai_model_from_config
    as (_ & Hfails & _ & _ & _ & Hconfigured & Hworld & Hrepresents).
  split; [|split; [|split]].
  - apply Hfails. right. right. left. by eexists.
  - apply Hfails. right. right. right. left. eexists. split; [reflexivity|].
    apply elem_of_cons. by left.
  - apply (Hconfigured _ [(py "default_model", Json.Null)]). vm_compute. reflexivity.
  - apply (Hworld (Mock.test_world (py "ok"))). apply Hrepresents.
Defined.

(** X23.  What the head of [google_utils.py] binds [GOOGLE_DEFAULT_MODEL]
    and [GOOGLE_VISION_MODEL] to, for every [config.json].  The import fails
    as that of the OpenAI module does, with ["google"] for ["openai"].  The
    two names fall back one by one: with an object under ["google"], each of
    ["default_model"] and ["vision_model"] is taken from it when present,
    whatever JSON value stands there, and is ["gemini-1.5-flash-latest"]
    when absent; in the other cases in which the import succeeds both are
    ["gemini-1.5-flash-latest"].  For the configurations of the adapters'
    world the names bound are the model names the adapter uses. *)
Theorem X23_google_models_from_config :
  let models r :=
    (GoogleUtils.AtImport.GOOGLE_DEFAULT_MODEL r,
     GoogleUtils.AtImport.GOOGLE_VISION_MODEL r) in
  let fallback := Json.String (py "gemini-1.5-flash-latest") in
  (forall name,
      models (ConfigFile.Raises (ConfigFile.OtherException name))
      = (ConfigFile.ImportFails name, ConfigFile.ImportFails name))
  /\ (forall v,
         v = Json.Null \/ (exists b, v = Json.Bool b) \/ (exists n, v = Json.Number n)
         \/ (exists items, v = Json.Array items /\ Json.String (py "google") ∈ items)
         \/ (exists s, v = Json.String s /\ contains (py "google") s = true) ->
         models (ConfigFile.Loads v)
         = (ConfigFile.ImportFails (py "TypeError"),
            ConfigFile.ImportFails (py "TypeError")))
  /\ models (ConfigFile.Raises ConfigFile.FileNotFoundError)
     = (ConfigFile.Bound fallback, ConfigFile.Bound fallback)
  /\ models (ConfigFile.Raises ConfigFile.JSONDecodeError)
     = (ConfigFile.Bound fallback, ConfigFile.Bound fallback)
  /\ (forall v,
         (exists items, v = Json.Array items /\ Json.String (py "google") ∉ items)
         \/ (exists s, v = Json.String s /\ contains (py "google") s = false)
         \/ (exists members,
                v = Json.Object members
                /\ (Json.lookup members (py "google") = None
                    \/ exists entry, Json.lookup members (py "google") = Some entry
                                     /\ Json.is_dict entry = false)) ->
         models (ConfigFile.Loads v)
         = (ConfigFile.Bound fallback, ConfigFile.Bound fallback))
  /\ (forall members fields,
         Json.lookup members (py "google") = Some (Json.Object fields) ->
         models (ConfigFile.Loads (Json.Object members))
         = (ConfigFile.Bound
              (default fallback (Json.lookup fields (py "default_model"))),
            ConfigFile.Bound
              (default fallback (Json.lookup fields (py "vision_model")))))
  /\ (forall w r,
         Spec.config_represents (World.config_json w) r ->
         models r
         = (ConfigFile.Bound (Json.String (GoogleUtils.GOOGLE_DEFAULT_MODEL w)),
            ConfigFile.Bound (Json.String (GoogleUtils.GOOGLE_VISION_MODEL w)))).
Proof.
  intros models fallback. subst models fallback.
  unfold GoogleUtils.AtImport.GOOGLE_DEFAULT_MODEL,
    GoogleUtils.AtImport.GOOGLE_VISION_MODEL.
  assert (forall r a,
             (forall field,
                 field = py "default_model" \/ field = py "vision_model" ->
                 ConfigFile.model_name (py "google")
                   GoogleUtils.AtImport.DEFAULT_MODEL_CONFIG field r = a) ->
             (ConfigFile.model_name (py "google")
                GoogleUtils.AtImport.DEFAULT_MODEL_CONFIG (py "default_model") r,
              ConfigFile.model_name (py "google")
                GoogleUtils.AtImport.DEFAULT_MODEL_CONFIG (py "vision_model") r)
             = (a, a)) as Hboth.
  { intros r a H. by rewrite !H by auto. }
  split; [|split; [|split; [|split; [|split; [|split]]]]].
  - intros name. apply Hboth. intros field Hfield.
    by rewrite google_model_cases.
  - intros v Hv. apply Hboth. intros field Hfield.
    rewrite google_model_cases by done.
    destruct Hv as [-> | [[b ->] | [[n ->] | [(items & -> & Hin) | (s & -> & Hs)]]]];
      try done.
    + apply existsb_is_string in Hin. by rewrite Hin.
    + by rewrite Hs.
  - apply Hboth. intros field Hfield. by rewrite google_model_cases.
  - apply Hboth. intros field Hfield. by rewrite google_model_cases.
  - intros v Hv. apply Hboth. intros field Hfield.
    rewrite google_model_cases by done.
    destruct Hv as [(items & -> & Hin) | [(s & -> & Hs) | (members & -> & Hentry)]].
    + destruct (existsb _ items) eqn:Hexists; [|done].
      by apply existsb_is_string in Hexists.
    + by rewrite Hs.
    + destruct Hentry as [-> | (entry & -> & Hentry)]; [done|].
      by destruct entry.
  - intros members fields Hentry.
    rewrite !google_model_cases by auto. by rewrite Hentry.
  - intros w r Hrepresents.
    destruct (google_model_refines w r Hrepresents) as [Hdefault Hvision].
    unfold GoogleUtils.AtImport.GOOGLE_DEFAULT_MODEL,
      GoogleUtils.AtImport.GOOGLE_VISION_MODEL in Hdefault, Hvision.
    by rewrite Hdefault, Hvision.
Qed.

(** The configuration of the adapter's tests; one that names a vision
    model only, and not by a string; and a list that names the provider. *)
Lemma X23_witness :
  (GoogleUtils.AtImport.GOOGLE_DEFAULT_MODEL (ConfigFile.Loads Mock.json_test_config),
   GoogleUtils.AtImport.GOOGLE_VISION_MODEL (ConfigFile.Loads Mock.json_test_config))
  = (ConfigFile.Bound (Json.String (py "gemini-test-default")),
     ConfigFile.Bound (Json.String (py "gemini-test-vision")))
  /\ (GoogleUtils.AtImport.GOOGLE_DEFAULT_MODEL (ConfigFile.Loads Mock.json_null_model),
      GoogleUtils.AtImport.GOOGLE_VISION_MODEL (ConfigFile.Loads Mock.json_null_model))
     = (ConfigFile.Bound (Json.String (py "gemini-1.5-flash-latest")),
        ConfigFile.Bound Json.Null)
  /\ (GoogleUtils.AtImport.GOOGLE_DEFAULT_MODEL
        (ConfigFile.Loads Mock.json_provider_list),
      GoogleUtils.AtImport.GOOGLE_VISION_MODEL
        (ConfigFile.Loads Mock.json_provider_list))
     = (ConfigFile.ImportFails (py "TypeError"),
        ConfigFile.ImportFails (py "TypeError"))
  /\ (GoogleUtils.AtImport.GOOGLE_DEFAULT_MODEL
        (Spec.read_of_config (World.Loaded Mock.DEFAULT_TEST_CONFIG)),
      GoogleUtils.AtImport.GOOGLE_VISION_MODEL
        (Spec.read_of_config (World.Loaded Mock.DEFAULT_TEST_CONFIG)))
     = (ConfigFile.Bound (Json.String (py "gemini-test-default")),
        ConfigFile.Bound (Json.String (py "gemini-test-vision"))).
Proof.
  destruct X23_google_models_from_config
    as (_ & Hfails & _ & _ & _ & Hconfigured & Hworld).
  split; [|split; [|split]].
  - apply (Hconfigured _
             [ (py "default_model", Json.String (py "gemini-test-default"));
               (py "vision_model", Json.String (py "gemini-test-vision")) ]).
    vm_compute. reflexivity.
  - apply (Hconfigured _ [(py "vision_model", Json.Null)]). vm_compute. reflexivity.
  - apply Hfails. right. right. right. left. eexists. split; [reflexivity|].
    apply elem_of_cons. right. apply elem_of_cons. by left.
  - apply (Hworld (Mock.test_world (py "ok"))).
    apply config_represents_read_of_config.
Defined.

(** X24.  Each adapter reads its own entry of [config.json] only: whatever
    stands under ["openai"], well-formed or not, leaves the two Google
    models as they are, and whatever stands under ["google"] leaves the
    OpenAI model as it is. *)
Theorem X24_provider_entries_are_independent w loaded_config entry :
  GoogleUtils.GOOGLE_DEFAULT_MODEL
    (Spec.with_config w (World.Loaded (<[py "openai" := entry]> loaded_config)))
  = GoogleUtils.GOOGLE_DEFAULT_MODEL (Spec.with_config w (World.Loaded loaded_config))
  /\ GoogleUtils.GOOGLE_VISION_MODEL
       (Spec.with_config w (World.Loaded (<[py "openai" := entry]> loaded_config)))
     = GoogleUtils.GOOGLE_VISION_MODEL (Spec.with_config w (World.Loaded loaded_config))
  /\ OpenAIUtils.OPENAI_DEFAULT_MODEL
       (Spec.with_config w (World.Loaded (<[py "google" := entry]> loaded_config)))
     = OpenAIUtils.OPENAI_DEFAULT_MODEL (Spec.with_config w (World.Loaded loaded_config)).
Proof.
  assert (py "openai" <> py "google") as Hne by (by vm_compute).
  unfold GoogleUtils.GOOGLE_DEFAULT_MODEL, GoogleUtils.GOOGLE_VISION_MODEL,
    GoogleUtils.MODEL_CONFIG, OpenAIUtils.OPENAI_DEFAULT_MODEL,
    OpenAIUtils.MODEL_CONFIG, Spec.with_config.
  cbn [World.config_json].
  rewrite !(lookup_insert_ne loaded_config (py "openai") (py "google")) by done.
  rewrite !(lookup_insert_ne loaded_config (py "google") (py "openai")) by done.
  repeat split;
    by destruct (loaded_config !! _) as [[d|]|] eqn:Hentry;
      rewrite ?lookup_insert_ne, ?Hentry by done.
Qed.
